(** * racing_muhasebe: ledger, import and reporting logic

    A shallow embedding of the bookkeeping handlers of the React pages
    (Reimbursements, MembershipFees, CashExpenses, MerchSales, BankImport,
    Members, Reports) together with the part of the record store they
    talk to, and the properties of the ledger sign convention, the
    importers and the reports.

    Conventions of the embedding.
    - Money amounts are JavaScript numbers that hold [numeric(10,2)]
      column values; they are modelled as exact integers ([Z]).  Rounding
      is outside the model.  Where a text is read as a number (the amount
      column of a bank statement) the result is a [number], which may be
      [NaN].
    - Texts are [string]s; [length] counts characters, which agrees with
      JavaScript on ASCII text.  [toLowerCase] of the language is a
      parameter of the member import; on the search box and on the
      direction word of a bank row its effect on the letters A to Z is
      what matters, and is written out.
    - Dates of the store ([date] columns) are ISO [YYYY-MM-DD] strings and
      are compared in lexicographic order, which is the calendar order on
      that format.
    - Every handler is a function from the record store (and the page
      state it reads) to the record store.  The store accepts what it is
      sent, with three exceptions that are written out: a member row
      without a name, a bank row whose amount is [NaN] (sent as [null]
      to a [NOT NULL] column), and the item rows of a sale (a separate
      outcome of the sale).  *)

From Stdlib Require Import ZArith List String Ascii Bool Arith Lia.
From Stdlib Require Import Numbers.DecimalString.
From Stdlib Require Import Permutation Sorted.
Import ListNotations.
Open Scope string_scope.
Open Scope Z_scope.

(* ===================================================================== *)
(** * Part I: definitions                                                 *)
(* ===================================================================== *)

(** ** JavaScript values and built-ins used by the pages *)

Module JS.

(** A value found in a parsed spreadsheet row: a text, a number, or no
    value ([undefined], which is also what reading an index gives where a
    sparse row has no cell). *)
Inductive cell : Type :=
| Undefined
| Str (s : string)
| Num (n : Z).

(** A number: a finite value or [NaN]. *)
Inductive number : Type :=
| NaN
| Finite (z : Z).

(** [Math.abs(x)]. *)
Definition abs (x : number) : number :=
  match x with
  | NaN => NaN
  | Finite z => Finite (Z.abs z)
  end.

(** [x >= 0] and [x < 0]; both are false of [NaN]. *)
Definition geZero (x : number) : bool :=
  match x with
  | NaN => false
  | Finite z => z >=? 0
  end.

Definition ltZero (x : number) : bool :=
  match x with
  | NaN => false
  | Finite z => z <? 0
  end.

(** Truthiness: [undefined], the empty string and [0] are falsy. *)
Definition truthy (c : cell) : bool :=
  match c with
  | Undefined => false
  | Str s => negb (s =? "")%string
  | Num n => negb (n =? 0)
  end.

(** [a || b]. *)
Definition or_else (a b : cell) : cell := if truthy a then a else b.

(** A non-empty string used as a condition. *)
Definition nonEmpty (s : string) : bool := negb (s =? "")%string.

(** [s.includes(needle)]. *)
Fixpoint includes (needle s : string) : bool :=
  String.prefix needle s ||
  match s with
  | EmptyString => false
  | String _ s' => includes needle s'
  end.

(** [s.split(sep)] for a separator that is one character out of a class:
    every separator character ends a segment, so a text with [n]
    separators gives [n + 1] segments. *)
Fixpoint split (sep : ascii -> bool) (s : string) : list string :=
  match s with
  | EmptyString => [EmptyString]
  | String c s' =>
      if sep c then EmptyString :: split sep s'
      else match split sep s' with
           | [] => [String c EmptyString]
           | seg :: segs => String c seg :: segs
           end
  end.

Definition isChar (c : ascii) : ascii -> bool := Ascii.eqb c.

(** The character class of the regular expression [/[- ]/]. *)
Definition dashOrSpace (c : ascii) : bool :=
  Ascii.eqb c "-" || Ascii.eqb c " ".

Fixpoint repeat_char (c : ascii) (n : nat) : string :=
  match n with
  | O => EmptyString
  | S n' => String c (repeat_char c n')
  end.

(** [s.padStart(n, c)] for a one-character filler. *)
Definition padStart (n : nat) (c : ascii) (s : string) : string :=
  repeat_char c (n - String.length s) ++ s.

Definition isUpper (c : ascii) : bool :=
  let n := nat_of_ascii c in (65 <=? n)%nat && (n <=? 90)%nat.

Definition isLower (c : ascii) : bool :=
  let n := nat_of_ascii c in (97 <=? n)%nat && (n <=? 122)%nat.

Definition isDigit (c : ascii) : bool :=
  let n := nat_of_ascii c in (48 <=? n)%nat && (n <=? 57)%nat.

Definition lowerChar (c : ascii) : ascii :=
  if isUpper c then ascii_of_nat (nat_of_ascii c + 32) else c.

(** The effect of [s.toLowerCase()] on the letters A to Z; every other
    character is kept.  No other character is turned into one of the
    letters of "out", so whether the result contains that word is decided
    by this part alone. *)
Fixpoint toLowerCase (s : string) : string :=
  match s with
  | EmptyString => EmptyString
  | String c s' => String (lowerChar c) (toLowerCase s')
  end.

Fixpoint filter_chars (p : ascii -> bool) (s : string) : string :=
  match s with
  | EmptyString => EmptyString
  | String c s' => if p c then String c (filter_chars p s') else filter_chars p s'
  end.

(** [s.replace(/[^a-zA-Z0-9]/g, '')]. *)
Definition stripNonAlnum (s : string) : string :=
  filter_chars (fun c => isLower c || isUpper c || isDigit c) s.

(** [new Set(l).has(x)] on strings. *)
Definition has (l : list string) (x : string) : bool :=
  existsb (String.eqb x) l.

(** [l.find(p)]. *)
Definition find {A} (p : A -> bool) (l : list A) : option A := List.find p l.

(** [l.reduce((sum, x) => sum + f(x), 0)]. *)
Definition reduce_sum {A} (f : A -> Z) (l : list A) : Z :=
  fold_left (fun sum x => sum + f x) l 0.

End JS.

Import JS.

(** ** The record store

    One record type per table of the migration; columns that no handler
    reads or writes ([created_at], [updated_at]) are left out.  Row
    identifiers are drawn from a counter of the store. *)

Definition uuid := nat.

Record Member := {
  m_id : uuid;
  full_name : string;
  team : string;
  join_date : string;
  leave_date : option string;
  m_notes : string
}.

Record Product := {
  p_id : uuid;
  p_name : string;
  p_category : string;
  p_unit_price : Z;
  stock_quantity : Z
}.

Record SalesOrder := {
  so_id : uuid;
  so_member_id : uuid;
  order_date : string;
  so_payment_method : string;
  so_payment_status : string;
  total_amount : Z
}.

Record SalesOrderItem := {
  order_id : uuid;
  product_id : uuid;
  product_name : string;
  quantity : Z;
  unit_price : Z;
  line_total : Z
}.

Record BankTransaction := {
  bt_txn_date : string;
  bt_description : string;
  bt_amount : Z;
  bt_direction : string;
  counterparty : string;
  reference : string;
  import_hash : string;
  import_filename : string
}.

Record CashExpense := {
  ce_id : uuid;
  expense_date : string;
  ce_amount : Z;
  ce_description : string;
  ce_category : string;
  ce_project : string;
  ce_vendor : string;
  ce_receipt_note : string
}.

Record Reimbursement := {
  r_id : uuid;
  r_member_id : uuid;
  purchase_date : string;
  r_vendor : string;
  r_description : string;
  r_amount : Z;
  r_category : string;
  r_project : string;
  r_payment_status : string;
  r_payment_date : option string;
  r_payment_method : option string
}.

Record MembershipFee := {
  f_id : uuid;
  f_member_id : uuid;
  fee_month : string;
  f_amount : Z;
  f_payment_status : string;
  f_payment_method : option string;
  f_payment_date : option string
}.

Record LedgerEntry := {
  txn_date : string;
  txn_type : string;
  amount : Z;
  member_id : option uuid;
  project : string;
  category : string;
  description : string;
  source : string;
  reference_type : string;
  reference_id : option uuid
}.

Record Store := {
  members : list Member;
  products : list Product;
  sales_orders : list SalesOrder;
  sales_order_items : list SalesOrderItem;
  bank_transactions : list BankTransaction;
  cash_expenses : list CashExpense;
  reimbursements : list Reimbursement;
  membership_fees : list MembershipFee;
  transactions_ledger : list LedgerEntry;
  next_id : uuid
}.

Module Db.

Definition set_members (v : list Member) (db : Store) : Store :=
  {| members := v; products := products db; sales_orders := sales_orders db;
     sales_order_items := sales_order_items db;
     bank_transactions := bank_transactions db; cash_expenses := cash_expenses db;
     reimbursements := reimbursements db; membership_fees := membership_fees db;
     transactions_ledger := transactions_ledger db; next_id := next_id db |}.

Definition set_products (v : list Product) (db : Store) : Store :=
  {| members := members db; products := v; sales_orders := sales_orders db;
     sales_order_items := sales_order_items db;
     bank_transactions := bank_transactions db; cash_expenses := cash_expenses db;
     reimbursements := reimbursements db; membership_fees := membership_fees db;
     transactions_ledger := transactions_ledger db; next_id := next_id db |}.

Definition set_sales_orders (v : list SalesOrder) (db : Store) : Store :=
  {| members := members db; products := products db; sales_orders := v;
     sales_order_items := sales_order_items db;
     bank_transactions := bank_transactions db; cash_expenses := cash_expenses db;
     reimbursements := reimbursements db; membership_fees := membership_fees db;
     transactions_ledger := transactions_ledger db; next_id := next_id db |}.

Definition set_sales_order_items (v : list SalesOrderItem) (db : Store) : Store :=
  {| members := members db; products := products db; sales_orders := sales_orders db;
     sales_order_items := v;
     bank_transactions := bank_transactions db; cash_expenses := cash_expenses db;
     reimbursements := reimbursements db; membership_fees := membership_fees db;
     transactions_ledger := transactions_ledger db; next_id := next_id db |}.

Definition set_bank_transactions (v : list BankTransaction) (db : Store) : Store :=
  {| members := members db; products := products db; sales_orders := sales_orders db;
     sales_order_items := sales_order_items db;
     bank_transactions := v; cash_expenses := cash_expenses db;
     reimbursements := reimbursements db; membership_fees := membership_fees db;
     transactions_ledger := transactions_ledger db; next_id := next_id db |}.

Definition set_cash_expenses (v : list CashExpense) (db : Store) : Store :=
  {| members := members db; products := products db; sales_orders := sales_orders db;
     sales_order_items := sales_order_items db;
     bank_transactions := bank_transactions db; cash_expenses := v;
     reimbursements := reimbursements db; membership_fees := membership_fees db;
     transactions_ledger := transactions_ledger db; next_id := next_id db |}.

Definition set_reimbursements (v : list Reimbursement) (db : Store) : Store :=
  {| members := members db; products := products db; sales_orders := sales_orders db;
     sales_order_items := sales_order_items db;
     bank_transactions := bank_transactions db; cash_expenses := cash_expenses db;
     reimbursements := v; membership_fees := membership_fees db;
     transactions_ledger := transactions_ledger db; next_id := next_id db |}.

Definition set_membership_fees (v : list MembershipFee) (db : Store) : Store :=
  {| members := members db; products := products db; sales_orders := sales_orders db;
     sales_order_items := sales_order_items db;
     bank_transactions := bank_transactions db; cash_expenses := cash_expenses db;
     reimbursements := reimbursements db; membership_fees := v;
     transactions_ledger := transactions_ledger db; next_id := next_id db |}.

Definition set_transactions_ledger (v : list LedgerEntry) (db : Store) : Store :=
  {| members := members db; products := products db; sales_orders := sales_orders db;
     sales_order_items := sales_order_items db;
     bank_transactions := bank_transactions db; cash_expenses := cash_expenses db;
     reimbursements := reimbursements db; membership_fees := membership_fees db;
     transactions_ledger := v; next_id := next_id db |}.

Definition set_next_id (v : uuid) (db : Store) : Store :=
  {| members := members db; products := products db; sales_orders := sales_orders db;
     sales_order_items := sales_order_items db;
     bank_transactions := bank_transactions db; cash_expenses := cash_expenses db;
     reimbursements := reimbursements db; membership_fees := membership_fees db;
     transactions_ledger := transactions_ledger db; next_id := v |}.

Definition empty : Store :=
  {| members := []; products := []; sales_orders := []; sales_order_items := [];
     bank_transactions := []; cash_expenses := []; reimbursements := [];
     membership_fees := []; transactions_ledger := []; next_id := O |}.

(** [supabase.from('transactions_ledger').insert(e)]: the ledger is only
    ever appended to. *)
Definition insert_ledger (e : LedgerEntry) (db : Store) : Store :=
  set_transactions_ledger (transactions_ledger db ++ [e]) db.

(** [supabase.from('bank_transactions').insert(rows)]; the table has a plain
    (not unique) index on [import_hash], so every row is stored. *)
Definition insert_bank_transactions (rows : list BankTransaction) (db : Store) : Store :=
  set_bank_transactions (bank_transactions db ++ rows) db.

(** A fee row as the page sends it; the store fills in the identifier and
    the column defaults. *)
Record NewFee := {
  nf_member_id : uuid;
  nf_fee_month : string;
  nf_amount : Z;
  nf_payment_status : string
}.

Definition conflicts (n : NewFee) (f : MembershipFee) : bool :=
  (f_member_id f =? nf_member_id n)%nat && (fee_month f =? nf_fee_month n)%string.

(** One row of [upsert(rows, { onConflict: 'member_id,fee_month',
    ignoreDuplicates: true })], that is [INSERT ... ON CONFLICT (member_id,
    fee_month) DO NOTHING] against [UNIQUE(member_id, fee_month)]. *)
Definition upsert_fee_ignore (db : Store) (n : NewFee) : Store :=
  if existsb (conflicts n) (membership_fees db) then db
  else
    set_next_id (S (next_id db))
      (set_membership_fees
         (membership_fees db ++
            [{| f_id := next_id db; f_member_id := nf_member_id n;
                fee_month := nf_fee_month n; f_amount := nf_amount n;
                f_payment_status := nf_payment_status n;
                f_payment_method := None; f_payment_date := None |}]) db).

Definition upsert_fees_ignore (rows : list NewFee) (db : Store) : Store :=
  fold_left upsert_fee_ignore rows db.

End Db.

(** ** Reimbursements page *)

Module Reimbursements.

(** A row of the page state: the stored reimbursement joined with the
    member's name. *)
Record Row := {
  reimb : Reimbursement;
  member_name : string
}.

Definition markPaid (paymentMethod today : string) (r : Reimbursement) : Reimbursement :=
  {| r_id := r_id r; r_member_id := r_member_id r; purchase_date := purchase_date r;
     r_vendor := r_vendor r; r_description := r_description r; r_amount := r_amount r;
     r_category := r_category r; r_project := r_project r;
     r_payment_status := "paid";
     r_payment_date := Some today;
     r_payment_method := Some paymentMethod |}.

(** [.update({...}).eq('id', reimbursementId)]. *)
Definition update_paid (paymentMethod today : string) (reimbursementId : uuid)
    (db : Store) : Store :=
  Db.set_reimbursements
    (map (fun r => if (r_id r =? reimbursementId)%nat then markPaid paymentMethod today r else r)
         (reimbursements db)) db.

(** [handleMarkPaid]; [prompt] is the answer of the payment-method dialog
    ([None] when it is dismissed), [today] the current date, [rows] the
    [reimbursements] state of the page. *)
Definition handleMarkPaid (prompt : option string) (today : string)
    (rows : list Row) (reimbursementId : uuid) (db : Store) : Store :=
  match prompt with
  | None => db
  | Some paymentMethod =>
      if negb (nonEmpty paymentMethod) then db
      else
        let db1 := update_paid paymentMethod today reimbursementId db in
        match JS.find (fun r => (r_id (reimb r) =? reimbursementId)%nat) rows with
        | Some row =>
            Db.insert_ledger
              {| txn_date := today;
                 txn_type := "reimbursement_payment";
                 amount := - r_amount (reimb row);
                 member_id := Some (r_member_id (reimb row));
                 project := r_project (reimb row);
                 category := r_category (reimb row);
                 description := "Reimbursement paid: " ++ r_description (reimb row);
                 source := paymentMethod;
                 reference_type := "reimbursement";
                 reference_id := Some reimbursementId |} db1
        | None => db1
        end
  end.

End Reimbursements.

(** ** Membership fees page *)

Module MembershipFees.

Record Row := {
  fee : MembershipFee;
  member_name : string
}.

(** The filter of the [activeMembers] query:
    [.lte('join_date', monthStart)] and
    [.or('leave_date.is.null,leave_date.gte.' + monthStart)]. *)
Definition isActive (monthStart : string) (m : Member) : bool :=
  (join_date m <=? monthStart)%string &&
  match leave_date m with
  | None => true
  | Some d => (monthStart <=? d)%string
  end.

(** For a month picker value [YYYY-MM],
    [new Date(selectedMonth + '-01').toISOString().split('T')[0]]. *)
Definition monthStartOf (selectedMonth : string) : string := selectedMonth ++ "-01".

Definition activeMembers (selectedMonth : string) (db : Store) : list Member :=
  filter (isActive (monthStartOf selectedMonth)) (members db).

Definition feesToInsert (selectedMonth : string) (feeAmount : Z)
    (active : list Member) : list Db.NewFee :=
  map (fun member =>
         {| Db.nf_member_id := m_id member;
            Db.nf_fee_month := monthStartOf selectedMonth;
            Db.nf_amount := feeAmount;
            Db.nf_payment_status := "unpaid" |}) active.

(** [handleGenerateFees]; [confirmed] is the answer of the confirm dialog. *)
Definition handleGenerateFees (confirmed : bool) (selectedMonth : string)
    (feeAmount : Z) (db : Store) : Store :=
  if negb confirmed then db
  else
    let active := activeMembers selectedMonth db in
    if (List.length active =? 0)%nat then db
    else Db.upsert_fees_ignore (feesToInsert selectedMonth feeAmount active) db.

Definition markPaid (paymentMethod today : string) (f : MembershipFee) : MembershipFee :=
  {| f_id := f_id f; f_member_id := f_member_id f; fee_month := fee_month f;
     f_amount := f_amount f;
     f_payment_status := "paid";
     f_payment_method := Some paymentMethod;
     f_payment_date := Some today |}.

Definition update_paid (paymentMethod today : string) (feeId : uuid) (db : Store) : Store :=
  Db.set_membership_fees
    (map (fun f => if (f_id f =? feeId)%nat then markPaid paymentMethod today f else f)
         (membership_fees db)) db.

(** [handleMarkPaid]; [rows] is the [fees] state of the page. *)
Definition handleMarkPaid (prompt : option string) (today selectedMonth : string)
    (rows : list Row) (feeId : uuid) (db : Store) : Store :=
  match prompt with
  | None => db
  | Some paymentMethod =>
      if negb (nonEmpty paymentMethod) then db
      else
        let db1 := update_paid paymentMethod today feeId db in
        match JS.find (fun f => (f_id (fee f) =? feeId)%nat) rows with
        | Some row =>
            Db.insert_ledger
              {| txn_date := today;
                 txn_type := "membership_fee_payment";
                 amount := f_amount (fee row);
                 member_id := Some (f_member_id (fee row));
                 project := "General";
                 category := "membership";
                 description := "Membership fee payment for " ++ selectedMonth
                                ++ " - " ++ member_name row;
                 source := paymentMethod;
                 reference_type := "membership_fee";
                 reference_id := Some feeId |} db1
        | None => db1
        end
  end.

End MembershipFees.

(** ** Cash expenses page *)

Module CashExpenses.

Record FormData := {
  fd_expense_date : string;
  fd_amount : Z;
  fd_description : string;
  fd_category : string;
  fd_project : string;
  fd_receipt_note : string;
  fd_vendor : string
}.

(** [handleAddExpense]: the expense row is stored, then its ledger entry. *)
Definition handleAddExpense (formData : FormData) (db : Store) : Store :=
  let expenseId := next_id db in
  let db1 :=
    Db.set_next_id (S expenseId)
      (Db.set_cash_expenses
         (cash_expenses db ++
            [{| ce_id := expenseId; expense_date := fd_expense_date formData;
                ce_amount := fd_amount formData;
                ce_description := fd_description formData;
                ce_category := fd_category formData;
                ce_project := fd_project formData;
                ce_vendor := fd_vendor formData;
                ce_receipt_note := fd_receipt_note formData |}]) db) in
  Db.insert_ledger
    {| txn_date := fd_expense_date formData;
       txn_type := "cash_expense";
       amount := - fd_amount formData;
       member_id := None;
       project := fd_project formData;
       category := fd_category formData;
       description := fd_description formData;
       source := "cash";
       reference_type := "cash_expense";
       reference_id := Some expenseId |} db1.

End CashExpenses.

(** ** Merch sales page *)

Module MerchSales.

Record SaleItem := {
  si_product_id : uuid;
  si_quantity : Z;
  si_unit_price : Z
}.

Record SaleForm := {
  sf_member_id : uuid;
  sf_order_date : string;
  sf_payment_method : string;
  sf_payment_status : string;
  items : list SaleItem
}.

Definition findProduct (prods : list Product) (id : uuid) : option Product :=
  JS.find (fun p => (p_id p =? id)%nat) prods.

(** [saleForm.items.reduce((sum, item) => sum + item.quantity * item.unit_price, 0)]. *)
Definition saleTotal (its : list SaleItem) : Z :=
  JS.reduce_sum (fun item => si_quantity item * si_unit_price item) its.

Definition itemRow (prods : list Product) (orderId : uuid) (item : SaleItem)
    : SalesOrderItem :=
  {| order_id := orderId;
     product_id := si_product_id item;
     product_name := match findProduct prods (si_product_id item) with
                     | Some product => p_name product
                     | None => ""
                     end;
     quantity := si_quantity item;
     unit_price := si_unit_price item;
     line_total := si_quantity item * si_unit_price item |}.

(** [.update({ stock_quantity: v }).eq('id', id)] on [products]. *)
Definition update_stock (id : uuid) (v : Z) (db : Store) : Store :=
  Db.set_products
    (map (fun p => if (p_id p =? id)%nat
                   then {| p_id := p_id p; p_name := p_name p;
                           p_category := p_category p;
                           p_unit_price := p_unit_price p;
                           stock_quantity := v |}
                   else p) (products db)) db.

(** The body of the stock loop for one item: the new stock is computed
    from [prods], the product list the page loaded before the sale. *)
Definition deductStock (prods : list Product) (db : Store) (item : SaleItem) : Store :=
  match findProduct prods (si_product_id item) with
  | Some product =>
      update_stock (si_product_id item) (stock_quantity product - si_quantity item) db
  | None => db
  end.

(** [handleCreateSale], for a sale whose rows the store accepts; [prods]
    is the [products] state of the page. *)
Definition handleCreateSale (prods : list Product) (saleForm : SaleForm)
    (db : Store) : Store :=
  if (List.length (items saleForm) =? 0)%nat then db
  else
    let total := saleTotal (items saleForm) in
    let orderId := next_id db in
    let db1 :=
      Db.set_next_id (S orderId)
        (Db.set_sales_orders
           (sales_orders db ++
              [{| so_id := orderId; so_member_id := sf_member_id saleForm;
                  order_date := sf_order_date saleForm;
                  so_payment_method := sf_payment_method saleForm;
                  so_payment_status := sf_payment_status saleForm;
                  total_amount := total |}]) db) in
    let rows := map (itemRow prods orderId) (items saleForm) in
    let db2 := Db.set_sales_order_items (sales_order_items db1 ++ rows) db1 in
    let db3 := fold_left (deductStock prods) (items saleForm) db2 in
    if (sf_payment_status saleForm =? "paid")%string then
      Db.insert_ledger
        {| txn_date := sf_order_date saleForm;
           txn_type := "merch_sale";
           amount := total;
           member_id := Some (sf_member_id saleForm);
           project := "General";
           category := "merch";
           description := "Merch sale";
           source := sf_payment_method saleForm;
           reference_type := "sale_order";
           reference_id := Some orderId |} db3
    else db3.

End MerchSales.

(** ** Bank import page *)

Module BankImport.

(** A parsed spreadsheet row: header name to cell value. *)
Definition ParsedRow := list (string * cell).

(** [row[key]]. *)
Fixpoint get (row : ParsedRow) (key : string) : cell :=
  match row with
  | [] => Undefined
  | (k, v) :: rest => if (k =? key)%string then v else get rest key
  end.

Record ColumnMapping := {
  cm_txn_date : string;
  cm_description : string;
  cm_amount : string;
  cm_direction : string;
  cm_counterparty : string;
  cm_reference : string
}.

(** The date rewriting at the head of the row mapping: a text that
    contains a slash is cut at the first dash or space and split on the
    slashes. *)
Definition normalizeDate (txnDate : cell) : cell :=
  match txnDate with
  | Str s =>
      if includes "/" s then
        let datePart := hd EmptyString (split dashOrSpace s) in
        match split (isChar "/") datePart with
        | [day; month; year] =>
            if (String.length day <=? 2)%nat && (String.length month <=? 2)%nat
               && (String.length year =? 4)%nat
            then Str (year ++ "-" ++ padStart 2 "0" month ++ "-" ++ padStart 2 "0" day)
            else Str s
        | _ => Str s
        end
      else Str s
  | _ => txnDate
  end.

(** The object that the row mapping builds.  Its amount is a number of
    the language, which is [NaN] when the amount text cannot be read. *)
Record Transaction := {
  t_txn_date : string;
  t_description : string;
  t_amount : number;
  t_direction : string;
  t_counterparty : string;
  t_reference : string;
  t_import_hash : string;
  t_import_filename : string
}.

(** The row that the store holds for such an object.  [NaN] is sent as
    [null], which the [NOT NULL] amount column refuses. *)
Definition stored (t : Transaction) : option BankTransaction :=
  match t_amount t with
  | Finite a =>
      Some {| bt_txn_date := t_txn_date t;
              bt_description := t_description t;
              bt_amount := a;
              bt_direction := t_direction t;
              counterparty := t_counterparty t;
              reference := t_reference t;
              import_hash := t_import_hash t;
              import_filename := t_import_filename t |}
  | NaN => None
  end.

(** The rows of one insert: the store refuses them as a whole when it
    refuses one of them. *)
Fixpoint storedAll (l : list Transaction) : option (list BankTransaction) :=
  match l with
  | [] => Some []
  | t :: rest =>
      match stored t, storedAll rest with
      | Some r, Some rs => Some (r :: rs)
      | _, _ => None
      end
  end.

Section Builtins.

(** The two number conversions of the language are parameters:
    [parseFloat] on a text and the text of a finite number. *)
Variable parseFloat : string -> number.
Variable numberToString : Z -> string.

(** [String(c)] and the conversion done by a template literal. *)
Definition String_ (c : cell) : string :=
  match c with
  | Undefined => "undefined"
  | Str s => s
  | Num n => numberToString n
  end.

(** The text of a number in a template literal. *)
Definition numberText (x : number) : string :=
  match x with
  | NaN => "NaN"
  | Finite z => numberToString z
  end.

(** [parseFloat(String(row[columnMapping.amount] || 0))]. *)
Definition rawAmount (columnMapping : ColumnMapping) (row : ParsedRow) : number :=
  parseFloat (String_ (or_else (get row (cm_amount columnMapping)) (Num 0))).

(** The [direction] constant of the row mapping. *)
Definition rawDirection (columnMapping : ColumnMapping) (row : ParsedRow) : string :=
  if nonEmpty (cm_direction columnMapping)
  then String_ (or_else (get row (cm_direction columnMapping)) (Str "in"))
  else if geZero (rawAmount columnMapping row) then "in" else "out".

(** The dedup hash: date, description and amount joined by dashes, with
    every character that is not a letter or a digit removed. *)
Definition hashOf (txnDate description : cell) (amount : number) : string :=
  stripNonAlnum (String_ txnDate ++ "-" ++ String_ description ++ "-"
                 ++ numberText amount).

(** The callback of [parsedData.map] in [handleImport]. *)
Definition toTransaction (columnMapping : ColumnMapping) (fileName : string)
    (row : ParsedRow) : Transaction :=
  let txnDate := normalizeDate (get row (cm_txn_date columnMapping)) in
  let description := or_else (get row (cm_description columnMapping)) (Str "") in
  let amount := rawAmount columnMapping row in
  let direction := rawDirection columnMapping row in
  let counterparty :=
    if nonEmpty (cm_counterparty columnMapping)
    then String_ (or_else (get row (cm_counterparty columnMapping)) (Str ""))
    else "" in
  let reference :=
    if nonEmpty (cm_reference columnMapping)
    then String_ (or_else (get row (cm_reference columnMapping)) (Str ""))
    else "" in
  let hash := hashOf txnDate description amount in
  {| t_txn_date := String_ txnDate;
     t_description := String_ description;
     t_amount := abs amount;
     t_direction :=
       if includes "out" (toLowerCase direction) || ltZero amount then "out" else "in";
     t_counterparty := counterparty;
     t_reference := reference;
     t_import_hash := hash;
     t_import_filename := fileName |}.

(** [.select('import_hash').in('import_hash', hashes)]. *)
Definition existingHashes (hashes : list string) (db : Store) : list string :=
  filter (has hashes) (map import_hash (bank_transactions db)).

Definition ledgerEntryOf (txn : BankTransaction) : LedgerEntry :=
  {| txn_date := bt_txn_date txn;
     txn_type := "bank_transaction";
     amount := if (bt_direction txn =? "in")%string then bt_amount txn
               else - bt_amount txn;
     member_id := None;
     project := "General";
     category := "bank";
     description := bt_description txn;
     source := "bank";
     reference_type := "bank_transaction";
     reference_id := None |}.

Definition transactionsToImport (columnMapping : ColumnMapping) (fileName : string)
    (parsedData : list ParsedRow) : list Transaction :=
  map (toTransaction columnMapping fileName) parsedData.

Definition newTransactions (columnMapping : ColumnMapping) (fileName : string)
    (parsedData : list ParsedRow) (db : Store) : list Transaction :=
  let toImport := transactionsToImport columnMapping fileName parsedData in
  let existingHashSet := existingHashes (map t_import_hash toImport) db in
  filter (fun t => negb (has existingHashSet (t_import_hash t))) toImport.

(** The rows that a run stores: those of [newTransactions], or none when
    the store refuses the insert. *)
Definition inserted (columnMapping : ColumnMapping) (fileName : string)
    (parsedData : list ParsedRow) (db : Store) : list BankTransaction :=
  match storedAll (newTransactions columnMapping fileName parsedData db) with
  | Some rows => rows
  | None => []
  end.

(** [handleImport]: map the rows, drop those whose hash is stored, insert
    the rest, then post one ledger entry per inserted row.  When the store
    refuses the insert the handler stops. *)
Definition handleImport (columnMapping : ColumnMapping) (fileName : string)
    (parsedData : list ParsedRow) (db : Store) : Store :=
  let new := newTransactions columnMapping fileName parsedData db in
  if (List.length new =? 0)%nat then db
  else
    match storedAll new with
    | None => db
    | Some rows =>
        let db1 := Db.insert_bank_transactions rows db in
        fold_left (fun d txn => Db.insert_ledger (ledgerEntryOf txn) d) rows db1
    end.

End Builtins.

End BankImport.

(** ** Members page *)

Module Members.

(** [a || b] on values that are texts or [undefined]. *)
Definition or_text (a b : option string) : option string :=
  match a with
  | Some s => if nonEmpty s then a else b
  | None => b
  end.

(** One element of the uploaded JSON array: the canonical keys and the
    two Turkish labels (İsim Soyisim, Ekip). *)
Record RawRecord := {
  raw_full_name : option string;
  raw_isim_soyisim : option string;
  raw_team : option string;
  raw_ekip : option string;
  raw_join_date : option string;
  raw_notes : option string
}.

Record ImportRow := {
  i_full_name : option string;
  i_team : string;
  i_join_date : string;
  i_notes : string
}.

Definition text_or (a : option string) (d : string) : string :=
  match or_text a (Some d) with
  | Some s => s
  | None => d
  end.

(** The callback of [membersArray.map] in [handleFileUpload]. *)
Definition mapRecord (today : string) (m : RawRecord) : ImportRow :=
  {| i_full_name := or_text (raw_full_name m) (raw_isim_soyisim m);
     i_team := match or_text (raw_team m) (raw_ekip m) with
               | Some s => s
               | None => ""
               end;
     i_join_date := text_or (raw_join_date m) today;
     i_notes := text_or (raw_notes m) "" |}.

Definition handleFileUpload (today : string) (membersArray : list RawRecord)
    : list ImportRow :=
  map (mapRecord today) membersArray.

Section Builtins.

(** [String.prototype.toLowerCase] is a parameter. *)
Variable toLowerCase : string -> string.

(** [new Set(members.map(m => m.full_name.toLowerCase()))]. *)
Definition existingNames (membersState : list Member) : list string :=
  map (fun m => toLowerCase (full_name m)) membersState.

(** [!existingNames.has(m.full_name?.toLowerCase())]; a set of texts never
    has [undefined]. *)
Definition isNew (names : list string) (m : ImportRow) : bool :=
  negb match i_full_name m with
       | Some n => has names (toLowerCase n)
       | None => false
       end.

Definition newMembers (membersState : list Member) (importData : list ImportRow)
    : list ImportRow :=
  filter (isNew (existingNames membersState)) importData.

Definition insertMember (today : string) (db : Store) (m : ImportRow) : Store :=
  Db.set_next_id (S (next_id db))
    (Db.set_members
       (members db ++
          [{| m_id := next_id db;
              full_name := match i_full_name m with Some n => n | None => "" end;
              team := i_team m;
              join_date := if nonEmpty (i_join_date m) then i_join_date m else today;
              leave_date := None;
              m_notes := i_notes m |}]) db).

Definition hasName (m : ImportRow) : bool :=
  match i_full_name m with Some _ => true | None => false end.

(** [handleImport]; [membersState] is the [members] state of the page.
    The rows go to the store in one insert, which the store refuses as a
    whole when a row has no [full_name] (the column is [NOT NULL]). *)
Definition handleImport (today : string) (membersState : list Member)
    (importData : list ImportRow) (db : Store) : Store :=
  let new := newMembers membersState importData in
  if (List.length new =? 0)%nat then db
  else if forallb hasName new then fold_left (insertMember today) new db
  else db.

End Builtins.

End Members.

(** ** Reports page *)

Module Reports.

Record MemberBalance := {
  member_name : string;
  fees_owed : Z;
  sales_owed : Z;
  reimb_owed : Z;
  net_balance : Z
}.

(** The callback of [members.map] in [loadMemberBalances].  The amounts
    come back from the store as numbers, on which
    [parseFloat(String(x))] is the identity. *)
Definition balanceOf (db : Store) (member : Member) : MemberBalance :=
  let memberFees := filter (fun f => (f_member_id f =? m_id member)%nat) (membership_fees db) in
  let memberSales := filter (fun s => (so_member_id s =? m_id member)%nat) (sales_orders db) in
  let memberReimb := filter (fun r => (r_member_id r =? m_id member)%nat) (reimbursements db) in
  let feesCharged :=
    reduce_sum f_amount (filter (fun f => (f_payment_status f =? "unpaid")%string) memberFees) in
  let salesUnpaid :=
    reduce_sum total_amount
      (filter (fun s => (so_payment_status s =? "unpaid")%string) memberSales) in
  let reimbOwed :=
    reduce_sum r_amount (filter (fun r => (r_payment_status r =? "unpaid")%string) memberReimb) in
  let netBalance := feesCharged + salesUnpaid - reimbOwed in
  {| member_name := full_name member;
     fees_owed := feesCharged;
     sales_owed := salesUnpaid;
     reimb_owed := reimbOwed;
     net_balance := netBalance |}.

Definition loadMemberBalances (db : Store) : list MemberBalance :=
  map (balanceOf db) (members db).

End Reports.

(** ** Reference definitions

    Definitions written after the wording of the specification, to which
    the handlers above are compared. *)

Module Spec.


(** The text has no slash. *)
Fixpoint noSlash (s : string) : bool :=
  match s with
  | EmptyString => true
  | String c s' => negb (Ascii.eqb "/" c) && noSlash s'
  end.





(** The sum of [amount] over the rows of [l] that belong to member [m]
    and are unpaid. *)
Fixpoint unpaidSum {A} (owner : A -> uuid) (status : A -> string) (amt : A -> Z)
    (m : uuid) (l : list A) : Z :=
  match l with
  | [] => 0
  | x :: rest =>
      (if (owner x =? m)%nat && (status x =? "unpaid")%string then amt x else 0)
      + unpaidSum owner status amt m rest
  end.

(** The sum over the line items of quantity times unit price. *)
Fixpoint itemsSum (its : list MerchSales.SaleItem) : Z :=
  match its with
  | [] => 0
  | item :: rest =>
      MerchSales.si_quantity item * MerchSales.si_unit_price item + itemsSum rest
  end.

(** The stock of product [id] in the store, if the product exists. *)
Definition stockOf (db : Store) (id : uuid) : option Z :=
  option_map stock_quantity (MerchSales.findProduct (products db) id).

(** The stock that the items of a sale write for product [id], starting
    from [acc]: each item that names the product, and whose product the
    page knows, overwrites what the items before it wrote. *)
Definition lastWritten (prods : list Product) (id : uuid)
    (its : list MerchSales.SaleItem) (acc : option Z) : option Z :=
  fold_left
    (fun acc item =>
       if (MerchSales.si_product_id item =? id)%nat
       then match MerchSales.findProduct prods id with
            | Some product => Some (stock_quantity product - MerchSales.si_quantity item)
            | None => acc
            end
       else acc) its acc.

End Spec.

(** ** Stand-ins for the number conversions on whole amounts

    Used where a statement is run on a concrete spreadsheet. *)

Module Whole.

(** The text of a whole number. *)
Definition numberToString (n : Z) : string :=
  NilEmpty.string_of_int (Z.to_int n).

Fixpoint digitsValue (acc : Z) (s : string) : Z :=
  match s with
  | EmptyString => acc
  | String c s' =>
      if isDigit c then digitsValue (10 * acc + Z.of_nat (nat_of_ascii c - 48)) s'
      else acc
  end.

(** [parseFloat] on a whole numeral with an optional minus sign, and on
    a text that does not start like a number, which reads as [NaN]. *)
Definition parseFloat (s : string) : number :=
  match s with
  | String "-" (String c s') =>
      if isDigit c then Finite (- digitsValue 0 (String c s')) else NaN
  | String c _ => if isDigit c then Finite (digitsValue 0 s) else NaN
  | EmptyString => NaN
  end.

End Whole.

(** ** Sample data

    Small stores, forms and spreadsheets on which statements are run. *)

Module Sample.

(** A member who joined in the middle of January 2024 and has not left
    (the first member of the demo data of the settings page). *)
Definition ahmet : Member :=
  {| m_id := 1%nat; full_name := "Ahmet Yilmaz"; team := "";
     join_date := "2024-01-15"; leave_date := None; m_notes := "Team lead" |}.


Definition withMembers (ms : list Member) : Store :=
  Db.set_next_id 10%nat (Db.set_members ms Db.empty).


Definition shirt : Product :=
  {| p_id := 1%nat; p_name := "Team T-Shirt"; p_category := "apparel";
     p_unit_price := 50; stock_quantity := 10 |}.

Definition sticker : Product :=
  {| p_id := 2%nat; p_name := "Sticker Pack"; p_category := "accessories";
     p_unit_price := 30; stock_quantity := 100 |}.

Definition shop : Store :=
  Db.set_next_id 10%nat (Db.set_products [shirt; sticker] Db.empty).

Definition saleOf (status : string) (its : list MerchSales.SaleItem) : MerchSales.SaleForm :=
  {| MerchSales.sf_member_id := 1%nat; MerchSales.sf_order_date := "2026-01-04";
     MerchSales.sf_payment_method := "cash"; MerchSales.sf_payment_status := status;
     MerchSales.items := its |}.

Definition item (product : uuid) (qty price : Z) : MerchSales.SaleItem :=
  {| MerchSales.si_product_id := product; MerchSales.si_quantity := qty;
     MerchSales.si_unit_price := price |}.

Definition fee200 : MembershipFee :=
  {| f_id := 5%nat; f_member_id := 1%nat; fee_month := "2024-02-01"; f_amount := 200;
     f_payment_status := "unpaid"; f_payment_method := None; f_payment_date := None |}.

Definition reimb100 : Reimbursement :=
  {| r_id := 6%nat; r_member_id := 1%nat; purchase_date := "2024-02-10";
     r_vendor := "Hardware store"; r_description := "Bolts"; r_amount := 100;
     r_category := "materials"; r_project := "General";
     r_payment_status := "unpaid"; r_payment_date := None; r_payment_method := None |}.

Definition reimb50 : Reimbursement :=
  {| r_id := 7%nat; r_member_id := 1%nat; purchase_date := "2024-02-11";
     r_vendor := "Stationer"; r_description := "Tape"; r_amount := 50;
     r_category := "materials"; r_project := "General";
     r_payment_status := "unpaid"; r_payment_date := None; r_payment_method := None |}.

(** One member with one unpaid fee of 200 and one unpaid reimbursement
    of 50. *)
Definition balanceStore : Store :=
  Db.set_reimbursements [reimb50]
    (Db.set_membership_fees [fee200] (withMembers [ahmet])).

Definition expense : CashExpenses.FormData :=
  {| CashExpenses.fd_expense_date := "2024-02-12"; CashExpenses.fd_amount := 75;
     CashExpenses.fd_description := "Fuel"; CashExpenses.fd_category := "travel";
     CashExpenses.fd_project := "General"; CashExpenses.fd_receipt_note := "";
     CashExpenses.fd_vendor := "Station" |}.

(** Column mappings of a statement with and without a direction column. *)
Definition mapping : BankImport.ColumnMapping :=
  {| BankImport.cm_txn_date := "Date"; BankImport.cm_description := "Description";
     BankImport.cm_amount := "Amount"; BankImport.cm_direction := "";
     BankImport.cm_counterparty := ""; BankImport.cm_reference := "" |}.


Definition sponsorRow : BankImport.ParsedRow :=
  [("Date", Str "04/01/2026-15:29:07"); ("Description", Str "Sponsor payment");
   ("Amount", Num 1500)].

Definition partsRow : BankImport.ParsedRow :=
  [("Date", Str "31/12/2025"); ("Description", Str "Parts");
   ("Amount", Num (-250))].

(** A row whose amount cell holds a remark instead of a number. *)
Definition pendingRow : BankImport.ParsedRow :=
  [("Date", Str "06/01/2026"); ("Description", Str "Card payment");
   ("Amount", Str "pending")].


End Sample.

(** ** Objects used as dictionaries

    A plain object whose keys are not array indices lists its keys in
    the order in which they were first written. *)

Module Obj.

Definition t (V : Type) := list (string * V).

(** [obj[key]]. *)
Fixpoint lookup {V} (o : t V) (key : string) : option V :=
  match o with
  | [] => None
  | (k, v) :: rest => if (k =? key)%string then Some v else lookup rest key
  end.

Definition hasKey {V} (o : t V) (key : string) : bool :=
  match lookup o key with
  | Some _ => true
  | None => false
  end.

(** [obj[key] = f(obj[key])] for a key that is present. *)
Fixpoint update {V} (key : string) (f : V -> V) (o : t V) : t V :=
  match o with
  | [] => []
  | (k, v) :: rest =>
      if (k =? key)%string then (k, f v) :: rest else (k, v) :: update key f rest
  end.

(** [obj[key] = v]. *)
Definition set {V} (key : string) (v : V) (o : t V) : t V :=
  if hasKey o key then update key (fun _ => v) o else (o ++ [(key, v)])%list.

(** [if (!obj[key]) obj[key] = init; obj[key] = step(obj[key])], for
    values that are objects (and so truthy). *)
Definition touch {V} (key : string) (init : V) (step : V -> V) (o : t V) : t V :=
  update key step (if negb (hasKey o key) then (o ++ [(key, init)])%list else o).

(** [Object.keys(obj)] and [Object.values(obj)]. *)
Definition keys {V} (o : t V) : list string := map fst o.
Definition values {V} (o : t V) : list V := map snd o.

End Obj.

(** ** Reports page: profit and loss, cashflow, inventory, CSV export *)

(** [.gte('txn_date', start).lte('txn_date', end)] on the ledger. *)
Definition ledgerInRange (rangeStart rangeEnd : string) (db : Store) : list LedgerEntry :=
  filter (fun t => (rangeStart <=? txn_date t)%string && (txn_date t <=? rangeEnd)%string)
         (transactions_ledger db).

Module PLReport.

Record Row := {
  pl_category : string;
  pl_project : string;
  income : Z;
  expense : Z
}.

Definition keyOf (txn : LedgerEntry) : string := category txn ++ "-" ++ project txn.

(** The body of [data.forEach] in [loadPLReport]. *)
Definition add (summary : Obj.t Row) (txn : LedgerEntry) : Obj.t Row :=
  Obj.touch (keyOf txn)
    {| pl_category := category txn; pl_project := project txn; income := 0; expense := 0 |}
    (fun r =>
       if amount txn >? 0
       then {| pl_category := pl_category r; pl_project := pl_project r;
               income := income r + amount txn; expense := expense r |}
       else {| pl_category := pl_category r; pl_project := pl_project r;
               income := income r; expense := expense r + Z.abs (amount txn) |})
    summary.

Definition summaryOf (data : list LedgerEntry) : Obj.t Row := fold_left add data [].

Definition loadPLReport (rangeStart rangeEnd : string) (db : Store) : list Row :=
  Obj.values (summaryOf (ledgerInRange rangeStart rangeEnd db)).

End PLReport.

Module Cashflow.

Record Row := {
  month : string;
  inflow : Z;
  outflow : Z
}.

(** [txn.txn_date.substring(0, 7)]. *)
Definition monthOf (txn : LedgerEntry) : string := String.substring 0 7 (txn_date txn).

Definition add (monthlyData : Obj.t Row) (txn : LedgerEntry) : Obj.t Row :=
  Obj.touch (monthOf txn)
    {| month := monthOf txn; inflow := 0; outflow := 0 |}
    (fun r =>
       if amount txn >? 0
       then {| month := month r; inflow := inflow r + amount txn; outflow := outflow r |}
       else {| month := month r; inflow := inflow r;
               outflow := outflow r + Z.abs (amount txn) |})
    monthlyData.

Definition monthlyOf (data : list LedgerEntry) : Obj.t Row := fold_left add data [].

(** [.order('txn_date')]: ascending by date; rows of one date keep their
    order. *)
Fixpoint insertByDate (t : LedgerEntry) (l : list LedgerEntry) : list LedgerEntry :=
  match l with
  | [] => [t]
  | x :: rest =>
      if (txn_date t <=? txn_date x)%string then t :: x :: rest
      else x :: insertByDate t rest
  end.

Definition orderByDate (l : list LedgerEntry) : list LedgerEntry :=
  fold_right insertByDate [] l.

Definition loadCashflow (rangeStart rangeEnd : string) (db : Store) : list Row :=
  Obj.values (monthlyOf (orderByDate (ledgerInRange rangeStart rangeEnd db))).

End Cashflow.

Module Inventory.

Record Row := {
  inv_product_name : string;
  stock : Z;
  inv_unit_price : Z;
  total_sold : Z;
  total_revenue : Z
}.

(** The callback of [products.map] in [loadInventory]. *)
Definition rowOf (db : Store) (product : Product) : Row :=
  let productSales :=
    filter (fun i => (product_id i =? p_id product)%nat) (sales_order_items db) in
  let totalSold := reduce_sum quantity productSales in
  let totalRevenue := reduce_sum line_total productSales in
  {| inv_product_name := p_name product;
     stock := stock_quantity product;
     inv_unit_price := p_unit_price product;
     total_sold := totalSold;
     total_revenue := totalRevenue |}.

Definition loadInventory (db : Store) : list Row := map (rowOf db) (products db).

End Inventory.

(** ** Dashboard page *)

Module Dashboard.

Record Stats := {
  monthIncome : Z;
  monthExpense : Z;
  bankTransactionsCount : nat;
  pendingReimbursements : nat;
  totalMembersOwed : Z;
  totalOwedToMembers : Z
}.

(** The statistics of [loadDashboardData]; [startOfMonth] and
    [endOfMonth] are the two date texts the page derives from the clock. *)
Definition loadStats (startOfMonth endOfMonth : string) (db : Store) : Stats :=
  let ledger := ledgerInRange startOfMonth endOfMonth db in
  {| monthIncome := reduce_sum amount (filter (fun t => amount t >? 0) ledger);
     monthExpense := Z.abs (reduce_sum amount (filter (fun t => amount t <? 0) ledger));
     bankTransactionsCount :=
       List.length
         (filter (fun b => (startOfMonth <=? bt_txn_date b)%string
                           && (bt_txn_date b <=? endOfMonth)%string)
                 (bank_transactions db));
     pendingReimbursements :=
       List.length
         (filter (fun r => (r_payment_status r =? "unpaid")%string) (reimbursements db));
     totalMembersOwed := 0;
     totalOwedToMembers := 0 |}.

End Dashboard.

(** ** Reimbursements page: list filter, pending total, new reimbursement *)

Module ReimbursementList.

Inductive FilterStatus := all | paid | unpaid.

(** [filterData]. *)
Definition filterData (filterStatus : FilterStatus) (rows : list Reimbursements.Row)
    : list Reimbursements.Row :=
  match filterStatus with
  | paid =>
      filter (fun r => (r_payment_status (Reimbursements.reimb r) =? "paid")%string) rows
  | unpaid =>
      filter (fun r => (r_payment_status (Reimbursements.reimb r) =? "unpaid")%string) rows
  | all => rows
  end.

(** The [totalPending] figure, computed from the filtered list. *)
Definition totalPending (filteredReimbursements : list Reimbursements.Row) : Z :=
  reduce_sum (fun r => r_amount (Reimbursements.reimb r))
    (filter (fun r => (r_payment_status (Reimbursements.reimb r) =? "unpaid")%string)
            filteredReimbursements).

Record FormData := {
  fd_member_id : uuid;
  fd_purchase_date : string;
  fd_vendor : string;
  fd_description : string;
  fd_amount : Z;
  fd_category : string;
  fd_project : string
}.

(** [handleAddReimbursement]: the row is stored unpaid; nothing else is
    written. *)
Definition handleAddReimbursement (formData : FormData) (db : Store) : Store :=
  Db.set_next_id (S (next_id db))
    (Db.set_reimbursements
       (reimbursements db ++
          [{| r_id := next_id db; r_member_id := fd_member_id formData;
              purchase_date := fd_purchase_date formData;
              r_vendor := fd_vendor formData;
              r_description := fd_description formData;
              r_amount := fd_amount formData;
              r_category := fd_category formData;
              r_project := fd_project formData;
              r_payment_status := "unpaid";
              r_payment_date := None;
              r_payment_method := None |}]) db).

End ReimbursementList.

(** ** Membership fees page: the three totals *)

Module FeeTotals.

Definition totalFees (fees : list MembershipFees.Row) : Z :=
  reduce_sum (fun f => f_amount (MembershipFees.fee f)) fees.

Definition totalPaid (fees : list MembershipFees.Row) : Z :=
  reduce_sum (fun f => f_amount (MembershipFees.fee f))
    (filter (fun f => (f_payment_status (MembershipFees.fee f) =? "paid")%string) fees).

Definition totalUnpaid (fees : list MembershipFees.Row) : Z :=
  totalFees fees - totalPaid fees.

End FeeTotals.

(** ** Members page: list filter, new member, member left *)

Module MemberList.

Inductive FilterStatus := all | active | inactive.

(** A leave date used as a condition: [null] and the empty text are
    falsy. *)
Definition hasLeft (m : Member) : bool :=
  match leave_date m with
  | Some d => nonEmpty d
  | None => false
  end.

(** [filterMembers]. *)
Definition filterMembers (searchTerm : string) (filterStatus : FilterStatus)
    (membersState : list Member) : list Member :=
  let filtered :=
    if nonEmpty searchTerm
    then filter (fun m => includes (toLowerCase searchTerm) (toLowerCase (full_name m)))
                membersState
    else membersState in
  match filterStatus with
  | active => filter (fun m => negb (hasLeft m)) filtered
  | inactive => filter hasLeft filtered
  | all => filtered
  end.

Record FormData := {
  fd_full_name : string;
  fd_team : string;
  fd_join_date : string;
  fd_notes : string
}.

(** [handleAddMember]. *)
Definition handleAddMember (formData : FormData) (db : Store) : Store :=
  Db.set_next_id (S (next_id db))
    (Db.set_members
       (members db ++
          [{| m_id := next_id db; full_name := fd_full_name formData;
              team := fd_team formData; join_date := fd_join_date formData;
              leave_date := None; m_notes := fd_notes formData |}]) db).

(** [handleMarkLeft]; [confirmed] is the answer of the confirm dialog. *)
Definition handleMarkLeft (confirmed : bool) (today : string) (memberId : uuid)
    (db : Store) : Store :=
  if negb confirmed then db
  else
    Db.set_members
      (map (fun m => if (m_id m =? memberId)%nat
                     then {| m_id := m_id m; full_name := full_name m; team := team m;
                             join_date := join_date m; leave_date := Some today;
                             m_notes := m_notes m |}
                     else m) (members db)) db.

End MemberList.

(** ** Merch sales page: products and the items of the sale form *)

Module SaleFormEdit.

Record ProductForm := {
  pf_name : string;
  pf_category : string;
  pf_unit_price : Z;
  pf_stock_quantity : Z
}.

(** [handleAddProduct]. *)
Definition handleAddProduct (productForm : ProductForm) (db : Store) : Store :=
  Db.set_next_id (S (next_id db))
    (Db.set_products
       (products db ++
          [{| p_id := next_id db; p_name := pf_name productForm;
              p_category := pf_category productForm;
              p_unit_price := pf_unit_price productForm;
              stock_quantity := pf_stock_quantity productForm |}]) db).

Definition withItems (saleForm : MerchSales.SaleForm) (its : list MerchSales.SaleItem)
    : MerchSales.SaleForm :=
  {| MerchSales.sf_member_id := MerchSales.sf_member_id saleForm;
     MerchSales.sf_order_date := MerchSales.sf_order_date saleForm;
     MerchSales.sf_payment_method := MerchSales.sf_payment_method saleForm;
     MerchSales.sf_payment_status := MerchSales.sf_payment_status saleForm;
     MerchSales.items := its |}.

(** [addItemToSale]: a new item of the first product of the page, one
    piece at the product's price. *)
Definition addItemToSale (prods : list Product) (saleForm : MerchSales.SaleForm)
    : MerchSales.SaleForm :=
  match prods with
  | [] => saleForm
  | firstProduct :: _ =>
      withItems saleForm
        (MerchSales.items saleForm ++
           [{| MerchSales.si_product_id := p_id firstProduct;
               MerchSales.si_quantity := 1;
               MerchSales.si_unit_price := p_unit_price firstProduct |}])
  end.

(** [items.filter((_, i) => i !== index)]. *)
Fixpoint removeAt {A} (index : nat) (l : list A) : list A :=
  match l with
  | [] => []
  | x :: rest =>
      match index with
      | O => rest
      | S i => x :: removeAt i rest
      end
  end.

Definition removeItemFromSale (index : nat) (saleForm : MerchSales.SaleForm)
    : MerchSales.SaleForm :=
  withItems saleForm (removeAt index (MerchSales.items saleForm)).

(** The three ways in which the form calls [updateSaleItem]. *)
Inductive Change :=
| product_id_to (value : uuid)
| quantity_to (value : Z)
| unit_price_to (value : Z).

Definition applyChange (prods : list Product) (change : Change)
    (item : MerchSales.SaleItem) : MerchSales.SaleItem :=
  match change with
  | product_id_to value =>
      {| MerchSales.si_product_id := value;
         MerchSales.si_quantity := MerchSales.si_quantity item;
         MerchSales.si_unit_price :=
           match MerchSales.findProduct prods value with
           | Some product => p_unit_price product
           | None => MerchSales.si_unit_price item
           end |}
  | quantity_to value =>
      {| MerchSales.si_product_id := MerchSales.si_product_id item;
         MerchSales.si_quantity := value;
         MerchSales.si_unit_price := MerchSales.si_unit_price item |}
  | unit_price_to value =>
      {| MerchSales.si_product_id := MerchSales.si_product_id item;
         MerchSales.si_quantity := MerchSales.si_quantity item;
         MerchSales.si_unit_price := value |}
  end.

Fixpoint replaceAt {A} (index : nat) (f : A -> A) (l : list A) : option (list A) :=
  match l with
  | [] => None
  | x :: rest =>
      match index with
      | O => Some (f x :: rest)
      | S i => option_map (cons x) (replaceAt i f rest)
      end
  end.

(** [updateSaleItem] for the index of a listed item; the form never
    passes another index, for which the result is left open ([None]). *)
Definition updateSaleItem (prods : list Product) (index : nat) (change : Change)
    (saleForm : MerchSales.SaleForm) : option MerchSales.SaleForm :=
  option_map (withItems saleForm)
    (replaceAt index (applyChange prods change) (MerchSales.items saleForm)).

End SaleFormEdit.

(** ** Merch sales page: a sale whose item rows the store refuses *)

Module SaleRefused.

(** [handleCreateSale] when the store refuses the insert of the item rows
    (an item of a product that the store no longer has, an amount out of
    the range of the column): the order row is stored already, the handler
    throws, and neither the stock nor the ledger is written. *)
Definition handleCreateSale (saleForm : MerchSales.SaleForm) (db : Store) : Store :=
  if (List.length (MerchSales.items saleForm) =? 0)%nat then db
  else
    let total := MerchSales.saleTotal (MerchSales.items saleForm) in
    let orderId := next_id db in
    Db.set_next_id (S orderId)
      (Db.set_sales_orders
         (sales_orders db ++
            [{| so_id := orderId; so_member_id := MerchSales.sf_member_id saleForm;
                order_date := MerchSales.sf_order_date saleForm;
                so_payment_method := MerchSales.sf_payment_method saleForm;
                so_payment_status := MerchSales.sf_payment_status saleForm;
                total_amount := total |}]) db).

End SaleRefused.

(** ** Bank import page: reading the uploaded sheet *)

Module BankUpload.

(** The sheet as rows of cells ([sheet_to_json] with [header: 1]).  A
    row is a sparse array: [Undefined] stands for an index at which the
    sheet has no cell, which the array leaves out (a hole). *)
Definition Grid := list (list cell).

(** [row.map(f)]: a hole of the row stays a hole ([None]). *)
Definition mapRow (f : cell -> string) (row : list cell) : list (option string) :=
  map (fun c => match c with
                | Undefined => None
                | _ => Some (f c)
                end) row.

(** The elements of an array of texts that are not holes, in order. *)
Fixpoint present (headers : list (option string)) : list string :=
  match headers with
  | [] => []
  | Some h :: rest => h :: present rest
  | None :: rest => present rest
  end.

(** [row.includes('Tarih/Saat') || row.includes('Date')]. *)
Definition isMarker (c : cell) : bool :=
  match c with
  | Str s => (s =? "Tarih/Saat")%string || (s =? "Date")%string
  | _ => false
  end.

Definition hasMarker (row : list cell) : bool := existsb isMarker row.

(** The loop that looks for a known header row, from index [i] on. *)
Fixpoint scan (i : nat) (rows : Grid) : option (nat * list cell) :=
  match rows with
  | [] => None
  | row :: rest => if hasMarker row then Some (i, row) else scan (S i) rest
  end.

(** The characters that [trim] removes, among the ASCII ones. *)
Definition isSpace (c : ascii) : bool :=
  let n := nat_of_ascii c in (n =? 32)%nat || ((9 <=? n)%nat && (n <=? 13)%nat).

(** [h.trim() === '']. *)
Fixpoint isBlank (s : string) : bool :=
  match s with
  | EmptyString => true
  | String c s' => isSpace c && isBlank s'
  end.

Fixpoint includesText (l : list string) (x : string) : bool :=
  match l with
  | [] => false
  | y :: rest => (y =? x)%string || includesText rest x
  end.

Definition setTxnDate (v : string) (m : BankImport.ColumnMapping) :=
  {| BankImport.cm_txn_date := v;
     BankImport.cm_description := BankImport.cm_description m;
     BankImport.cm_amount := BankImport.cm_amount m;
     BankImport.cm_direction := BankImport.cm_direction m;
     BankImport.cm_counterparty := BankImport.cm_counterparty m;
     BankImport.cm_reference := BankImport.cm_reference m |}.

Definition setDescription (v : string) (m : BankImport.ColumnMapping) :=
  {| BankImport.cm_txn_date := BankImport.cm_txn_date m;
     BankImport.cm_description := v;
     BankImport.cm_amount := BankImport.cm_amount m;
     BankImport.cm_direction := BankImport.cm_direction m;
     BankImport.cm_counterparty := BankImport.cm_counterparty m;
     BankImport.cm_reference := BankImport.cm_reference m |}.

Definition setAmount (v : string) (m : BankImport.ColumnMapping) :=
  {| BankImport.cm_txn_date := BankImport.cm_txn_date m;
     BankImport.cm_description := BankImport.cm_description m;
     BankImport.cm_amount := v;
     BankImport.cm_direction := BankImport.cm_direction m;
     BankImport.cm_counterparty := BankImport.cm_counterparty m;
     BankImport.cm_reference := BankImport.cm_reference m |}.

Definition setReference (v : string) (m : BankImport.ColumnMapping) :=
  {| BankImport.cm_txn_date := BankImport.cm_txn_date m;
     BankImport.cm_description := BankImport.cm_description m;
     BankImport.cm_amount := BankImport.cm_amount m;
     BankImport.cm_direction := BankImport.cm_direction m;
     BankImport.cm_counterparty := BankImport.cm_counterparty m;
     BankImport.cm_reference := v |}.

(** The auto-mapping of the known column names; [headers] are the names
    that are present ([includes] finds no text in a hole). *)
Definition autoMapping (headers : list string) (columnMapping : BankImport.ColumnMapping)
    : BankImport.ColumnMapping :=
  let m1 := if includesText headers "Tarih/Saat"
            then setTxnDate "Tarih/Saat" columnMapping else columnMapping in
  let m2 := if includesText headers "Açıklama" then setDescription "Açıklama" m1 else m1 in
  let m3 := if includesText headers "İşlem Tutarı*"
            then setAmount "İşlem Tutarı*" m2 else m2 in
  let m4 := if includesText headers "Referans" then setReference "Referans" m3 else m3 in
  if nonEmpty (BankImport.cm_txn_date m4) then m4 else columnMapping.

(** The object built for one data row: [obj[header] = row[index]] for
    every header that is not empty, in column order; [forEach] passes
    over the holes. *)
Fixpoint rowObject (index : nat) (headers : list (option string)) (row : list cell)
    (obj : Obj.t cell) : Obj.t cell :=
  match headers with
  | [] => obj
  | header :: rest =>
      rowObject (S index) rest row
        match header with
        | Some h => if nonEmpty h then Obj.set h (nth index row Undefined) obj else obj
        | None => obj
        end
  end.

Record Upload := {
  columnNames : list string;
  parsedData : list BankImport.ParsedRow;
  columnMapping : BankImport.ColumnMapping;
  headerRowIndex : nat
}.

Section Builtins.

Variable numberToString : Z -> string.

(** The header names of the detected row: [String(h || '')]; of the
    first row when none was detected: [String(h)]. *)
Definition headersOf (jsonData : Grid) : nat * list (option string) :=
  match scan 0 (firstn 25 jsonData) with
  | Some (i, row) =>
      (i, mapRow (fun h => BankImport.String_ numberToString (or_else h (Str ""))) row)
  | None =>
      (O, mapRow (BankImport.String_ numberToString) (hd [] jsonData))
  end.

(** [handleFileUpload] on a parsed sheet; [None] when the sheet has no
    row, in which case the page stays as it is. *)
Definition handleFileUpload (jsonData : Grid) (current : BankImport.ColumnMapping)
    : option Upload :=
  match jsonData with
  | [] => None
  | _ :: _ =>
      let (index, headers) := headersOf jsonData in
      let dataRows := skipn (S index) jsonData in
      let rows :=
        filter (fun r => negb (List.length (Obj.keys r) =? 0)%nat)
               (map (fun row => rowObject 0 headers row []) dataRows) in
      Some {| columnNames :=
                filter (fun h => nonEmpty h && negb (isBlank h)) (present headers);
              parsedData := rows;
              columnMapping := autoMapping (present headers) current;
              headerRowIndex := index |}
  end.

End Builtins.

(** [handleMappingNext]: the step the wizard is on afterwards. *)
Definition handleMappingNext (columnMapping : BankImport.ColumnMapping) : nat :=
  if negb (nonEmpty (BankImport.cm_txn_date columnMapping))
     || negb (nonEmpty (BankImport.cm_description columnMapping))
     || negb (nonEmpty (BankImport.cm_amount columnMapping))
  then 2%nat else 3%nat.

End BankUpload.

(** ** Reports page: CSV export *)

Module Csv.

Definition comma : string := ",".
Definition newline : string := String (ascii_of_nat 10) EmptyString.

Section Builtins.

Variable numberToString : Z -> string.

(** The text [Array.prototype.join] gives an element. *)
Definition joinText (c : option cell) : string :=
  match c with
  | None | Some Undefined => ""
  | Some (Str s) => s
  | Some (Num n) => numberToString n
  end.

Definition headerLine (headers : list string) : string := String.concat comma headers.

(** The texts of the cells of a row, one for each column. *)
Definition cellTexts (headers : list string) (row : Obj.t cell) : list string :=
  map (fun h => joinText (Obj.lookup row h)) headers.

Definition rowLine (headers : list string) (row : Obj.t cell) : string :=
  String.concat comma (map (fun h => joinText (Obj.lookup row h)) headers).

(** [exportToCSV]: the name and the text of the file, or [None] when
    there is no row and nothing is offered for download. *)
Definition exportToCSV (data : list (Obj.t cell)) (filename : string)
    : option (string * string) :=
  match data with
  | [] => None
  | first :: _ =>
      let headers := Obj.keys first in
      Some (filename ++ ".csv",
            String.concat newline (headerLine headers :: map (rowLine headers) data))
  end.

End Builtins.

End Csv.

(** ** Sign-in state *)

Module Auth.

(** The [isAuthenticated] state and the [iztech_admin_auth] item of the
    local storage. *)
Record State := {
  isAuthenticated : bool;
  stored : option string
}.

Record Env := {
  VITE_ADMIN_USERNAME : option string;
  VITE_ADMIN_PASSWORD : option string
}.

(** The provider after its first effect ran on a storage holding [item]. *)
Definition mount (item : option string) : State :=
  {| isAuthenticated := match item with
                        | Some v => (v =? "true")%string
                        | None => false
                        end;
     stored := item |}.

(** [value || fallback]. *)
Definition orDefault (value : option string) (fallback : string) : string :=
  match value with
  | Some v => if nonEmpty v then v else fallback
  | None => fallback
  end.

Definition login (env : Env) (username password : string) (st : State) : bool * State :=
  let validUsername := orDefault (VITE_ADMIN_USERNAME env) "admin" in
  let validPassword := orDefault (VITE_ADMIN_PASSWORD env) "iztech2024" in
  if (username =? validUsername)%string && (password =? validPassword)%string
  then (true, {| isAuthenticated := true; stored := Some "true" |})
  else (false, st).

Definition logout (st : State) : State :=
  {| isAuthenticated := false; stored := None |}.

Inductive Event :=
| Login (username password : string)
| Logout
| Reload.

Definition step (env : Env) (st : State) (e : Event) : State :=
  match e with
  | Login username password => snd (login env username password st)
  | Logout => logout st
  | Reload => mount (stored st)
  end.

Definition run (env : Env) (events : list Event) (st : State) : State :=
  fold_left (step env) events st.

End Auth.

(** ** The pages as one machine on the record store *)

Module App.

Inductive Action :=
| AddMember (formData : MemberList.FormData)
| MarkLeft (confirmed : bool) (today : string) (memberId : uuid)
| ImportMembers (today : string) (membersState : list Member)
    (importData : list Members.ImportRow)
| GenerateFees (confirmed : bool) (selectedMonth : string) (feeAmount : Z)
| MarkFeePaid (prompt : option string) (today selectedMonth : string)
    (rows : list MembershipFees.Row) (feeId : uuid)
| AddReimbursement (formData : ReimbursementList.FormData)
| MarkReimbursementPaid (prompt : option string) (today : string)
    (rows : list Reimbursements.Row) (reimbursementId : uuid)
| AddExpense (formData : CashExpenses.FormData)
| AddProduct (productForm : SaleFormEdit.ProductForm)
| CreateSale (prods : list Product) (saleForm : MerchSales.SaleForm)
| ImportBank (columnMapping : BankImport.ColumnMapping) (fileName : string)
    (parsedData : list BankImport.ParsedRow).

Section Builtins.

Variable toLowerCase : string -> string.
Variable parseFloat : string -> number.
Variable numberToString : Z -> string.

Definition step (db : Store) (a : Action) : Store :=
  match a with
  | AddMember formData => MemberList.handleAddMember formData db
  | MarkLeft confirmed today memberId =>
      MemberList.handleMarkLeft confirmed today memberId db
  | ImportMembers today membersState importData =>
      Members.handleImport toLowerCase today membersState importData db
  | GenerateFees confirmed selectedMonth feeAmount =>
      MembershipFees.handleGenerateFees confirmed selectedMonth feeAmount db
  | MarkFeePaid prompt today selectedMonth rows feeId =>
      MembershipFees.handleMarkPaid prompt today selectedMonth rows feeId db
  | AddReimbursement formData => ReimbursementList.handleAddReimbursement formData db
  | MarkReimbursementPaid prompt today rows reimbursementId =>
      Reimbursements.handleMarkPaid prompt today rows reimbursementId db
  | AddExpense formData => CashExpenses.handleAddExpense formData db
  | AddProduct productForm => SaleFormEdit.handleAddProduct productForm db
  | CreateSale prods saleForm => MerchSales.handleCreateSale prods saleForm db
  | ImportBank columnMapping fileName parsedData =>
      BankImport.handleImport parseFloat numberToString columnMapping fileName
        parsedData db
  end.

Definition run (actions : list Action) (db : Store) : Store :=
  fold_left step actions db.

End Builtins.

End App.

(** ** Reference definitions for the reports and the machine *)

Module Spec2.

(** The keys of a list in the order of their first appearance. *)
Definition firstSeen (l : list string) : list string :=
  fold_left (fun acc k => if has acc k then acc else (acc ++ [k])%list) l [].

(** The sum of [w] over the entries whose key is [k]. *)
Fixpoint sumFor {A} (keyOf : A -> string) (w : A -> Z) (k : string) (l : list A) : Z :=
  match l with
  | [] => 0
  | x :: rest => (if (keyOf x =? k)%string then w x else 0) + sumFor keyOf w k rest
  end.

Fixpoint sumOf {A} (w : A -> Z) (l : list A) : Z :=
  match l with
  | [] => 0
  | x :: rest => w x + sumOf w rest
  end.

(** What an entry adds to the income, and to the expense, of its group. *)
Definition positivePart (t : LedgerEntry) : Z := if amount t >? 0 then amount t else 0.
Definition negativePart (t : LedgerEntry) : Z :=
  if amount t >? 0 then 0 else Z.abs (amount t).

(** The joined key of a row of the profit-and-loss report. *)
Definition plRowKey (r : PLReport.Row) : string :=
  PLReport.pl_category r ++ "-" ++ PLReport.pl_project r.

(** The new group and the update of a group in the two grouped reports. *)
Definition plInit (txn : LedgerEntry) : PLReport.Row :=
  {| PLReport.pl_category := category txn; PLReport.pl_project := project txn;
     PLReport.income := 0; PLReport.expense := 0 |}.

Definition plStep (txn : LedgerEntry) (r : PLReport.Row) : PLReport.Row :=
  if amount txn >? 0
  then {| PLReport.pl_category := PLReport.pl_category r;
          PLReport.pl_project := PLReport.pl_project r;
          PLReport.income := PLReport.income r + amount txn;
          PLReport.expense := PLReport.expense r |}
  else {| PLReport.pl_category := PLReport.pl_category r;
          PLReport.pl_project := PLReport.pl_project r;
          PLReport.income := PLReport.income r;
          PLReport.expense := PLReport.expense r + Z.abs (amount txn) |}.

Definition cfInit (txn : LedgerEntry) : Cashflow.Row :=
  {| Cashflow.month := Cashflow.monthOf txn; Cashflow.inflow := 0; Cashflow.outflow := 0 |}.

Definition cfStep (txn : LedgerEntry) (r : Cashflow.Row) : Cashflow.Row :=
  if amount txn >? 0
  then {| Cashflow.month := Cashflow.month r;
          Cashflow.inflow := Cashflow.inflow r + amount txn;
          Cashflow.outflow := Cashflow.outflow r |}
  else {| Cashflow.month := Cashflow.month r;
          Cashflow.inflow := Cashflow.inflow r;
          Cashflow.outflow := Cashflow.outflow r + Z.abs (amount txn) |}.

(** Strictly increasing in the order of texts. *)
Definition before (a b : string) : Prop := (a <=? b)%string = true /\ a <> b.

(** The dates of the ledger have the shape of the date column: a hyphen
    follows the four characters of the year. *)
Definition isoDated (db : Store) : Prop :=
  forall t, In t (transactions_ledger db) -> String.get 4 (txn_date t) = Some "-"%char.

(** The cash side of the ledger: the entries of type [cash_expense]. *)
Definition cashLedgerSum (db : Store) : Z :=
  sumOf amount
    (filter (fun e => (txn_type e =? "cash_expense")%string) (transactions_ledger db)).

Definition cashExpensesSum (db : Store) : Z := sumOf ce_amount (cash_expenses db).

(** The key on which fee rows must not repeat. *)
Definition feeKey (f : MembershipFee) : uuid * string := (f_member_id f, fee_month f).

(** The sum of the line totals of the items of an order. *)
Definition itemsTotal (db : Store) (orderId : uuid) : Z :=
  sumOf line_total (filter (fun i => (order_id i =? orderId)%nat) (sales_order_items db)).

(** The number of occurrences of a character in a text. *)
Fixpoint countChar (c : ascii) (s : string) : nat :=
  match s with
  | EmptyString => O
  | String x s' => ((if Ascii.eqb c x then 1 else 0) + countChar c s')%nat
  end.

(** The text does not contain the character. *)
Definition lacks (c : ascii) (s : string) : Prop := countChar c s = O.

Fixpoint countAll (c : ascii) (l : list string) : nat :=
  match l with
  | [] => O
  | x :: rest => (countChar c x + countAll c rest)%nat
  end.

(** Every order carries the sum of the line totals of its items, and
    the identifiers of orders and items were drawn from the counter. *)
Definition ordersBalanced (db : Store) : Prop :=
  (forall o, In o (sales_orders db) ->
     total_amount o = itemsTotal db (so_id o) /\ (so_id o < next_id db)%nat) /\
  (forall i, In i (sales_order_items db) -> (order_id i < next_id db)%nat).

Definition feeKeysDistinct (db : Store) : Prop :=
  NoDup (map feeKey (membership_fees db)).

Definition bankWellFormed (db : Store) : Prop :=
  forall b, In b (bank_transactions db) ->
    0 <= bt_amount b /\ (bt_direction b = "in" \/ bt_direction b = "out").

(** The number of ledger entries of type [bank_transaction]. *)
Definition bankLedgerCount (db : Store) : nat :=
  List.length
    (filter (fun e => (txn_type e =? "bank_transaction")%string) (transactions_ledger db)).

(** The tables that a handler may leave alone. *)
Record Untouched (db db' : Store) : Prop := {
  same_ledger : transactions_ledger db' = transactions_ledger db;
  same_cash : cash_expenses db' = cash_expenses db;
  same_fees : membership_fees db' = membership_fees db;
  same_orders : sales_orders db' = sales_orders db;
  same_items : sales_order_items db' = sales_order_items db;
  same_bank : bank_transactions db' = bank_transactions db;
  counter_grows : (next_id db <= next_id db')%nat
}.

End Spec2.

(** ** Sample data for the reports, the forms and the machine *)

Module Sample2.

Definition entry (date type : string) (amt : Z) (cat proj : string) : LedgerEntry :=
  {| txn_date := date; txn_type := type; amount := amt; member_id := None;
     project := proj; category := cat; description := ""; source := "cash";
     reference_type := type; reference_id := None |}.

Definition fuel : LedgerEntry := entry "2024-02-10" "cash_expense" (-75) "travel" "General".

Definition feePayment : LedgerEntry :=
  entry "2024-01-05" "membership_fee_payment" 200 "membership" "General".

(** A ledger whose entries are not in date order. *)
Definition ledgerStore : Store :=
  Db.set_transactions_ledger
    [fuel; feePayment; entry "2024-02-20" "cash_expense" (-25) "travel" "General"]
    Db.empty.

(** A member who left in March 2024. *)
Definition leaver : Member :=
  {| m_id := 3%nat; full_name := "Ayse Demir"; team := "";
     join_date := "2023-09-01"; leave_date := Some "2024-03-10"; m_notes := "" |}.

Definition roster : list Member := [Sample.ahmet; leaver].

Definition sale : MerchSales.SaleForm := Sample.saleOf "paid" [Sample.item 1%nat 2 50].

Definition twoItems : MerchSales.SaleForm :=
  Sample.saleOf "paid" [Sample.item 1%nat 2 50; Sample.item 2%nat 1 30].

Definition noItems : MerchSales.SaleForm := Sample.saleOf "paid" [].

(** The shop after one sale of two shirts. *)
Definition soldStore : Store :=
  MerchSales.handleCreateSale [Sample.shirt; Sample.sticker] sale Sample.shop.

Definition reimbRows : list Reimbursements.Row :=
  [{| Reimbursements.reimb := Sample.reimb50;
      Reimbursements.member_name := "Ahmet Yilmaz" |}].

Definition feePaidInCash : MembershipFee :=
  {| f_id := 8%nat; f_member_id := 3%nat; fee_month := "2024-02-01"; f_amount := 200;
     f_payment_status := "paid"; f_payment_method := Some "cash";
     f_payment_date := Some "2024-02-03" |}.

Definition feeRows : list MembershipFees.Row :=
  [{| MembershipFees.fee := Sample.fee200; MembershipFees.member_name := "Ahmet Yilmaz" |};
   {| MembershipFees.fee := feePaidInCash; MembershipFees.member_name := "Ayse Demir" |}].

Definition transfer : BankTransaction :=
  {| bt_txn_date := "2026-01-02"; bt_description := "Opening transfer"; bt_amount := 1000;
     bt_direction := "in"; counterparty := ""; reference := "";
     import_hash := "2026-01-02-Opening transfer-1000"; import_filename := "dec.xlsx" |}.

Definition bankStore : Store := Db.set_bank_transactions [transfer] Db.empty.

(** A statement with a title line above the header row. *)
Definition headerRow : list cell := [Str "Date"; Str "Description"; Str "Amount"].

Definition sheet : BankUpload.Grid :=
  [[Str "Account statement"]; headerRow; [Str "04/01/2026"; Str "Sponsor payment"; Num 1500]].

(** A statement without a known header row, whose first row lacks the
    cell of the second column. *)
Definition plainSheet : BankUpload.Grid :=
  [[Str "Booked"; Undefined; Str "Sum"]; [Str "01/02/2026"; Str "Rent"; Num 5]].

Definition noMapping : BankImport.ColumnMapping :=
  {| BankImport.cm_txn_date := ""; BankImport.cm_description := "";
     BankImport.cm_amount := ""; BankImport.cm_direction := "";
     BankImport.cm_counterparty := ""; BankImport.cm_reference := "" |}.

Definition bankHeaders : list string :=
  ["Tarih/Saat"; "Açıklama"; "İşlem Tutarı*"; "Bakiye"].

Definition cashflowReport : list (Obj.t cell) :=
  [[("month", Str "2024-01"); ("inflow", Num 200); ("outflow", Num 0)];
   [("month", Str "2024-02"); ("inflow", Num 0); ("outflow", Num 100)]].

Definition purchase : Obj.t cell := [("vendor", Str "Nuts, bolts"); ("amount", Num 100)].

Definition noEnv : Auth.Env :=
  {| Auth.VITE_ADMIN_USERNAME := None; Auth.VITE_ADMIN_PASSWORD := None |}.

Definition signedOut : Auth.State := Auth.mount None.

Definition cap : SaleFormEdit.ProductForm :=
  {| SaleFormEdit.pf_name := "Cap"; SaleFormEdit.pf_category := "apparel";
     SaleFormEdit.pf_unit_price := 80; SaleFormEdit.pf_stock_quantity := 20 |}.

(** A day of work on the pages. *)
Definition day : list App.Action :=
  [App.GenerateFees true "2024-02" 200;
   App.GenerateFees true "2024-03" 200;
   App.MarkFeePaid (Some "cash") "2024-02-15" "2024-02" feeRows 5%nat;
   App.AddExpense Sample.expense;
   App.AddProduct cap;
   App.CreateSale [Sample.shirt; Sample.sticker] twoItems;
   App.ImportBank Sample.mapping "jan.xlsx" [Sample.sponsorRow; Sample.partsRow]].

End Sample2.

(* ===================================================================== *)
(** * Part II: properties                                                 *)
(* ===================================================================== *)

(** ** Texts *)

Lemma prefix_empty (s : string) : String.prefix EmptyString s = true.
Proof. destruct s; reflexivity. Qed.

Lemma includes_slash_noSlash (s : string) :
  includes "/" s = negb (Spec.noSlash s).
Proof.
  induction s as [|c s IH]; [reflexivity|].
  cbn [includes Spec.noSlash String.prefix].
  rewrite IH, prefix_empty.
  destruct (ascii_dec "/" c) as [e|ne].
  - subst c. reflexivity.
  - apply Ascii.eqb_neq in ne. rewrite ne. reflexivity.
Qed.



Lemma split_cons (sep : ascii -> bool) (c : ascii) (s : string) :
  split sep (String c s) =
  if sep c then EmptyString :: split sep s
  else match split sep s with
       | [] => [String c EmptyString]
       | seg :: segs => String c seg :: segs
       end.
Proof. reflexivity. Qed.








(** ** Bank import: date rewriting *)






(** ** The store: what an append to one table leaves alone *)

Lemma has_In (l : list string) (x : string) : has l x = true <-> In x l.
Proof.
  unfold has. rewrite existsb_exists. split.
  - intros (y & Hy & E). apply String.eqb_eq in E. now subst.
  - intros H. exists x. split; [assumption|apply String.eqb_refl].
Qed.

Lemma has_false (l : list string) (x : string) : has l x = false <-> ~ In x l.
Proof.
  rewrite <- has_In. destruct (has l x); intuition congruence.
Qed.

Lemma length_zero_nil {A} (l : list A) : (List.length l =? 0)%nat = true <-> l = [].
Proof.
  destruct l; cbn; split; intros H; try reflexivity; discriminate.
Qed.

Lemma post_all_ledger {A} (f : A -> LedgerEntry) (l : list A) (db : Store) :
  transactions_ledger (fold_left (fun d x => Db.insert_ledger (f x) d) l db)
  = (transactions_ledger db ++ map f l)%list.
Proof.
  revert db. induction l as [|x l IH]; intros db; cbn [fold_left map].
  - now rewrite app_nil_r.
  - rewrite IH. cbn. now rewrite <- app_assoc.
Qed.

Lemma post_all_bank {A} (f : A -> LedgerEntry) (l : list A) (db : Store) :
  bank_transactions (fold_left (fun d x => Db.insert_ledger (f x) d) l db)
  = bank_transactions db.
Proof.
  revert db. induction l as [|x l IH]; intros db; cbn [fold_left]; [reflexivity|].
  now rewrite IH.
Qed.

(** ** Bank import: the rows the store accepts *)

(** What the store holds for a mapped row that it accepts. *)
Lemma stored_fields (t : BankImport.Transaction) (r : BankTransaction) :
  BankImport.stored t = Some r ->
  BankImport.t_amount t = Finite (bt_amount r) /\
  bt_direction r = BankImport.t_direction t /\
  import_hash r = BankImport.t_import_hash t /\
  bt_txn_date r = BankImport.t_txn_date t /\
  bt_description r = BankImport.t_description t.
Proof.
  unfold BankImport.stored. destruct (BankImport.t_amount t) as [|a]; [discriminate|].
  intros [= <-]. repeat split.
Qed.

Lemma stored_none (t : BankImport.Transaction) :
  BankImport.stored t = None <-> BankImport.t_amount t = NaN.
Proof.
  unfold BankImport.stored. destruct (BankImport.t_amount t); split; congruence.
Qed.

Lemma storedAll_Some (l : list BankImport.Transaction) (rows : list BankTransaction) :
  BankImport.storedAll l = Some rows ->
  Forall2 (fun t r => BankImport.stored t = Some r) l rows.
Proof.
  revert rows. induction l as [|t l IH]; intros rows; cbn [BankImport.storedAll].
  - intros [= <-]. constructor.
  - destruct (BankImport.stored t) as [r|] eqn:Et; [|discriminate].
    destruct (BankImport.storedAll l) as [rs|]; [|discriminate].
    intros [= <-]. constructor; [exact Et|now apply IH].
Qed.

Lemma storedAll_None (l : list BankImport.Transaction) :
  BankImport.storedAll l = None <->
  exists t, In t l /\ BankImport.t_amount t = NaN.
Proof.
  induction l as [|t l IH]; cbn [BankImport.storedAll].
  - split; [discriminate|intros (t & [] & _)].
  - destruct (BankImport.stored t) as [r|] eqn:Et.
    + destruct (BankImport.storedAll l) as [rs|].
      * split; [discriminate|]. intros (x & [<-|Hx] & Hn).
        -- apply stored_none in Hn. congruence.
        -- assert (Hl : Some rs = None) by (apply IH; now exists x). discriminate Hl.
      * split; [|reflexivity]. intros _. destruct (proj1 IH eq_refl) as (x & Hx & Hn).
        exists x. split; [now right|exact Hn].
    + split; [|reflexivity]. intros _. exists t. split; [now left|].
      now apply stored_none.
Qed.

Lemma stored_hashes (l : list BankImport.Transaction) (rows : list BankTransaction) :
  Forall2 (fun t r => BankImport.stored t = Some r) l rows ->
  map import_hash rows = map BankImport.t_import_hash l.
Proof.
  induction 1 as [|t r l rows Hs _ IH]; [reflexivity|].
  cbn [map]. rewrite IH. f_equal. now apply stored_fields.
Qed.

Lemma Forall2_In_r {A B} (P : A -> B -> Prop) (l : list A) (l' : list B) (y : B) :
  Forall2 P l l' -> In y l' -> exists x, In x l /\ P x y.
Proof.
  induction 1 as [|a b l l' Hab _ IH]; intros Hin; [contradiction|].
  destruct Hin as [<-|Hin].
  - exists a. split; [now left|exact Hab].
  - destruct (IH Hin) as (x & Hx & Hp). exists x. split; [now right|exact Hp].
Qed.

(** ** Bank import *)

Section BankImportFacts.

Variable parseFloat : string -> number.
Variable numberToString : Z -> string.

Local Abbreviation toTransaction := (BankImport.toTransaction parseFloat numberToString).
Local Abbreviation newTransactions := (BankImport.newTransactions parseFloat numberToString).
Local Abbreviation inserted := (BankImport.inserted parseFloat numberToString).
Local Abbreviation handleImport := (BankImport.handleImport parseFloat numberToString).
Local Abbreviation rawAmount := (BankImport.rawAmount parseFloat numberToString).
Local Abbreviation rawDirection := (BankImport.rawDirection parseFloat numberToString).
Local Abbreviation String_ := (BankImport.String_ numberToString).

Lemma handleImport_bank m f rows db :
  bank_transactions (handleImport m f rows db)
  = (bank_transactions db ++ inserted m f rows db)%list.
Proof.
  unfold BankImport.handleImport, BankImport.inserted.
  destruct (List.length (newTransactions m f rows db) =? 0)%nat eqn:E.
  - apply length_zero_nil in E. rewrite E. cbn. now rewrite app_nil_r.
  - destruct (BankImport.storedAll (newTransactions m f rows db)).
    + rewrite post_all_bank. reflexivity.
    + now rewrite app_nil_r.
Qed.

Lemma handleImport_ledger m f rows db :
  transactions_ledger (handleImport m f rows db)
  = (transactions_ledger db
     ++ map BankImport.ledgerEntryOf (inserted m f rows db))%list.
Proof.
  unfold BankImport.handleImport, BankImport.inserted.
  destruct (List.length (newTransactions m f rows db) =? 0)%nat eqn:E.
  - apply length_zero_nil in E. rewrite E. cbn. now rewrite app_nil_r.
  - destruct (BankImport.storedAll (newTransactions m f rows db)).
    + rewrite post_all_ledger. reflexivity.
    + cbn. now rewrite app_nil_r.
Qed.

(** The insert is refused when the amount of a new row is not a number,
    and the run then leaves the store as it is. *)
Lemma handleImport_refused m f rows db :
  (exists t, In t (newTransactions m f rows db) /\ BankImport.t_amount t = NaN) ->
  inserted m f rows db = [] /\ handleImport m f rows db = db.
Proof.
  intros H. apply storedAll_None in H.
  unfold BankImport.inserted, BankImport.handleImport. rewrite H.
  split; [reflexivity|]. now destruct (List.length _ =? 0)%nat.
Qed.

(** Otherwise every new row is stored, in order. *)
Lemma handleImport_accepted m f rows db :
  (forall t, In t (newTransactions m f rows db) -> BankImport.t_amount t <> NaN) ->
  Forall2 (fun t r => BankImport.stored t = Some r)
    (newTransactions m f rows db) (inserted m f rows db).
Proof.
  intros H. unfold BankImport.inserted.
  destruct (BankImport.storedAll (newTransactions m f rows db)) as [rs|] eqn:E.
  - now apply storedAll_Some.
  - apply storedAll_None in E. destruct E as (t & Ht & Hn). now destruct (H t Ht).
Qed.

Lemma inserted_from_new m f rows db r :
  In r (inserted m f rows db) ->
  exists t, In t (newTransactions m f rows db) /\ BankImport.stored t = Some r.
Proof.
  unfold BankImport.inserted.
  destruct (BankImport.storedAll (newTransactions m f rows db)) as [rs|] eqn:E;
    [|contradiction].
  intros Hin.
  exact (Forall2_In_r (fun t r => BankImport.stored t = Some r) _ _ r
           (storedAll_Some _ _ E) Hin).
Qed.

(** The filter keeps exactly the mapped rows whose hash is not stored. *)
Lemma newTransactions_filter m f rows db :
  newTransactions m f rows db
  = filter (fun t => negb (has (map import_hash (bank_transactions db))
                               (BankImport.t_import_hash t)))
      (BankImport.transactionsToImport parseFloat numberToString m f rows).
Proof.
  unfold BankImport.newTransactions.
  set (toImport := BankImport.transactionsToImport parseFloat numberToString m f rows).
  cbv zeta. apply filter_ext_in. intros t Ht. f_equal.
  unfold BankImport.existingHashes.
  destruct (has (map import_hash (bank_transactions db)) (BankImport.t_import_hash t)) eqn:E.
  - apply has_In. apply filter_In. apply has_In in E. split; [assumption|].
    apply has_In. now apply (in_map BankImport.t_import_hash).
  - apply has_false. apply has_false in E. intros H. apply filter_In in H.
    now apply E.
Qed.

Lemma newTransactions_fresh m f rows db t :
  In t (newTransactions m f rows db) ->
  ~ In (BankImport.t_import_hash t) (map import_hash (bank_transactions db)).
Proof.
  rewrite newTransactions_filter. intros H. apply filter_In in H.
  destruct H as [_ H]. apply has_false. now destruct (has _ _).
Qed.

Lemma newTransactions_row m f rows db t :
  In t (newTransactions m f rows db) -> exists row, In row rows /\ t = toTransaction m f row.
Proof.
  rewrite newTransactions_filter. intros H. apply filter_In in H. destruct H as [H _].
  unfold BankImport.transactionsToImport in H. apply in_map_iff in H.
  destruct H as (row & <- & Hrow). now exists row.
Qed.

(** When the hash of every mapped row is stored, nothing is imported. *)
Lemma handleImport_all_known m f rows db :
  (forall row, In row rows ->
     In (BankImport.t_import_hash (toTransaction m f row))
        (map import_hash (bank_transactions db))) ->
  handleImport m f rows db = db.
Proof.
  intros H. unfold BankImport.handleImport.
  assert (E : newTransactions m f rows db = []).
  { rewrite newTransactions_filter.
    unfold BankImport.transactionsToImport.
    induction rows as [|row rows IH]; [reflexivity|].
    cbn [map filter].
    assert (Hr := H row (or_introl eq_refl)). apply has_In in Hr.
    rewrite Hr. cbn [negb].
    apply IH. intros r Hin. apply H. now right. }
  now rewrite E.
Qed.

(** The hash does not look at the file name. *)
Lemma import_hash_fileName m f g row :
  BankImport.t_import_hash (toTransaction m f row)
  = BankImport.t_import_hash (toTransaction m g row).
Proof. reflexivity. Qed.

(** After a run that the store accepted, the hash of every row of the
    file is stored. *)
Lemma handleImport_stores_all m f rows db row :
  (forall t, In t (newTransactions m f rows db) -> BankImport.t_amount t <> NaN) ->
  In row rows ->
  In (BankImport.t_import_hash (toTransaction m f row))
     (map import_hash (bank_transactions (handleImport m f rows db))).
Proof.
  intros Hnum Hin. rewrite handleImport_bank, map_app, in_app_iff.
  destruct (has (map import_hash (bank_transactions db))
              (BankImport.t_import_hash (toTransaction m f row))) eqn:E.
  - left. now apply has_In.
  - right. rewrite (stored_hashes _ _ (handleImport_accepted m f rows db Hnum)).
    apply (in_map BankImport.t_import_hash).
    rewrite newTransactions_filter. apply filter_In. split.
    + unfold BankImport.transactionsToImport. now apply in_map.
    + now rewrite E.
Qed.

Lemma handleImport_again m f rows db :
  handleImport m f rows (handleImport m f rows db) = handleImport m f rows db.
Proof.
  destruct (BankImport.storedAll (newTransactions m f rows db)) as [rs|] eqn:E.
  - apply handleImport_all_known. intros row Hrow.
    apply handleImport_stores_all; [|exact Hrow].
    intros t Ht Hn.
    assert (Hno : BankImport.storedAll (newTransactions m f rows db) = None)
      by (apply storedAll_None; now exists t).
    congruence.
  - assert (Hdb : handleImport m f rows db = db).
    { apply handleImport_refused. now apply storedAll_None. }
    now rewrite !Hdb.
Qed.

(** C5. Bank import is deduplicating and idempotent.  A run stores the
    rows of [inserted] and nothing else: these are the rows of
    [newTransactions] as the store holds them, or no row at all when the
    amount of one of them is not a number, in which case the run changes
    nothing.  No stored row and no new row has a hash that was stored
    before the run, and the ledger receives exactly one entry per stored
    row.  Importing the same file again changes nothing; after a run that
    the store accepted, neither does any file all of whose rows have the
    hash of a row of the first file.  So the number of stored bank
    transactions after both runs is the number after the first. *)
Theorem C5_bank_import_idempotent :
  forall (m : BankImport.ColumnMapping) (f : string)
         (rows : list BankImport.ParsedRow) (db : Store),
    (bank_transactions (handleImport m f rows db)
       = (bank_transactions db ++ inserted m f rows db)%list) /\
    ((forall t, In t (newTransactions m f rows db) -> BankImport.t_amount t <> NaN) ->
     Forall2 (fun t r => BankImport.stored t = Some r)
       (newTransactions m f rows db) (inserted m f rows db)) /\
    ((exists t, In t (newTransactions m f rows db) /\ BankImport.t_amount t = NaN) ->
     inserted m f rows db = [] /\ handleImport m f rows db = db) /\
    (forall t, In t (newTransactions m f rows db) ->
       ~ In (BankImport.t_import_hash t) (map import_hash (bank_transactions db))) /\
    (forall r, In r (inserted m f rows db) ->
       ~ In (import_hash r) (map import_hash (bank_transactions db))) /\
    (transactions_ledger (handleImport m f rows db)
       = (transactions_ledger db
          ++ map BankImport.ledgerEntryOf (inserted m f rows db))%list) /\
    handleImport m f rows (handleImport m f rows db) = handleImport m f rows db /\
    (forall (g : string) (rows2 : list BankImport.ParsedRow),
       (forall t, In t (newTransactions m f rows db) -> BankImport.t_amount t <> NaN) ->
       (forall r2, In r2 rows2 ->
          exists r, In r rows /\
            BankImport.t_import_hash (toTransaction m g r2)
            = BankImport.t_import_hash (toTransaction m f r)) ->
       handleImport m g rows2 (handleImport m f rows db) = handleImport m f rows db) /\
    List.length (bank_transactions (handleImport m f rows (handleImport m f rows db)))
      = List.length (bank_transactions (handleImport m f rows db)).
Proof.
  intros m f rows db.
  split; [apply handleImport_bank|].
  split; [apply handleImport_accepted|].
  split; [apply handleImport_refused|].
  split; [apply newTransactions_fresh|].
  split.
  { intros r Hr. destruct (inserted_from_new m f rows db r Hr) as (t & Ht & Hs).
    destruct (stored_fields t r Hs) as (_ & _ & -> & _).
    now apply (newTransactions_fresh m f rows db). }
  split; [apply handleImport_ledger|].
  split; [apply handleImport_again|].
  split; [|now rewrite handleImport_again].
  intros g rows2 Hnum H. apply handleImport_all_known. intros r2 Hr2.
  destruct (H r2 Hr2) as (r & Hr & E). rewrite E.
  now apply handleImport_stores_all.
Qed.

(** C10. The duplicate filter looks only at the hashes stored before the
    run: a mapped row is imported exactly when its hash is not among
    them, whatever the other rows of the upload are.  So a file with the
    same row twice, whose hash is not stored yet, has both copies stored
    and a ledger entry posted for each (when the amount of the row is a
    number; otherwise the store refuses the insert). *)
Theorem C10_same_upload_duplicates_kept :
  forall (m : BankImport.ColumnMapping) (f : string) (db : Store),
    (forall rows,
       newTransactions m f rows db
       = filter (fun t => negb (has (map import_hash (bank_transactions db))
                                    (BankImport.t_import_hash t)))
           (map (toTransaction m f) rows)) /\
    (forall row,
       has (map import_hash (bank_transactions db))
           (BankImport.t_import_hash (toTransaction m f row)) = false ->
       let copies := match BankImport.stored (toTransaction m f row) with
                     | Some r => [r; r]
                     | None => []
                     end in
       bank_transactions (handleImport m f [row; row] db)
         = (bank_transactions db ++ copies)%list /\
       transactions_ledger (handleImport m f [row; row] db)
         = (transactions_ledger db ++ map BankImport.ledgerEntryOf copies)%list).
Proof.
  intros m f db. split.
  - intros rows. apply newTransactions_filter.
  - intros row H copies. subst copies.
    assert (E : newTransactions m f [row; row] db
                = [toTransaction m f row; toTransaction m f row]).
    { rewrite newTransactions_filter. unfold BankImport.transactionsToImport.
      cbn [map filter]. rewrite H. reflexivity. }
    rewrite handleImport_bank, handleImport_ledger. unfold BankImport.inserted.
    rewrite E. cbn [BankImport.storedAll].
    destruct (BankImport.stored (toTransaction m f row)); split; reflexivity.
Qed.

(** The direction of a mapped row is one of the two words. *)
Lemma direction_in_or_out m f row :
  BankImport.t_direction (toTransaction m f row) = "in"
  \/ BankImport.t_direction (toTransaction m f row) = "out".
Proof.
  unfold BankImport.toTransaction. cbn [BankImport.t_direction].
  destruct (includes "out" (toLowerCase (rawDirection m row)) || ltZero (rawAmount m row));
    [right|left]; reflexivity.
Qed.

(** What the store holds for a row of the sheet that it accepts. *)
Lemma stored_row m f row r :
  BankImport.stored (toTransaction m f row) = Some r ->
  Finite (bt_amount r) = abs (rawAmount m row) /\
  0 <= bt_amount r /\
  bt_direction r = BankImport.t_direction (toTransaction m f row) /\
  (bt_direction r = "in" \/ bt_direction r = "out").
Proof.
  intros Hs. destruct (stored_fields _ _ Hs) as (Ha & Hd & _).
  cbn [BankImport.t_amount BankImport.toTransaction] in Ha.
  split; [now symmetry|]. split; [|split; [exact Hd|]].
  - destruct (rawAmount m row) as [|z]; [discriminate Ha|].
    cbn [abs] in Ha. injection Ha as <-. apply Z.abs_nonneg.
  - rewrite Hd. apply direction_in_or_out.
Qed.


End BankImportFacts.

(** ** Merch sales *)

Lemma reduce_sum_shift {A} (f : A -> Z) (l : list A) (acc : Z) :
  fold_left (fun sum x => sum + f x) l acc
  = acc + fold_left (fun sum x => sum + f x) l 0.
Proof.
  revert acc. induction l as [|x l IH]; intros acc; cbn [fold_left]; [lia|].
  rewrite (IH (acc + f x)), (IH (0 + f x)). lia.
Qed.

Lemma reduce_sum_cons {A} (f : A -> Z) (x : A) (l : list A) :
  reduce_sum f (x :: l) = f x + reduce_sum f l.
Proof.
  unfold reduce_sum. cbn [fold_left]. rewrite reduce_sum_shift. lia.
Qed.

Lemma saleTotal_itemsSum (its : list MerchSales.SaleItem) :
  MerchSales.saleTotal its = Spec.itemsSum its.
Proof.
  unfold MerchSales.saleTotal.
  induction its as [|item its IH]; [reflexivity|].
  rewrite reduce_sum_cons, IH. reflexivity.
Qed.

Lemma deductStock_other prods its db :
  let db' := fold_left (MerchSales.deductStock prods) its db in
  transactions_ledger db' = transactions_ledger db /\
  sales_orders db' = sales_orders db /\
  sales_order_items db' = sales_order_items db /\
  next_id db' = next_id db.
Proof.
  revert db. induction its as [|item its IH]; intros db; cbn [fold_left].
  - repeat split.
  - destruct (IH (MerchSales.deductStock prods db item)) as (H1 & H2 & H3 & H4).
    cbv zeta. rewrite H1, H2, H3, H4. unfold MerchSales.deductStock.
    destruct (MerchSales.findProduct prods (MerchSales.si_product_id item));
      repeat split.
Qed.

(** ** The sign of a ledger entry *)

(** C1. The sign of a ledger entry is fixed by the kind of event.
    Marking a reimbursement of amount A paid appends one entry of amount
    -A; marking a membership fee of amount A paid appends one entry of
    amount +A; recording a cash expense of amount A appends one entry of
    amount -A; creating a paid sale of total T appends one entry of amount
    +T; a bank import appends one entry per stored row, of amount +A when
    the row's direction is 'in' and -A when it is 'out', where A is the
    stored amount, the absolute value of the raw amount of the row of the
    sheet. *)
Theorem C1_ledger_sign_by_event :
  (forall pm today rows id db row,
     nonEmpty pm = true ->
     JS.find (fun r => (r_id (Reimbursements.reimb r) =? id)%nat) rows = Some row ->
     exists e,
       transactions_ledger (Reimbursements.handleMarkPaid (Some pm) today rows id db)
         = (transactions_ledger db ++ [e])%list /\
       txn_type e = "reimbursement_payment" /\
       amount e = - r_amount (Reimbursements.reimb row)) /\
  (forall pm today month rows id db row,
     nonEmpty pm = true ->
     JS.find (fun f => (f_id (MembershipFees.fee f) =? id)%nat) rows = Some row ->
     exists e,
       transactions_ledger (MembershipFees.handleMarkPaid (Some pm) today month rows id db)
         = (transactions_ledger db ++ [e])%list /\
       txn_type e = "membership_fee_payment" /\
       amount e = f_amount (MembershipFees.fee row)) /\
  (forall formData db,
     exists e,
       transactions_ledger (CashExpenses.handleAddExpense formData db)
         = (transactions_ledger db ++ [e])%list /\
       txn_type e = "cash_expense" /\
       amount e = - CashExpenses.fd_amount formData) /\
  (forall prods saleForm db,
     MerchSales.items saleForm <> [] ->
     MerchSales.sf_payment_status saleForm = "paid" ->
     exists e,
       transactions_ledger (MerchSales.handleCreateSale prods saleForm db)
         = (transactions_ledger db ++ [e])%list /\
       txn_type e = "merch_sale" /\
       amount e = Spec.itemsSum (MerchSales.items saleForm)) /\
  (forall parseFloat numberToString m f rows db,
     transactions_ledger (BankImport.handleImport parseFloat numberToString m f rows db)
       = (transactions_ledger db
          ++ map BankImport.ledgerEntryOf
               (BankImport.inserted parseFloat numberToString m f rows db))%list /\
     (forall t,
        In t (BankImport.inserted parseFloat numberToString m f rows db) ->
        exists row,
          In row rows /\
          BankImport.stored (BankImport.toTransaction parseFloat numberToString m f row)
          = Some t) /\
     forall row t,
       BankImport.stored (BankImport.toTransaction parseFloat numberToString m f row)
       = Some t ->
       let e := BankImport.ledgerEntryOf t in
       txn_type e = "bank_transaction" /\
       Finite (bt_amount t)
       = abs (BankImport.rawAmount parseFloat numberToString m row) /\
       0 <= bt_amount t /\
       (bt_direction t = "in" -> amount e = bt_amount t) /\
       (bt_direction t = "out" -> amount e = - bt_amount t) /\
       (bt_direction t = "in" \/ bt_direction t = "out")).
Proof.
  split; [|split; [|split; [|split]]].
  - intros pm today rows id db row Hpm Hfind.
    unfold Reimbursements.handleMarkPaid. rewrite Hpm, Hfind. cbn [negb].
    eexists. repeat split.
  - intros pm today month rows id db row Hpm Hfind.
    unfold MembershipFees.handleMarkPaid. rewrite Hpm, Hfind. cbn [negb].
    eexists. repeat split.
  - intros formData db. eexists. repeat split.
  - intros prods saleForm db Hne Hpaid.
    unfold MerchSales.handleCreateSale.
    destruct (List.length (MerchSales.items saleForm) =? 0)%nat eqn:E.
    { apply length_zero_nil in E. contradiction. }
    rewrite Hpaid, String.eqb_refl.
    eexists. split; [|split].
    + unfold Db.insert_ledger at 1. cbn [transactions_ledger Db.set_transactions_ledger].
      match goal with
      | |- context [fold_left (MerchSales.deductStock prods) ?its ?d] =>
          destruct (deductStock_other prods its d) as (H1 & _)
      end.
      rewrite H1. reflexivity.
    + reflexivity.
    + cbn [amount]. apply saleTotal_itemsSum.
  - intros parseFloat numberToString m f rows db. split; [|split].
    + apply handleImport_ledger.
    + intros t Ht.
      destruct (inserted_from_new parseFloat numberToString m f rows db t Ht)
        as (x & Hx & Hs).
      destruct (newTransactions_row parseFloat numberToString m f rows db x Hx)
        as (row & Hrow & ->).
      now exists row.
    + intros row t Hs e. subst e.
      destruct (stored_row parseFloat numberToString m f row t Hs) as (Ha & Hpos & _ & Hd).
      split; [reflexivity|split; [exact Ha|split; [exact Hpos|]]].
      split; [|split].
      * intros H. unfold BankImport.ledgerEntryOf. cbn [amount]. now rewrite H.
      * intros H. unfold BankImport.ledgerEntryOf. cbn [amount]. now rewrite H.
      * exact Hd.
Qed.

(** The order row and the item rows of a sale. *)
Lemma handleCreateSale_rows prods saleForm db :
  MerchSales.items saleForm <> [] ->
  let db' := MerchSales.handleCreateSale prods saleForm db in
  (exists o,
     sales_orders db' = (sales_orders db ++ [o])%list /\
     so_id o = next_id db /\
     total_amount o = Spec.itemsSum (MerchSales.items saleForm)) /\
  sales_order_items db'
    = (sales_order_items db
       ++ map (MerchSales.itemRow prods (next_id db)) (MerchSales.items saleForm))%list /\
  (forall item, line_total (MerchSales.itemRow prods (next_id db) item)
                = MerchSales.si_quantity item * MerchSales.si_unit_price item).
Proof.
  intros Hne db'. subst db'. unfold MerchSales.handleCreateSale.
  destruct (List.length (MerchSales.items saleForm) =? 0)%nat eqn:E.
  { apply length_zero_nil in E. contradiction. }
  match goal with
  | |- context [fold_left (MerchSales.deductStock prods) ?its ?d] =>
      destruct (deductStock_other prods its d) as (H1 & H2 & H3 & H4)
  end.
  split; [|split].
  - eexists. split; [|split].
    + destruct (MerchSales.sf_payment_status saleForm =? "paid")%string;
        [unfold Db.insert_ledger; cbn [sales_orders Db.set_transactions_ledger]|];
        rewrite H2; reflexivity.
    + reflexivity.
    + cbn [total_amount]. apply saleTotal_itemsSum.
  - destruct (MerchSales.sf_payment_status saleForm =? "paid")%string;
      [unfold Db.insert_ledger; cbn [sales_order_items Db.set_transactions_ledger]|];
      rewrite H3; reflexivity.
  - reflexivity.
Qed.

Lemma update_stock_stockOf id' v db id :
  Spec.stockOf (MerchSales.update_stock id' v db) id
  = if (id' =? id)%nat
    then match Spec.stockOf db id with Some _ => Some v | None => None end
    else Spec.stockOf db id.
Proof.
  unfold Spec.stockOf, MerchSales.update_stock, MerchSales.findProduct, JS.find.
  cbn [products Db.set_products].
  induction (products db) as [|p ps IH]; cbn [map List.find].
  - destruct (id' =? id)%nat; reflexivity.
  - destruct (p_id p =? id')%nat eqn:E1.
    + apply Nat.eqb_eq in E1. subst id'. cbn [p_id].
      destruct (p_id p =? id)%nat eqn:E2; [reflexivity|exact IH].
    + destruct (p_id p =? id)%nat eqn:E2; [|exact IH].
      apply Nat.eqb_eq in E2. subst id. rewrite Nat.eqb_sym, E1. reflexivity.
Qed.

Lemma lastWritten_acc prods id its acc :
  Spec.lastWritten prods id its acc
  = match Spec.lastWritten prods id its None with
    | Some v => Some v
    | None => acc
    end.
Proof.
  unfold Spec.lastWritten. revert acc.
  induction its as [|item its IH]; intros acc; cbn [fold_left]; [reflexivity|].
  rewrite IH. symmetry. rewrite IH. symmetry.
  destruct (fold_left _ its None); [reflexivity|].
  destruct (MerchSales.si_product_id item =? id)%nat; [|reflexivity].
  destruct (MerchSales.findProduct prods id); reflexivity.
Qed.

Lemma lastWritten_cons prods id item its acc :
  Spec.lastWritten prods id (item :: its) acc
  = Spec.lastWritten prods id its
      (if (MerchSales.si_product_id item =? id)%nat
       then match MerchSales.findProduct prods id with
            | Some product => Some (stock_quantity product - MerchSales.si_quantity item)
            | None => acc
            end
       else acc).
Proof. reflexivity. Qed.

(** The stock a sale leaves for a product is the loaded stock minus the
    quantity of the last item that names the product; the items before it
    leave no trace. *)
Lemma deductStock_stockOf prods its db id :
  Spec.stockOf (fold_left (MerchSales.deductStock prods) its db) id
  = match Spec.stockOf db id with
    | None => None
    | Some s0 =>
        Some match Spec.lastWritten prods id its None with
             | Some v => v
             | None => s0
             end
    end.
Proof.
  revert db. induction its as [|item its IH]; intros db.
  - cbn [fold_left Spec.lastWritten]. now destruct (Spec.stockOf db id).
  - cbn [fold_left]. rewrite IH, lastWritten_cons. unfold MerchSales.deductStock.
    destruct (MerchSales.si_product_id item =? id)%nat eqn:E.
    + apply Nat.eqb_eq in E. rewrite E.
      destruct (MerchSales.findProduct prods id) as [product|]; [|reflexivity].
      rewrite update_stock_stockOf, Nat.eqb_refl.
      rewrite (lastWritten_acc prods id its (Some _)).
      destruct (Spec.stockOf db id); [|reflexivity].
      now destruct (Spec.lastWritten prods id its None).
    + destruct (MerchSales.findProduct prods (MerchSales.si_product_id item));
        [rewrite update_stock_stockOf, E|]; reflexivity.
Qed.

Lemma lastWritten_absent prods id its acc :
  ~ In id (map MerchSales.si_product_id its) ->
  Spec.lastWritten prods id its acc = acc.
Proof.
  revert acc. induction its as [|item its IH]; intros acc H; [reflexivity|].
  rewrite lastWritten_cons. cbn [map] in H.
  destruct (MerchSales.si_product_id item =? id)%nat eqn:E.
  - apply Nat.eqb_eq in E. exfalso. apply H. now left.
  - apply IH. intros Hin. apply H. now right.
Qed.

Lemma lastWritten_unique prods its item product acc :
  NoDup (map MerchSales.si_product_id its) ->
  In item its ->
  MerchSales.findProduct prods (MerchSales.si_product_id item) = Some product ->
  Spec.lastWritten prods (MerchSales.si_product_id item) its acc
  = Some (stock_quantity product - MerchSales.si_quantity item).
Proof.
  intros Hnd Hin Hfind. revert acc Hnd Hin.
  induction its as [|it its IH]; intros acc Hnd Hin; [contradiction|].
  cbn [map] in Hnd. apply NoDup_cons_iff in Hnd. destruct Hnd as [Hnotin Hnd].
  rewrite lastWritten_cons. destruct Hin as [->|Hin].
  - rewrite Nat.eqb_refl, Hfind. now apply lastWritten_absent.
  - now apply IH.
Qed.

(** When no two items of the sale name the same product and the page
    holds the products of the store, the stock of the product of each
    item goes down by the quantity of that item. *)
Lemma handleCreateSale_stock_distinct saleForm db item product :
  NoDup (map MerchSales.si_product_id (MerchSales.items saleForm)) ->
  In item (MerchSales.items saleForm) ->
  MerchSales.findProduct (products db) (MerchSales.si_product_id item) = Some product ->
  Spec.stockOf (MerchSales.handleCreateSale (products db) saleForm db)
    (MerchSales.si_product_id item)
  = Some (stock_quantity product - MerchSales.si_quantity item).
Proof.
  intros Hnd Hin Hfind. unfold MerchSales.handleCreateSale.
  destruct (List.length (MerchSales.items saleForm) =? 0)%nat eqn:E.
  { apply length_zero_nil in E. rewrite E in Hin. contradiction. }
  assert (G : forall d,
            products d = products db ->
            Spec.stockOf
              (fold_left (MerchSales.deductStock (products db))
                 (MerchSales.items saleForm) d) (MerchSales.si_product_id item)
            = Some (stock_quantity product - MerchSales.si_quantity item)).
  { intros d Hd. rewrite deductStock_stockOf. unfold Spec.stockOf at 1.
    rewrite Hd, Hfind. cbn [option_map].
    now rewrite (lastWritten_unique _ _ item product None Hnd Hin Hfind). }
  destruct (MerchSales.sf_payment_status saleForm =? "paid")%string.
  - unfold Db.insert_ledger, Spec.stockOf.
    cbn [products Db.set_transactions_ledger]. apply G. reflexivity.
  - apply G. reflexivity.
Qed.

(** C3. The sample sale of two items, both of the same product: the
    order total is 130 and the two item rows carry 100 and 30, but the
    stock of the product goes from 10 to 9, the quantity of the last item
    only, and not to 7. *)
Theorem C3_sale_same_product_twice :
  let saleForm := Sample.saleOf "unpaid" [Sample.item 1%nat 2 50; Sample.item 1%nat 1 30] in
  let db' := MerchSales.handleCreateSale (products Sample.shop) saleForm Sample.shop in
  map total_amount (sales_orders db') = [130] /\
  map line_total (sales_order_items db') = [100; 30] /\
  map stock_quantity (products Sample.shop) = [10; 100] /\
  map stock_quantity (products db') = [9; 100].
Proof. cbv zeta. repeat split. Qed.

(** With two different products the stock of each goes down by the
    quantity of its item. *)
Example sale_two_products :
  let saleForm := Sample.saleOf "unpaid" [Sample.item 1%nat 2 50; Sample.item 2%nat 1 30] in
  let db' := MerchSales.handleCreateSale (products Sample.shop) saleForm Sample.shop in
  map total_amount (sales_orders db') = [130] /\
  map line_total (sales_order_items db') = [100; 30] /\
  map stock_quantity (products db') = [8; 99].
Proof. cbv zeta. repeat split. Qed.

(** ** Fee generation *)

Lemma activeMembers_spec (selectedMonth : string) (db : Store) (m : Member) :
  In m (MembershipFees.activeMembers selectedMonth db) <->
  In m (members db) /\
  (join_date m <=? selectedMonth ++ "-01")%string = true /\
  (leave_date m = None \/
   exists d, leave_date m = Some d /\ (selectedMonth ++ "-01" <=? d)%string = true).
Proof.
  unfold MembershipFees.activeMembers, MembershipFees.isActive,
    MembershipFees.monthStartOf.
  rewrite filter_In, andb_true_iff. split.
  - intros (Hin & Hj & Hl). repeat split; try assumption.
    destruct (leave_date m) as [d|]; [right; now exists d|now left].
  - intros (Hin & Hj & Hl). repeat split; try assumption.
    destruct Hl as [->|(d & -> & Hd)]; [reflexivity|assumption].
Qed.

(** C2. A member who joined on 15 January 2024 and has not left is within
    the bounds of the specification for January 2024 (joined on or before
    the 31st, no leave date), yet the query compares the join date with
    the first day of the month, selects nobody and no fee row is written
    for January; the member is first charged for February. *)
Theorem C2_joined_mid_month_not_charged :
  let db := Sample.withMembers [Sample.ahmet] in
  (join_date Sample.ahmet <=? "2024-01-31")%string = true /\
  leave_date Sample.ahmet = None /\
  MembershipFees.isActive (MembershipFees.monthStartOf "2024-01") Sample.ahmet = false /\
  MembershipFees.activeMembers "2024-01" db = [] /\
  membership_fees (MembershipFees.handleGenerateFees true "2024-01" 200 db) = [] /\
  map f_member_id
    (membership_fees (MembershipFees.handleGenerateFees true "2024-02" 200 db)) = [1%nat].
Proof. cbv zeta. repeat split. Qed.

Lemma upsert_fee_prefix (db : Store) (n : Db.NewFee) :
  members (Db.upsert_fee_ignore db n) = members db /\
  exists new,
    membership_fees (Db.upsert_fee_ignore db n) = (membership_fees db ++ new)%list.
Proof.
  unfold Db.upsert_fee_ignore.
  destruct (existsb (Db.conflicts n) (membership_fees db)).
  - split; [reflexivity|]. exists []. now rewrite app_nil_r.
  - split; [reflexivity|]. eexists. reflexivity.
Qed.

Lemma upsert_fee_covers (db : Store) (n : Db.NewFee) :
  existsb (Db.conflicts n) (membership_fees (Db.upsert_fee_ignore db n)) = true.
Proof.
  unfold Db.upsert_fee_ignore.
  destruct (existsb (Db.conflicts n) (membership_fees db)) eqn:E; [exact E|].
  cbn [membership_fees Db.set_next_id Db.set_membership_fees].
  rewrite existsb_app. cbn [existsb]. unfold Db.conflicts at 2.
  cbn [f_member_id fee_month]. rewrite Nat.eqb_refl, String.eqb_refl.
  now rewrite orb_true_r.
Qed.

Lemma upsert_fees_prefix (rows : list Db.NewFee) (db : Store) :
  members (Db.upsert_fees_ignore rows db) = members db /\
  exists new,
    membership_fees (Db.upsert_fees_ignore rows db) = (membership_fees db ++ new)%list.
Proof.
  unfold Db.upsert_fees_ignore. revert db.
  induction rows as [|n rows IH]; intros db; cbn [fold_left].
  - split; [reflexivity|]. exists []. now rewrite app_nil_r.
  - destruct (IH (Db.upsert_fee_ignore db n)) as (Hm & new & Hf).
    destruct (upsert_fee_prefix db n) as (Hm1 & new1 & Hf1).
    split; [congruence|]. exists (new1 ++ new)%list.
    now rewrite Hf, Hf1, app_assoc.
Qed.

Lemma upsert_fees_covers (rows : list Db.NewFee) (db : Store) (n : Db.NewFee) :
  In n rows ->
  existsb (Db.conflicts n) (membership_fees (Db.upsert_fees_ignore rows db)) = true.
Proof.
  unfold Db.upsert_fees_ignore. revert db.
  induction rows as [|r rows IH]; intros db Hin; [contradiction|].
  cbn [fold_left]. destruct Hin as [->|Hin]; [|now apply IH].
  destruct (upsert_fees_prefix rows (Db.upsert_fee_ignore db n)) as (_ & new & Hf).
  unfold Db.upsert_fees_ignore in Hf. rewrite Hf, existsb_app, upsert_fee_covers.
  reflexivity.
Qed.

Lemma upsert_fees_noop (rows : list Db.NewFee) (db : Store) :
  (forall n, In n rows -> existsb (Db.conflicts n) (membership_fees db) = true) ->
  Db.upsert_fees_ignore rows db = db.
Proof.
  unfold Db.upsert_fees_ignore.
  induction rows as [|r rows IH]; intros H; [reflexivity|].
  cbn [fold_left]. unfold Db.upsert_fee_ignore at 2.
  rewrite (H r (or_introl eq_refl)). apply IH. intros n Hn. apply H. now right.
Qed.

(** A store in which the fee of every active member for the month is
    already present is left as it is. *)
Lemma handleGenerateFees_noop confirmed selectedMonth feeAmount db :
  (forall n,
     In n (MembershipFees.feesToInsert selectedMonth feeAmount
             (MembershipFees.activeMembers selectedMonth db)) ->
     existsb (Db.conflicts n) (membership_fees db) = true) ->
  MembershipFees.handleGenerateFees confirmed selectedMonth feeAmount db = db.
Proof.
  intros H. unfold MembershipFees.handleGenerateFees.
  destruct (negb confirmed); [reflexivity|].
  destruct (List.length (MembershipFees.activeMembers selectedMonth db) =? 0)%nat;
    [reflexivity|].
  now apply upsert_fees_noop.
Qed.

Lemma handleGenerateFees_covers selectedMonth feeAmount db n :
  In n (MembershipFees.feesToInsert selectedMonth feeAmount
          (MembershipFees.activeMembers selectedMonth db)) ->
  existsb (Db.conflicts n)
    (membership_fees (MembershipFees.handleGenerateFees true selectedMonth feeAmount db))
  = true.
Proof.
  intros Hin. unfold MembershipFees.handleGenerateFees. cbn [negb].
  destruct (List.length (MembershipFees.activeMembers selectedMonth db) =? 0)%nat eqn:E.
  - apply length_zero_nil in E. rewrite E in Hin. contradiction.
  - now apply upsert_fees_covers.
Qed.

Lemma handleGenerateFees_prefix confirmed selectedMonth feeAmount db :
  members (MembershipFees.handleGenerateFees confirmed selectedMonth feeAmount db)
    = members db /\
  exists new,
    membership_fees (MembershipFees.handleGenerateFees confirmed selectedMonth feeAmount db)
    = (membership_fees db ++ new)%list.
Proof.
  unfold MembershipFees.handleGenerateFees.
  destruct (negb confirmed);
    [split; [reflexivity|exists []; now rewrite app_nil_r]|].
  destruct (List.length (MembershipFees.activeMembers selectedMonth db) =? 0)%nat;
    [split; [reflexivity|exists []; now rewrite app_nil_r]|].
  apply upsert_fees_prefix.
Qed.

Lemma conflicts_markPaid n pm today f :
  Db.conflicts n (MembershipFees.markPaid pm today f) = Db.conflicts n f.
Proof. reflexivity. Qed.

Lemma handleMarkPaid_keys prompt today selectedMonth rows id db :
  let db' := MembershipFees.handleMarkPaid prompt today selectedMonth rows id db in
  members db' = members db /\
  forall n, existsb (Db.conflicts n) (membership_fees db')
            = existsb (Db.conflicts n) (membership_fees db).
Proof.
  cbv zeta. unfold MembershipFees.handleMarkPaid.
  destruct prompt as [pm|]; [|split; reflexivity].
  destruct (negb (nonEmpty pm)); [split; reflexivity|].
  assert (G : forall n,
            existsb (Db.conflicts n)
              (membership_fees (MembershipFees.update_paid pm today id db))
            = existsb (Db.conflicts n) (membership_fees db)).
  { intros n. unfold MembershipFees.update_paid.
    cbn [membership_fees Db.set_membership_fees].
    induction (membership_fees db) as [|f fs IH]; [reflexivity|].
    cbn [map existsb]. rewrite IH. f_equal.
    destruct (f_id f =? id)%nat; reflexivity. }
  destruct (JS.find _ rows); split; try reflexivity; exact G.
Qed.

(** C6. Fee generation is idempotent.  A run keeps every fee row that
    was stored before it, in place and unchanged, and only appends.  A
    second run for the same month and amount returns the store of the
    first run as it is: no new row, the same number of fee rows.  The same
    holds when a fee was marked paid between the two runs: the paid row
    stays as it is. *)
Theorem C6_fee_generation_idempotent :
  forall (selectedMonth : string) (feeAmount : Z) (db : Store),
    let run := MembershipFees.handleGenerateFees true selectedMonth feeAmount in
    (exists new, membership_fees (run db) = (membership_fees db ++ new)%list) /\
    run (run db) = run db /\
    List.length (membership_fees (run (run db))) = List.length (membership_fees (run db)) /\
    (forall prompt today rows feeId,
       let paid := MembershipFees.handleMarkPaid prompt today selectedMonth rows feeId
                     (run db) in
       run paid = paid).
Proof.
  intros selectedMonth feeAmount db run. subst run.
  destruct (handleGenerateFees_prefix true selectedMonth feeAmount db) as (Hm & Hpre).
  assert (Hsame : MembershipFees.handleGenerateFees true selectedMonth feeAmount
                    (MembershipFees.handleGenerateFees true selectedMonth feeAmount db)
                  = MembershipFees.handleGenerateFees true selectedMonth feeAmount db).
  { apply handleGenerateFees_noop. intros n Hn.
    unfold MembershipFees.activeMembers in Hn. rewrite Hm in Hn.
    now apply handleGenerateFees_covers. }
  split; [exact Hpre|split; [exact Hsame|split; [now rewrite Hsame|]]].
  intros prompt today rows feeId paid. subst paid.
  apply handleGenerateFees_noop. intros n Hn.
  destruct (handleMarkPaid_keys prompt today selectedMonth rows feeId
              (MembershipFees.handleGenerateFees true selectedMonth feeAmount db))
    as (Hm2 & Hk).
  rewrite Hk. unfold MembershipFees.activeMembers in Hn. rewrite Hm2, Hm in Hn.
  now apply handleGenerateFees_covers.
Qed.

(** ** Member balances *)

Lemma reduce_filter_unpaidSum {A} (owner : A -> uuid) (status : A -> string)
    (amt : A -> Z) (m : uuid) (l : list A) :
  reduce_sum amt
    (filter (fun x => (status x =? "unpaid")%string)
       (filter (fun x => (owner x =? m)%nat) l))
  = Spec.unpaidSum owner status amt m l.
Proof.
  induction l as [|x l IH]; [reflexivity|].
  cbn [filter Spec.unpaidSum].
  destruct (owner x =? m)%nat; cbn [filter andb].
  - destruct (status x =? "unpaid")%string.
    + rewrite reduce_sum_cons, IH. reflexivity.
    + rewrite IH. lia.
  - rewrite IH. lia.
Qed.

(** C4. The member-balances report has one row per member, in the order
    of the members; in the row of a member, fees_owed is the sum of the
    amounts of that member's unpaid fees, sales_owed the sum of the totals
    of that member's unpaid sales orders, reimb_owed the sum of the
    amounts of that member's unpaid reimbursements, and net_balance is
    fees_owed + sales_owed - reimb_owed.  A member with one unpaid fee of
    200 and one unpaid reimbursement of 50 has net balance 150. *)
Theorem C4_member_balances :
  (forall db : Store,
     Reports.loadMemberBalances db = map (Reports.balanceOf db) (members db)) /\
  (forall (db : Store) (member : Member),
     let b := Reports.balanceOf db member in
     Reports.member_name b = full_name member /\
     Reports.fees_owed b
       = Spec.unpaidSum f_member_id f_payment_status f_amount
           (m_id member) (membership_fees db) /\
     Reports.sales_owed b
       = Spec.unpaidSum so_member_id so_payment_status total_amount
           (m_id member) (sales_orders db) /\
     Reports.reimb_owed b
       = Spec.unpaidSum r_member_id r_payment_status r_amount
           (m_id member) (reimbursements db) /\
     Reports.net_balance b
       = Reports.fees_owed b + Reports.sales_owed b - Reports.reimb_owed b) /\
  map Reports.net_balance (Reports.loadMemberBalances Sample.balanceStore) = [150].
Proof.
  split; [reflexivity|split; [|reflexivity]].
  intros db member b. subst b. unfold Reports.balanceOf.
  cbn [Reports.member_name Reports.fees_owed Reports.sales_owed Reports.reimb_owed
       Reports.net_balance].
  rewrite !reduce_filter_unpaidSum. repeat split.
Qed.

(** ** Member import *)


Section MemberImportFacts.

Variable toLowerCase : string -> string.

Local Abbreviation existingNames := (Members.existingNames toLowerCase).
Local Abbreviation isNew := (Members.isNew toLowerCase).
Local Abbreviation newMembers := (Members.newMembers toLowerCase).
Local Abbreviation handleImport := (Members.handleImport toLowerCase).



End MemberImportFacts.

(** ** The statements on sample data *)

(** Marking the reimbursement of 100 paid posts -100, marking the fee of
    200 paid posts +200, a paid sale of 2 x 50 and 1 x 30 posts +130, and
    the outgoing bank row posts the negated stored amount. *)
Lemma C1_ledger_sign_witness :
  (exists e,
     transactions_ledger
       (Reimbursements.handleMarkPaid (Some "bank") "2024-03-01"
          [{| Reimbursements.reimb := Sample.reimb100;
              Reimbursements.member_name := "Ahmet Yilmaz" |}] 6%nat
          (Db.set_reimbursements [Sample.reimb100] Db.empty))
       = [e] /\
     txn_type e = "reimbursement_payment" /\ amount e = - 100) /\
  (exists e,
     transactions_ledger
       (MembershipFees.handleMarkPaid (Some "cash") "2024-03-01" "2024-02"
          [{| MembershipFees.fee := Sample.fee200;
              MembershipFees.member_name := "Ahmet Yilmaz" |}] 5%nat
          (Db.set_membership_fees [Sample.fee200] Db.empty))
       = [e] /\
     txn_type e = "membership_fee_payment" /\ amount e = 200) /\
  (exists e,
     transactions_ledger
       (MerchSales.handleCreateSale (products Sample.shop)
          (Sample.saleOf "paid" [Sample.item 1%nat 2 50; Sample.item 2%nat 1 30])
          Sample.shop)
       = [e] /\
     txn_type e = "merch_sale" /\ amount e = 130) /\
  (exists t,
     BankImport.stored
       (BankImport.toTransaction Whole.parseFloat Whole.numberToString
          Sample.mapping "statement.xls" Sample.partsRow) = Some t /\
     bt_amount t = 250 /\
     amount (BankImport.ledgerEntryOf t) = - 250).
Proof.
  split; [|split; [|split]].
  - exact (proj1 C1_ledger_sign_by_event "bank" "2024-03-01"
             [{| Reimbursements.reimb := Sample.reimb100;
                 Reimbursements.member_name := "Ahmet Yilmaz" |}] 6%nat
             (Db.set_reimbursements [Sample.reimb100] Db.empty)
             {| Reimbursements.reimb := Sample.reimb100;
                Reimbursements.member_name := "Ahmet Yilmaz" |}
             eq_refl eq_refl).
  - exact (proj1 (proj2 C1_ledger_sign_by_event) "cash" "2024-03-01" "2024-02"
             [{| MembershipFees.fee := Sample.fee200;
                 MembershipFees.member_name := "Ahmet Yilmaz" |}] 5%nat
             (Db.set_membership_fees [Sample.fee200] Db.empty)
             {| MembershipFees.fee := Sample.fee200;
                MembershipFees.member_name := "Ahmet Yilmaz" |}
             eq_refl eq_refl).
  - refine (proj1 (proj2 (proj2 (proj2 C1_ledger_sign_by_event)))
              (products Sample.shop)
              (Sample.saleOf "paid" [Sample.item 1%nat 2 50; Sample.item 2%nat 1 30])
              Sample.shop _ eq_refl).
    discriminate.
  - eexists. split; [reflexivity|]. split; [reflexivity|].
    destruct (proj2 (proj2 (proj2 (proj2 C1_ledger_sign_by_event)))
                Whole.parseFloat Whole.numberToString
                Sample.mapping "statement.xls" [Sample.partsRow] Db.empty) as (_ & _ & H).
    destruct (H Sample.partsRow _ eq_refl) as (_ & _ & _ & _ & Hout & _).
    exact (Hout eq_refl).
Defined.

(** A second file that repeats the first row of the first file is
    imported without any effect; a file with a row whose amount is not a
    number is refused as a whole. *)
Lemma C5_bank_import_witness :
  BankImport.handleImport Whole.parseFloat Whole.numberToString
    Sample.mapping "again.xls" [Sample.sponsorRow]
    (BankImport.handleImport Whole.parseFloat Whole.numberToString
       Sample.mapping "statement.xls" [Sample.sponsorRow; Sample.partsRow] Db.empty)
  = BankImport.handleImport Whole.parseFloat Whole.numberToString
      Sample.mapping "statement.xls" [Sample.sponsorRow; Sample.partsRow] Db.empty /\
  BankImport.handleImport Whole.parseFloat Whole.numberToString
    Sample.mapping "statement.xls" [Sample.sponsorRow; Sample.pendingRow] Db.empty
  = Db.empty.
Proof.
  split.
  - destruct (C5_bank_import_idempotent Whole.parseFloat Whole.numberToString
                Sample.mapping "statement.xls" [Sample.sponsorRow; Sample.partsRow]
                Db.empty) as (_ & _ & _ & _ & _ & _ & _ & Hsub & _).
    apply (Hsub "again.xls" [Sample.sponsorRow]).
    + intros t Ht. vm_compute in Ht. destruct Ht as [<-|[<-|[]]]; discriminate.
    + intros r2 [<-|[]]. exists Sample.sponsorRow. split; [now left|reflexivity].
  - destruct (C5_bank_import_idempotent Whole.parseFloat Whole.numberToString
                Sample.mapping "statement.xls" [Sample.sponsorRow; Sample.pendingRow]
                Db.empty) as (_ & _ & Hrefused & _).
    apply Hrefused.
    exists (BankImport.toTransaction Whole.parseFloat Whole.numberToString
              Sample.mapping "statement.xls" Sample.pendingRow).
    split; [vm_compute; right; left; reflexivity|reflexivity].
Defined.

(** The same row twice on an empty store: two stored rows, two entries. *)
Lemma C10_same_upload_witness :
  exists r,
    BankImport.stored
      (BankImport.toTransaction Whole.parseFloat Whole.numberToString
         Sample.mapping "statement.xls" Sample.sponsorRow) = Some r /\
    bank_transactions
      (BankImport.handleImport Whole.parseFloat Whole.numberToString
         Sample.mapping "statement.xls" [Sample.sponsorRow; Sample.sponsorRow] Db.empty)
      = [r; r] /\
    transactions_ledger
      (BankImport.handleImport Whole.parseFloat Whole.numberToString
         Sample.mapping "statement.xls" [Sample.sponsorRow; Sample.sponsorRow] Db.empty)
      = [BankImport.ledgerEntryOf r; BankImport.ledgerEntryOf r].
Proof.
  eexists. split; [reflexivity|].
  exact (proj2 (C10_same_upload_duplicates_kept Whole.parseFloat Whole.numberToString
                  Sample.mapping "statement.xls" Db.empty)
           Sample.sponsorRow eq_refl).
Defined.




(** ** Objects used as dictionaries *)

Lemma lookup_update {V} (key : string) (f : V -> V) (o : Obj.t V) (k : string) :
  Obj.lookup (Obj.update key f o) k
  = if (k =? key)%string then option_map f (Obj.lookup o k) else Obj.lookup o k.
Proof.
  induction o as [|[k0 v0] o IH]; cbn [Obj.update Obj.lookup].
  - now destruct (k =? key)%string.
  - destruct (k0 =? key)%string eqn:E1; cbn [Obj.lookup].
    + apply String.eqb_eq in E1. subst k0. rewrite (String.eqb_sym k key).
      now destruct (key =? k)%string.
    + destruct (k0 =? k)%string eqn:E2; [|exact IH].
      apply String.eqb_eq in E2. subst k0. now rewrite E1.
Qed.

Lemma lookup_snoc {V} (o : Obj.t V) (key : string) (v : V) (k : string) :
  Obj.lookup (o ++ [(key, v)])%list k
  = match Obj.lookup o k with
    | Some x => Some x
    | None => if (key =? k)%string then Some v else None
    end.
Proof.
  induction o as [|[k0 v0] o IH]; cbn [app Obj.lookup]; [reflexivity|].
  destruct (k0 =? k)%string; [reflexivity|exact IH].
Qed.

Lemma hasKey_has {V} (o : Obj.t V) (k : string) : Obj.hasKey o k = has (Obj.keys o) k.
Proof.
  unfold Obj.hasKey, has, Obj.keys.
  induction o as [|[k0 v0] o IH]; cbn [Obj.lookup map existsb fst]; [reflexivity|].
  rewrite (String.eqb_sym k k0). destruct (k0 =? k)%string; [reflexivity|exact IH].
Qed.

Lemma keys_update {V} (key : string) (f : V -> V) (o : Obj.t V) :
  Obj.keys (Obj.update key f o) = Obj.keys o.
Proof.
  unfold Obj.keys. induction o as [|[k0 v0] o IH]; cbn [Obj.update map]; [reflexivity|].
  destruct (k0 =? key)%string; cbn [map fst]; [reflexivity|now rewrite IH].
Qed.

Lemma lookup_touch {V} (key : string) (init : V) (step : V -> V) (o : Obj.t V)
    (k : string) :
  Obj.lookup (Obj.touch key init step o) k
  = if (k =? key)%string
    then Some (step match Obj.lookup o key with Some v => v | None => init end)
    else Obj.lookup o k.
Proof.
  unfold Obj.touch, Obj.hasKey. rewrite lookup_update.
  destruct (String.eqb_spec k key) as [->|Hne].
  - destruct (Obj.lookup o key) as [v|] eqn:E; cbn [negb].
    + now rewrite E.
    + rewrite lookup_snoc, E, String.eqb_refl. reflexivity.
  - destruct (Obj.lookup o key) as [v|] eqn:E; cbn [negb]; [reflexivity|].
    rewrite lookup_snoc. destruct (Obj.lookup o k); [reflexivity|].
    destruct (String.eqb_spec key k) as [->|_]; [contradiction|reflexivity].
Qed.

Lemma keys_touch {V} (key : string) (init : V) (step : V -> V) (o : Obj.t V) :
  Obj.keys (Obj.touch key init step o)
  = if has (Obj.keys o) key then Obj.keys o else (Obj.keys o ++ [key])%list.
Proof.
  unfold Obj.touch. rewrite keys_update, hasKey_has.
  destruct (has (Obj.keys o) key); cbn [negb]; [reflexivity|].
  unfold Obj.keys. now rewrite map_app.
Qed.

Lemma sumOf_app {A} (w : A -> Z) (l1 l2 : list A) :
  Spec2.sumOf w (l1 ++ l2) = Spec2.sumOf w l1 + Spec2.sumOf w l2.
Proof. induction l1 as [|x l1 IH]; cbn [app Spec2.sumOf]; [reflexivity|]. rewrite IH. lia. Qed.

Lemma reduce_sum_sumOf {A} (w : A -> Z) (l : list A) : reduce_sum w l = Spec2.sumOf w l.
Proof.
  induction l as [|x l IH]; [reflexivity|]. rewrite reduce_sum_cons, IH. reflexivity.
Qed.

Lemma values_update_sum {V} (mu : V -> Z) (key : string) (f : V -> V) (o : Obj.t V) :
  Spec2.sumOf mu (Obj.values (Obj.update key f o))
  = Spec2.sumOf mu (Obj.values o)
    + match Obj.lookup o key with
      | Some v => mu (f v) - mu v
      | None => 0
      end.
Proof.
  unfold Obj.values.
  induction o as [|[k0 v0] o IH]; cbn [Obj.update Obj.lookup map Spec2.sumOf]; [reflexivity|].
  destruct (k0 =? key)%string; cbn [map Spec2.sumOf snd]; [lia|]. rewrite IH. lia.
Qed.

Lemma firstSeen_step_NoDup (acc : list string) (k : string) :
  NoDup acc -> NoDup (if has acc k then acc else (acc ++ [k])%list).
Proof.
  intros H. destruct (has acc k) eqn:E; [exact H|].
  apply has_false in E. apply NoDup_app; [exact H|repeat constructor; intros []|].
  intros x Hx [<-|[]]. contradiction.
Qed.

Lemma firstSeen_from_NoDup (l acc : list string) :
  NoDup acc ->
  NoDup (fold_left (fun acc k => if has acc k then acc else (acc ++ [k])%list) l acc).
Proof.
  revert acc. induction l as [|k l IH]; intros acc H; cbn [fold_left]; [exact H|].
  apply IH. now apply firstSeen_step_NoDup.
Qed.

Lemma firstSeen_from_In (l acc : list string) (k : string) :
  In k (fold_left (fun acc k => if has acc k then acc else (acc ++ [k])%list) l acc)
  <-> In k acc \/ In k l.
Proof.
  revert acc. induction l as [|x l IH]; intros acc; cbn [fold_left].
  - cbn. tauto.
  - rewrite IH. destruct (has acc x) eqn:E.
    + apply has_In in E. cbn. split; [tauto|]. intros [H|[<-|H]]; tauto.
    + rewrite in_app_iff. cbn. tauto.
Qed.

(** A list of pairs with distinct keys is read back by key. *)
Lemma lookup_In {V} (o : Obj.t V) (k : string) (v : V) :
  NoDup (Obj.keys o) -> In (k, v) o -> Obj.lookup o k = Some v.
Proof.
  unfold Obj.keys. induction o as [|[k0 v0] o IH]; intros Hnd Hin; [contradiction|].
  cbn [map fst] in Hnd. apply NoDup_cons_iff in Hnd. destruct Hnd as [Hnotin Hnd].
  cbn [Obj.lookup]. destruct Hin as [E|Hin].
  - injection E as -> ->. now rewrite String.eqb_refl.
  - destruct (String.eqb_spec k0 k) as [->|_]; [|now apply IH].
    exfalso. apply Hnotin. now apply (in_map fst) in Hin.
Qed.

Lemma In_lookup {V} (o : Obj.t V) (k : string) (v : V) :
  Obj.lookup o k = Some v -> In (k, v) o.
Proof.
  induction o as [|[k0 v0] o IH]; cbn [Obj.lookup]; [discriminate|].
  destruct (String.eqb_spec k0 k) as [->|_].
  - intros [= ->]. now left.
  - intros H. right. now apply IH.
Qed.

(** ** Grouping a list into a dictionary *)

Section Grouping.

Context {A V : Type}.
Variable keyOf : A -> string.
Variable init : A -> V.
Variable step : A -> V -> V.

Local Abbreviation add := (fun (o : Obj.t V) (x : A) =>
                             Obj.touch (keyOf x) (init x) (step x) o).

Lemma group_keys (l : list A) (o : Obj.t V) :
  Obj.keys (fold_left add l o)
  = fold_left (fun acc k => if has acc k then acc else (acc ++ [k])%list)
      (map keyOf l) (Obj.keys o).
Proof.
  revert o. induction l as [|x l IH]; intros o; cbn [fold_left map]; [reflexivity|].
  rewrite IH, keys_touch. reflexivity.
Qed.

(** A quantity [mu] of the groups to which every entry [x] adds [w x]. *)
Lemma group_measure (mu : V -> Z) (w : A -> Z) (l : list A) (o : Obj.t V) (k : string) :
  (forall x, mu (init x) = 0) ->
  (forall x v, mu (step x v) = mu v + w x) ->
  option_map mu (Obj.lookup (fold_left add l o) k)
  = match Obj.lookup o k with
    | Some v => Some (mu v + Spec2.sumFor keyOf w k l)
    | None =>
        if existsb (fun x => (keyOf x =? k)%string) l
        then Some (Spec2.sumFor keyOf w k l)
        else None
    end.
Proof.
  intros Hinit Hstep. revert o.
  induction l as [|x l IH]; intros o; cbn [fold_left Spec2.sumFor existsb].
  - destruct (Obj.lookup o k); cbn [option_map]; [f_equal; lia|reflexivity].
  - rewrite IH, lookup_touch, (String.eqb_sym k (keyOf x)).
    destruct (String.eqb_spec (keyOf x) k) as [E|Hne]; cbn [orb].
    + rewrite E. destruct (Obj.lookup o k) as [v|]; f_equal.
      * rewrite Hstep. lia.
      * rewrite Hstep, Hinit. lia.
    + destruct (Obj.lookup o k); [f_equal; lia|].
      destruct (existsb _ l); [f_equal; lia|reflexivity].
Qed.

Lemma group_total (mu : V -> Z) (w : A -> Z) (l : list A) (o : Obj.t V) :
  (forall x, mu (init x) = 0) ->
  (forall x v, mu (step x v) = mu v + w x) ->
  Spec2.sumOf mu (Obj.values (fold_left add l o))
  = Spec2.sumOf mu (Obj.values o) + Spec2.sumOf w l.
Proof.
  intros Hinit Hstep. revert o.
  induction l as [|x l IH]; intros o; cbn [fold_left Spec2.sumOf]; [lia|].
  rewrite IH. unfold Obj.touch at 1. rewrite values_update_sum.
  unfold Obj.hasKey. destruct (Obj.lookup o (keyOf x)) as [v|] eqn:E; cbn [negb].
  - rewrite E, Hstep. lia.
  - rewrite lookup_snoc, E, String.eqb_refl. unfold Obj.values.
    rewrite map_app, sumOf_app. cbn [map Spec2.sumOf snd]. rewrite Hstep, Hinit. lia.
Qed.

(** A text [tag] of the groups that is the key under which it is stored. *)
Lemma group_tag (tag : V -> string) (l : list A) (o : Obj.t V) :
  (forall x, tag (init x) = keyOf x) ->
  (forall x v, tag (step x v) = tag v) ->
  (forall k v, In (k, v) o -> tag v = k) ->
  forall k v, In (k, v) (fold_left add l o) -> tag v = k.
Proof.
  intros Hinit Hstep. revert o.
  induction l as [|x l IH]; intros o Ho; cbn [fold_left]; [exact Ho|].
  apply IH. intros k v Hin.
  assert (Hupd : forall key f (o' : Obj.t V),
            (forall v, tag (f v) = tag v) ->
            (forall k v, In (k, v) o' -> tag v = k) ->
            forall k v, In (k, v) (Obj.update key f o') -> tag v = k).
  { clear. intros key f o' Hf. induction o' as [|[k0 v0] o' IH']; intros H k v Hin;
      cbn [Obj.update] in Hin; [contradiction|].
    destruct (k0 =? key)%string.
    - destruct Hin as [E|Hin]; [|apply H; now right].
      injection E as <- <-. rewrite Hf. apply H. now left.
    - destruct Hin as [E|Hin]; [apply H; now left|].
      apply IH'; [|exact Hin]. intros k' v' H'. apply H. now right. }
  unfold Obj.touch in Hin. apply Hupd in Hin; [exact Hin|apply Hstep|].
  intros k' v' H'. destruct (negb (Obj.hasKey o (keyOf x))); [|now apply Ho].
  apply in_app_iff in H'. destruct H' as [H'|[E|[]]]; [now apply Ho|].
  injection E as <- <-. apply Hinit.
Qed.

End Grouping.

Lemma tagged_values_keys {V} (tag : V -> string) (o : Obj.t V) :
  (forall k v, In (k, v) o -> tag v = k) ->
  map tag (Obj.values o) = Obj.keys o.
Proof.
  unfold Obj.values, Obj.keys.
  induction o as [|[k0 v0] o IH]; intros H; cbn [map fst snd]; [reflexivity|].
  rewrite (H k0 v0 (or_introl eq_refl)), IH; [reflexivity|].
  intros k v Hin. apply H. now right.
Qed.

Lemma In_values {V} (o : Obj.t V) (v : V) :
  In v (Obj.values o) -> exists k, In (k, v) o.
Proof.
  unfold Obj.values. intros H. apply in_map_iff in H.
  destruct H as ([k v'] & E & Hin). cbn in E. subst v'. now exists k.
Qed.

Lemma existsb_key_In {A} (keyOf : A -> string) (l : list A) (k : string) :
  existsb (fun x => (keyOf x =? k)%string) l = true <-> In k (map keyOf l).
Proof.
  rewrite existsb_exists, in_map_iff. split.
  - intros (x & Hin & E). apply String.eqb_eq in E. now exists x.
  - intros (x & E & Hin). exists x. split; [exact Hin|]. now apply String.eqb_eq.
Qed.

(** ** Profit and loss report *)

Lemma pl_summary_grouping (data : list LedgerEntry) :
  PLReport.summaryOf data
  = fold_left (fun o x => Obj.touch (PLReport.keyOf x) (Spec2.plInit x) (Spec2.plStep x) o)
      data [].
Proof. reflexivity. Qed.

Lemma pl_summary_tagged (data : list LedgerEntry) :
  forall k v, In (k, v) (PLReport.summaryOf data) -> Spec2.plRowKey v = k.
Proof.
  rewrite pl_summary_grouping.
  apply (group_tag PLReport.keyOf Spec2.plInit Spec2.plStep Spec2.plRowKey).
  - reflexivity.
  - intros x v. unfold Spec2.plStep. now destruct (amount x >? 0).
  - intros k v [].
Qed.

Lemma pl_summary_keys (data : list LedgerEntry) :
  Obj.keys (PLReport.summaryOf data) = Spec2.firstSeen (map PLReport.keyOf data).
Proof.
  rewrite pl_summary_grouping.
  now rewrite (group_keys PLReport.keyOf Spec2.plInit Spec2.plStep).
Qed.

Lemma pl_step_income x v :
  PLReport.income (Spec2.plStep x v) = PLReport.income v + Spec2.positivePart x.
Proof.
  unfold Spec2.plStep, Spec2.positivePart. destruct (amount x >? 0); cbn; lia.
Qed.

Lemma pl_step_expense x v :
  PLReport.expense (Spec2.plStep x v) = PLReport.expense v + Spec2.negativePart x.
Proof.
  unfold Spec2.plStep, Spec2.negativePart. destruct (amount x >? 0); cbn; lia.
Qed.

(** X1. The profit-and-loss report has one row per joined key
    category-project of the ledger entries of the date range, in the order
    in which the keys first appear; the income of a row is the sum of the
    positive amounts of the entries with that key, its expense the sum of
    the absolute values of their other amounts.  Two entries with
    different categories and projects but the same joined key share a
    row. *)
Theorem X1_pl_rows_by_joined_key :
  forall (rangeStart rangeEnd : string) (db : Store),
    let data := ledgerInRange rangeStart rangeEnd db in
    let rows := PLReport.loadPLReport rangeStart rangeEnd db in
    map Spec2.plRowKey rows = Spec2.firstSeen (map PLReport.keyOf data) /\
    NoDup (map Spec2.plRowKey rows) /\
    (forall t, In t data -> In (PLReport.keyOf t) (map Spec2.plRowKey rows)) /\
    (forall r, In r rows ->
       PLReport.income r
         = Spec2.sumFor PLReport.keyOf Spec2.positivePart (Spec2.plRowKey r) data /\
       PLReport.expense r
         = Spec2.sumFor PLReport.keyOf Spec2.negativePart (Spec2.plRowKey r) data).
Proof.
  intros rangeStart rangeEnd db data rows. subst rows.
  unfold PLReport.loadPLReport. fold data.
  assert (Hkeys : map Spec2.plRowKey (Obj.values (PLReport.summaryOf data))
                  = Spec2.firstSeen (map PLReport.keyOf data)).
  { rewrite (tagged_values_keys Spec2.plRowKey _ (pl_summary_tagged data)).
    apply pl_summary_keys. }
  assert (Hnd : NoDup (Spec2.firstSeen (map PLReport.keyOf data))).
  { apply firstSeen_from_NoDup. constructor. }
  split; [exact Hkeys|split; [now rewrite Hkeys|split]].
  - intros t Ht. rewrite Hkeys. apply firstSeen_from_In. right. now apply in_map.
  - intros r Hr. apply In_values in Hr. destruct Hr as (k & Hin).
    pose proof (pl_summary_tagged data k r Hin) as Hk. rewrite Hk.
    assert (Hl : Obj.lookup (PLReport.summaryOf data) k = Some r).
    { apply lookup_In; [|exact Hin]. now rewrite pl_summary_keys. }
    assert (Hex : existsb (fun x => (PLReport.keyOf x =? k)%string) data = true).
    { apply existsb_key_In.
      assert (Hkin : In k (Spec2.firstSeen (map PLReport.keyOf data))).
      { rewrite <- pl_summary_keys. apply (in_map fst) in Hin. exact Hin. }
      apply firstSeen_from_In in Hkin. destruct Hkin as [[]|Hkin]. exact Hkin. }
    rewrite pl_summary_grouping in Hl. split.
    + pose proof (group_measure PLReport.keyOf Spec2.plInit Spec2.plStep
                    PLReport.income Spec2.positivePart data [] k
                    (fun _ => eq_refl) pl_step_income) as G.
      cbn [Obj.lookup] in G. rewrite Hex, Hl in G. cbn [option_map] in G.
      now injection G.
    + pose proof (group_measure PLReport.keyOf Spec2.plInit Spec2.plStep
                    PLReport.expense Spec2.negativePart data [] k
                    (fun _ => eq_refl) pl_step_expense) as G.
      cbn [Obj.lookup] in G. rewrite Hex, Hl in G. cbn [option_map] in G.
      now injection G.
Qed.

(** ** The order of texts *)

Lemma ascii_compare_refl (a : ascii) : Ascii.compare a a = Eq.
Proof. unfold Ascii.compare. apply N.compare_refl. Qed.

Lemma ascii_compare_lt_trans (a b c : ascii) :
  Ascii.compare a b = Lt -> Ascii.compare b c = Lt -> Ascii.compare a c = Lt.
Proof.
  unfold Ascii.compare. rewrite !N.compare_lt_iff. apply N.lt_trans.
Qed.

Lemma string_compare_le_trans (a b c : string) :
  String.compare a b <> Gt -> String.compare b c <> Gt -> String.compare a c <> Gt.
Proof.
  revert b c. induction a as [|x a IH]; intros [|y b] [|z c]; cbn [String.compare];
    try congruence.
  destruct (Ascii.compare x y) eqn:E1.
  - apply Ascii.compare_eq_iff in E1. subst y.
    destruct (Ascii.compare x z) eqn:E2; try congruence. apply IH.
  - destruct (Ascii.compare y z) eqn:E2.
    + apply Ascii.compare_eq_iff in E2. subst z. rewrite E1. congruence.
    + rewrite (ascii_compare_lt_trans x y z E1 E2). congruence.
    + congruence.
  - congruence.
Qed.

Lemma string_leb_le (a b : string) : (a <=? b)%string = true <-> String.compare a b <> Gt.
Proof. unfold String.leb. destruct (String.compare a b); split; congruence. Qed.

Lemma string_leb_trans (a b c : string) :
  (a <=? b)%string = true -> (b <=? c)%string = true -> (a <=? c)%string = true.
Proof. rewrite !string_leb_le. apply string_compare_le_trans. Qed.

Lemma string_leb_refl (a : string) : (a <=? a)%string = true.
Proof.
  apply string_leb_le. induction a as [|x a IH]; cbn [String.compare]; [congruence|].
  now rewrite ascii_compare_refl.
Qed.

(** Cutting two texts to their first [n] characters keeps their order. *)
Lemma substring_leb (n : nat) (a b : string) :
  (a <=? b)%string = true ->
  (String.substring 0 n a <=? String.substring 0 n b)%string = true.
Proof.
  rewrite !string_leb_le. revert a b.
  induction n as [|n IH]; intros [|x a] [|y b]; cbn [String.substring String.compare];
    try congruence.
  destruct (Ascii.compare x y); try congruence. apply IH.
Qed.

Lemma StronglySorted_snoc {A} (R : A -> A -> Prop) (l : list A) (x : A) :
  StronglySorted R l -> (forall a, In a l -> R a x) -> StronglySorted R (l ++ [x]).
Proof.
  induction l as [|y l IH]; intros Hs Hx; cbn [app].
  - repeat constructor.
  - apply StronglySorted_inv in Hs. destruct Hs as [Hs Hy]. constructor.
    + apply IH; [exact Hs|]. intros a Ha. apply Hx. now right.
    + apply Forall_app. split; [exact Hy|]. constructor; [|constructor].
      apply Hx. now left.
Qed.

(** The distinct keys of a list in non-decreasing order come out in
    strictly increasing order. *)
Lemma firstSeen_increasing (l : list string) :
  StronglySorted (fun a b => (a <=? b)%string = true) l ->
  StronglySorted Spec2.before (Spec2.firstSeen l).
Proof.
  unfold Spec2.firstSeen.
  assert (G : forall l acc,
            StronglySorted (fun a b => (a <=? b)%string = true) l ->
            StronglySorted Spec2.before acc ->
            (forall a b, In a acc -> In b l -> (a <=? b)%string = true) ->
            StronglySorted Spec2.before
              (fold_left (fun acc k => if has acc k then acc else (acc ++ [k])%list) l acc)).
  { clear l. induction l as [|k l IH]; intros acc Hl Hacc Hle; cbn [fold_left];
      [exact Hacc|].
    apply StronglySorted_inv in Hl. destruct Hl as [Hl Hk].
    rewrite Forall_forall in Hk. apply IH; [exact Hl| |].
    - destruct (has acc k) eqn:E; [exact Hacc|]. apply has_false in E.
      apply StronglySorted_snoc; [exact Hacc|]. intros a Ha. split.
      + apply Hle; [exact Ha|now left].
      + intros ->. contradiction.
    - intros a b Ha Hb. destruct (has acc k).
      + apply Hle; [exact Ha|now right].
      + apply in_app_iff in Ha. destruct Ha as [Ha|[<-|[]]].
        * apply Hle; [exact Ha|now right].
        * now apply Hk. }
  intros Hl. apply G; [exact Hl|constructor|intros a b []].
Qed.

(** ** Cashflow report *)

Lemma insertByDate_perm (t : LedgerEntry) (l : list LedgerEntry) :
  Permutation (t :: l) (Cashflow.insertByDate t l).
Proof.
  induction l as [|x l IH]; cbn [Cashflow.insertByDate]; [reflexivity|].
  destruct (txn_date t <=? txn_date x)%string; [reflexivity|].
  rewrite perm_swap. now apply perm_skip.
Qed.

Lemma orderByDate_perm (l : list LedgerEntry) : Permutation l (Cashflow.orderByDate l).
Proof.
  unfold Cashflow.orderByDate. induction l as [|x l IH]; cbn [fold_right]; [reflexivity|].
  rewrite <- insertByDate_perm. now apply perm_skip.
Qed.

Lemma insertByDate_sorted (t : LedgerEntry) (l : list LedgerEntry) :
  StronglySorted (fun a b => (txn_date a <=? txn_date b)%string = true) l ->
  StronglySorted (fun a b => (txn_date a <=? txn_date b)%string = true)
    (Cashflow.insertByDate t l).
Proof.
  induction l as [|x l IH]; intros Hs; cbn [Cashflow.insertByDate].
  - repeat constructor.
  - pose proof (StronglySorted_inv Hs) as [Hl Hx].
    destruct (txn_date t <=? txn_date x)%string eqn:E.
    + constructor; [exact Hs|]. constructor; [exact E|].
      rewrite Forall_forall in *. intros y Hy.
      exact (string_leb_trans _ _ _ E (Hx y Hy)).
    + constructor; [now apply IH|].
      rewrite Forall_forall in *. intros y Hy.
      apply (Permutation_in _ (Permutation_sym (insertByDate_perm t l))) in Hy.
      destruct Hy as [<-|Hy]; [|now apply Hx].
      destruct (String.leb_total (txn_date t) (txn_date x)) as [H|H]; [congruence|exact H].
Qed.

Lemma orderByDate_sorted (l : list LedgerEntry) :
  StronglySorted (fun a b => (txn_date a <=? txn_date b)%string = true)
    (Cashflow.orderByDate l).
Proof.
  unfold Cashflow.orderByDate. induction l as [|x l IH]; cbn [fold_right]; [constructor|].
  now apply insertByDate_sorted.
Qed.

Lemma StronglySorted_map {A B} (R : A -> A -> Prop) (S : B -> B -> Prop) (f : A -> B)
    (l : list A) :
  (forall a b, R a b -> S (f a) (f b)) ->
  StronglySorted R l -> StronglySorted S (map f l).
Proof.
  intros H. induction l as [|x l IH]; intros Hs; cbn [map]; [constructor|].
  apply StronglySorted_inv in Hs. destruct Hs as [Hl Hx]. constructor; [now apply IH|].
  rewrite Forall_forall in *. intros y Hy. apply in_map_iff in Hy.
  destruct Hy as (a & <- & Ha). apply H. now apply Hx.
Qed.

Lemma sumFor_perm {A} (keyOf : A -> string) (w : A -> Z) (k : string) (l l' : list A) :
  Permutation l l' -> Spec2.sumFor keyOf w k l = Spec2.sumFor keyOf w k l'.
Proof.
  induction 1; cbn [Spec2.sumFor]; lia.
Qed.

Lemma sumOf_perm {A} (w : A -> Z) (l l' : list A) :
  Permutation l l' -> Spec2.sumOf w l = Spec2.sumOf w l'.
Proof.
  induction 1; cbn [Spec2.sumOf]; lia.
Qed.

Lemma cf_monthly_grouping (data : list LedgerEntry) :
  Cashflow.monthlyOf data
  = fold_left (fun o x => Obj.touch (Cashflow.monthOf x) (Spec2.cfInit x) (Spec2.cfStep x) o)
      data [].
Proof. reflexivity. Qed.

Lemma cf_monthly_tagged (data : list LedgerEntry) :
  forall k v, In (k, v) (Cashflow.monthlyOf data) -> Cashflow.month v = k.
Proof.
  rewrite cf_monthly_grouping.
  apply (group_tag Cashflow.monthOf Spec2.cfInit Spec2.cfStep Cashflow.month).
  - reflexivity.
  - intros x v. unfold Spec2.cfStep. now destruct (amount x >? 0).
  - intros k v [].
Qed.

Lemma cf_monthly_keys (data : list LedgerEntry) :
  Obj.keys (Cashflow.monthlyOf data) = Spec2.firstSeen (map Cashflow.monthOf data).
Proof.
  rewrite cf_monthly_grouping.
  now rewrite (group_keys Cashflow.monthOf Spec2.cfInit Spec2.cfStep).
Qed.

Lemma cf_step_inflow x v :
  Cashflow.inflow (Spec2.cfStep x v) = Cashflow.inflow v + Spec2.positivePart x.
Proof.
  unfold Spec2.cfStep, Spec2.positivePart. destruct (amount x >? 0); cbn; lia.
Qed.

Lemma cf_step_outflow x v :
  Cashflow.outflow (Spec2.cfStep x v) = Cashflow.outflow v + Spec2.negativePart x.
Proof.
  unfold Spec2.cfStep, Spec2.negativePart. destruct (amount x >? 0); cbn; lia.
Qed.

Lemma cf_months (rangeStart rangeEnd : string) (db : Store) :
  map Cashflow.month (Cashflow.loadCashflow rangeStart rangeEnd db)
  = Spec2.firstSeen
      (map Cashflow.monthOf (Cashflow.orderByDate (ledgerInRange rangeStart rangeEnd db))).
Proof.
  unfold Cashflow.loadCashflow.
  rewrite (tagged_values_keys Cashflow.month _ (cf_monthly_tagged _)).
  apply cf_monthly_keys.
Qed.

Lemma get_4_substring_7 (s : string) (c : ascii) :
  String.get 4 s = Some c -> String.get 4 (String.substring 0 7 s) = Some c.
Proof.
  destruct s as [|c0 [|c1 [|c2 [|c3 [|c4 s]]]]]; cbn; try discriminate. tauto.
Qed.

(** X2. When the dates of the ledger have the shape of the date column,
    the cashflow report lists the calendar months of the ledger entries of
    the date range in strictly increasing order, one row per month,
    because the entries are read in date order; every month listed holds
    the hyphen after the year, so that no key of the grouping object is an
    array index. *)
Theorem X2_cashflow_months_increasing :
  forall (rangeStart rangeEnd : string) (db : Store),
    Spec2.isoDated db ->
    let months := map Cashflow.month (Cashflow.loadCashflow rangeStart rangeEnd db) in
    StronglySorted Spec2.before months /\
    Forall (fun m => String.get 4 m = Some "-"%char) months.
Proof.
  intros rangeStart rangeEnd db Hiso months. subst months. rewrite cf_months. split.
  - apply firstSeen_increasing.
    apply (StronglySorted_map (fun a b => (txn_date a <=? txn_date b)%string = true)).
    + intros a b H. unfold Cashflow.monthOf. now apply substring_leb.
    + apply orderByDate_sorted.
  - apply Forall_forall. intros m Hm. apply firstSeen_from_In in Hm.
    destruct Hm as [[]|Hm]. apply in_map_iff in Hm. destruct Hm as (t & <- & Ht).
    apply (Permutation_in _ (Permutation_sym (orderByDate_perm _))) in Ht.
    apply filter_In in Ht. destruct Ht as [Ht _].
    unfold Cashflow.monthOf. apply get_4_substring_7. now apply Hiso.
Qed.

(** X3. In the cashflow report every month of an entry of the date range
    has a row, and the inflow of a row is the sum of the positive amounts
    of the entries of its month, its outflow the sum of the absolute
    values of their other amounts; over all rows, inflow minus outflow adds
    up to the sum of the amounts of the entries. *)
Theorem X3_cashflow_rows_by_month :
  forall (rangeStart rangeEnd : string) (db : Store),
    let data := ledgerInRange rangeStart rangeEnd db in
    let rows := Cashflow.loadCashflow rangeStart rangeEnd db in
    (forall t, In t data -> In (Cashflow.monthOf t) (map Cashflow.month rows)) /\
    (forall r, In r rows ->
       Cashflow.inflow r
         = Spec2.sumFor Cashflow.monthOf Spec2.positivePart (Cashflow.month r) data /\
       Cashflow.outflow r
         = Spec2.sumFor Cashflow.monthOf Spec2.negativePart (Cashflow.month r) data) /\
    Spec2.sumOf (fun r => Cashflow.inflow r - Cashflow.outflow r) rows
      = Spec2.sumOf amount data.
Proof.
  intros rangeStart rangeEnd db data rows.
  pose proof (orderByDate_perm data) as Hperm.
  set (sorted := Cashflow.orderByDate data) in *.
  assert (Hkeys : map Cashflow.month rows = Spec2.firstSeen (map Cashflow.monthOf sorted))
    by apply cf_months.
  split; [|split].
  - intros t Ht. rewrite Hkeys. apply firstSeen_from_In. right. apply in_map.
    now apply (Permutation_in _ Hperm).
  - intros r Hr. subst rows. unfold Cashflow.loadCashflow in Hr. fold data in Hr.
    fold sorted in Hr. apply In_values in Hr. destruct Hr as (k & Hin).
    pose proof (cf_monthly_tagged sorted k r Hin) as Hk. rewrite Hk.
    assert (Hl : Obj.lookup (Cashflow.monthlyOf sorted) k = Some r).
    { apply lookup_In; [|exact Hin]. rewrite cf_monthly_keys.
      apply firstSeen_from_NoDup. constructor. }
    assert (Hex : existsb (fun x => (Cashflow.monthOf x =? k)%string) sorted = true).
    { apply existsb_key_In.
      assert (Hkin : In k (Spec2.firstSeen (map Cashflow.monthOf sorted))).
      { rewrite <- cf_monthly_keys. apply (in_map fst) in Hin. exact Hin. }
      apply firstSeen_from_In in Hkin. destruct Hkin as [[]|Hkin]. exact Hkin. }
    rewrite cf_monthly_grouping in Hl.
    rewrite (sumFor_perm _ _ k _ _ Hperm), (sumFor_perm _ Spec2.negativePart k _ _ Hperm).
    split.
    + pose proof (group_measure Cashflow.monthOf Spec2.cfInit Spec2.cfStep
                    Cashflow.inflow Spec2.positivePart sorted [] k
                    (fun _ => eq_refl) cf_step_inflow) as G.
      cbn [Obj.lookup] in G. rewrite Hex, Hl in G. cbn [option_map] in G.
      now injection G.
    + pose proof (group_measure Cashflow.monthOf Spec2.cfInit Spec2.cfStep
                    Cashflow.outflow Spec2.negativePart sorted [] k
                    (fun _ => eq_refl) cf_step_outflow) as G.
      cbn [Obj.lookup] in G. rewrite Hex, Hl in G. cbn [option_map] in G.
      now injection G.
  - subst rows. unfold Cashflow.loadCashflow. fold data. fold sorted.
    rewrite cf_monthly_grouping.
    rewrite (group_total Cashflow.monthOf Spec2.cfInit Spec2.cfStep
               (fun r => Cashflow.inflow r - Cashflow.outflow r) amount sorted []).
    + cbn [Obj.values map Spec2.sumOf]. rewrite (sumOf_perm _ _ _ Hperm). lia.
    + reflexivity.
    + intros x v. unfold Spec2.cfStep. destruct (amount x >? 0) eqn:E; cbn; lia.
Qed.

(** ** Dashboard *)

Lemma positive_sum (l : list LedgerEntry) :
  reduce_sum amount (filter (fun t => amount t >? 0) l) = Spec2.sumOf Spec2.positivePart l.
Proof.
  rewrite reduce_sum_sumOf. unfold Spec2.positivePart.
  induction l as [|t l IH]; cbn [filter Spec2.sumOf]; [reflexivity|].
  destruct (amount t >? 0); cbn [Spec2.sumOf]; lia.
Qed.

Lemma negative_sum (l : list LedgerEntry) :
  reduce_sum amount (filter (fun t => amount t <? 0) l) = - Spec2.sumOf Spec2.negativePart l.
Proof.
  rewrite reduce_sum_sumOf. unfold Spec2.negativePart.
  induction l as [|t l IH]; cbn [filter Spec2.sumOf]; [reflexivity|].
  destruct (Z.ltb_spec (amount t) 0); destruct (Z.gtb_spec (amount t) 0);
    cbn [Spec2.sumOf]; lia.
Qed.

Lemma negativePart_sum_nonneg (l : list LedgerEntry) : 0 <= Spec2.sumOf Spec2.negativePart l.
Proof.
  unfold Spec2.negativePart. induction l as [|t l IH]; cbn [Spec2.sumOf]; [lia|].
  destruct (amount t >? 0); lia.
Qed.

Lemma positivePart_sum_nonneg (l : list LedgerEntry) : 0 <= Spec2.sumOf Spec2.positivePart l.
Proof.
  unfold Spec2.positivePart. induction l as [|t l IH]; cbn [Spec2.sumOf]; [lia|].
  destruct (Z.gtb_spec (amount t) 0); lia.
Qed.

Lemma parts_sum (l : list LedgerEntry) :
  Spec2.sumOf Spec2.positivePart l - Spec2.sumOf Spec2.negativePart l = Spec2.sumOf amount l.
Proof.
  unfold Spec2.positivePart, Spec2.negativePart.
  induction l as [|t l IH]; cbn [Spec2.sumOf]; [reflexivity|].
  destruct (Z.gtb_spec (amount t) 0); lia.
Qed.

(** X4. For one date range the dashboard and the profit-and-loss report
    agree: the month income of the dashboard is the sum of the incomes of
    the report rows, the month expense the sum of their expenses; both
    figures are non-negative and their difference is the sum of the
    amounts of the ledger entries of the range. *)
Theorem X4_dashboard_agrees_with_pl :
  forall (rangeStart rangeEnd : string) (db : Store),
    let stats := Dashboard.loadStats rangeStart rangeEnd db in
    let rows := PLReport.loadPLReport rangeStart rangeEnd db in
    Dashboard.monthIncome stats = Spec2.sumOf PLReport.income rows /\
    Dashboard.monthExpense stats = Spec2.sumOf PLReport.expense rows /\
    0 <= Dashboard.monthIncome stats /\
    0 <= Dashboard.monthExpense stats /\
    Dashboard.monthIncome stats - Dashboard.monthExpense stats
      = Spec2.sumOf amount (ledgerInRange rangeStart rangeEnd db).
Proof.
  intros rangeStart rangeEnd db stats rows. subst stats rows.
  unfold Dashboard.loadStats, PLReport.loadPLReport.
  cbn [Dashboard.monthIncome Dashboard.monthExpense].
  set (data := ledgerInRange rangeStart rangeEnd db).
  rewrite positive_sum, negative_sum, pl_summary_grouping.
  rewrite (group_total PLReport.keyOf Spec2.plInit Spec2.plStep PLReport.income
             Spec2.positivePart data [] (fun _ => eq_refl) pl_step_income).
  rewrite (group_total PLReport.keyOf Spec2.plInit Spec2.plStep PLReport.expense
             Spec2.negativePart data [] (fun _ => eq_refl) pl_step_expense).
  cbn [Obj.values map Spec2.sumOf].
  pose proof (negativePart_sum_nonneg data). pose proof (positivePart_sum_nonneg data).
  pose proof (parts_sum data). repeat split; lia.
Qed.

(** ** Inventory report *)

Lemma sumOf_filter_app {A} (w : A -> Z) (p : A -> bool) (l1 l2 : list A) :
  Spec2.sumOf w (filter p (l1 ++ l2))
  = Spec2.sumOf w (filter p l1) + Spec2.sumOf w (filter p l2).
Proof. now rewrite filter_app, sumOf_app. Qed.

Lemma handleCreateSale_items prods saleForm db :
  MerchSales.items saleForm <> [] ->
  sales_order_items (MerchSales.handleCreateSale prods saleForm db)
  = (sales_order_items db
     ++ map (MerchSales.itemRow prods (next_id db)) (MerchSales.items saleForm))%list.
Proof.
  intros Hne. exact (proj1 (proj2 (handleCreateSale_rows prods saleForm db Hne))).
Qed.

Lemma inventory_after_sale :
  forall (prods : list Product) (saleForm : MerchSales.SaleForm) (db : Store)
         (product : Product),
    MerchSales.items saleForm <> [] ->
    let db' := MerchSales.handleCreateSale prods saleForm db in
    let named := filter (fun i => (MerchSales.si_product_id i =? p_id product)%nat)
                   (MerchSales.items saleForm) in
    Inventory.total_sold (Inventory.rowOf db' product)
      = Inventory.total_sold (Inventory.rowOf db product)
        + Spec2.sumOf MerchSales.si_quantity named /\
    Inventory.total_revenue (Inventory.rowOf db' product)
      = Inventory.total_revenue (Inventory.rowOf db product)
        + Spec2.sumOf (fun i => MerchSales.si_quantity i * MerchSales.si_unit_price i) named.
Proof.
  intros prods saleForm db product Hne db' named. subst db' named.
  unfold Inventory.rowOf. cbn [Inventory.total_sold Inventory.total_revenue].
  rewrite !reduce_sum_sumOf, (handleCreateSale_items prods saleForm db Hne).
  rewrite !sumOf_filter_app.
  assert (G : forall (w : SalesOrderItem -> Z) (w' : MerchSales.SaleItem -> Z),
            (forall i, w (MerchSales.itemRow prods (next_id db) i) = w' i) ->
            Spec2.sumOf w
              (filter (fun i => (product_id i =? p_id product)%nat)
                 (map (MerchSales.itemRow prods (next_id db)) (MerchSales.items saleForm)))
            = Spec2.sumOf w'
                (filter (fun i => (MerchSales.si_product_id i =? p_id product)%nat)
                   (MerchSales.items saleForm))).
  { clear Hne. intros w w' Hw. induction (MerchSales.items saleForm) as [|i its IH];
      cbn [map filter Spec2.sumOf]; [reflexivity|].
    cbn [product_id MerchSales.itemRow].
    destruct (MerchSales.si_product_id i =? p_id product)%nat; cbn [Spec2.sumOf];
      [rewrite Hw, IH; reflexivity|exact IH]. }
  split; f_equal; apply G; reflexivity.
Qed.

(** X5. A sale raises the sold count of a product in the inventory
    report by the quantities of all items of the sale that name the
    product, and its revenue by their line totals, whether the sale is
    paid or not. *)
Theorem X5_inventory_counts_every_sale :
  forall (prods : list Product) (saleForm : MerchSales.SaleForm) (db : Store)
         (product : Product),
    MerchSales.items saleForm <> [] ->
    let db' := MerchSales.handleCreateSale prods saleForm db in
    let named := filter (fun i => (MerchSales.si_product_id i =? p_id product)%nat)
                   (MerchSales.items saleForm) in
    Inventory.total_sold (Inventory.rowOf db' product)
      = Inventory.total_sold (Inventory.rowOf db product)
        + Spec2.sumOf MerchSales.si_quantity named /\
    Inventory.total_revenue (Inventory.rowOf db' product)
      = Inventory.total_revenue (Inventory.rowOf db product)
        + Spec2.sumOf (fun i => MerchSales.si_quantity i * MerchSales.si_unit_price i) named.
Proof. exact inventory_after_sale. Qed.

(** ** Stock after a sale *)

Lemma handleCreateSale_stockOf :
  forall (prods : list Product) (saleForm : MerchSales.SaleForm) (db : Store) (id : uuid),
    Spec.stockOf (MerchSales.handleCreateSale prods saleForm db) id
    = match Spec.stockOf db id with
      | None => None
      | Some s0 =>
          Some match Spec.lastWritten prods id (MerchSales.items saleForm) None with
               | Some v => v
               | None => s0
               end
      end.
Proof.
  intros prods saleForm db id. unfold MerchSales.handleCreateSale.
  destruct (List.length (MerchSales.items saleForm) =? 0)%nat eqn:E.
  { apply length_zero_nil in E. rewrite E. cbn. now destruct (Spec.stockOf db id). }
  assert (G : forall d,
            products d = products db ->
            Spec.stockOf (fold_left (MerchSales.deductStock prods)
                            (MerchSales.items saleForm) d) id
            = match Spec.stockOf db id with
              | None => None
              | Some s0 =>
                  Some match Spec.lastWritten prods id (MerchSales.items saleForm) None with
                       | Some v => v
                       | None => s0
                       end
              end).
  { intros d Hd. rewrite deductStock_stockOf. unfold Spec.stockOf. now rewrite Hd. }
  destruct (MerchSales.sf_payment_status saleForm =? "paid")%string.
  - unfold Db.insert_ledger, Spec.stockOf at 1.
    cbn [products Db.set_transactions_ledger]. apply G. reflexivity.
  - apply G. reflexivity.
Qed.

(** X6. After a sale the stock of a product of the store is the stock
    the page had loaded for it minus the quantity of the last item of the
    sale that names it (an item whose product the page does not know
    writes nothing); a product that no item names keeps its stock.  The
    items before the last one leave no trace in the stock. *)
Theorem X6_stock_after_sale :
  forall (prods : list Product) (saleForm : MerchSales.SaleForm) (db : Store) (id : uuid),
    Spec.stockOf (MerchSales.handleCreateSale prods saleForm db) id
    = match Spec.stockOf db id with
      | None => None
      | Some s0 =>
          Some match Spec.lastWritten prods id (MerchSales.items saleForm) None with
               | Some v => v
               | None => s0
               end
      end.
Proof. exact handleCreateSale_stockOf. Qed.

Lemma stockOf_product (db : Store) (id : uuid) (v : Z) :
  Spec.stockOf db id = Some v ->
  exists product,
    MerchSales.findProduct (products db) id = Some product /\
    p_id product = id /\ stock_quantity product = v.
Proof.
  unfold Spec.stockOf. destruct (MerchSales.findProduct (products db) id) as [p|] eqn:E;
    cbn [option_map]; [|discriminate].
  intros [= <-]. exists p. repeat split.
  unfold MerchSales.findProduct, JS.find in E. apply find_some in E.
  now apply Nat.eqb_eq.
Qed.

Lemma filter_unique_item (its : list MerchSales.SaleItem) (item : MerchSales.SaleItem) :
  NoDup (map MerchSales.si_product_id its) ->
  In item its ->
  filter (fun i => (MerchSales.si_product_id i =? MerchSales.si_product_id item)%nat) its
  = [item].
Proof.
  induction its as [|x its IH]; intros Hnd Hin; [contradiction|].
  cbn [map] in Hnd. apply NoDup_cons_iff in Hnd. destruct Hnd as [Hnotin Hnd].
  cbn [filter]. destruct Hin as [->|Hin].
  - rewrite Nat.eqb_refl. f_equal.
    clear IH Hnd. induction its as [|y its IH]; cbn [filter]; [reflexivity|].
    destruct (MerchSales.si_product_id y =? MerchSales.si_product_id item)%nat eqn:E.
    + exfalso. apply Hnotin. apply Nat.eqb_eq in E. rewrite <- E. cbn. now left.
    + apply IH. intros H. apply Hnotin. now right.
  - destruct (MerchSales.si_product_id x =? MerchSales.si_product_id item)%nat eqn:E.
    + exfalso. apply Hnotin. apply Nat.eqb_eq in E. rewrite E. now apply in_map.
    + now apply IH.
Qed.

Lemma filter_absent_item (its : list MerchSales.SaleItem) (id : uuid) :
  ~ In id (map MerchSales.si_product_id its) ->
  filter (fun i => (MerchSales.si_product_id i =? id)%nat) its = [].
Proof.
  induction its as [|x its IH]; intros H; cbn [filter]; [reflexivity|].
  destruct (MerchSales.si_product_id x =? id)%nat eqn:E.
  - exfalso. apply H. apply Nat.eqb_eq in E. rewrite <- E. cbn. now left.
  - apply IH. intros Hin. apply H. now right.
Qed.

Lemma total_sold_by_id (db : Store) (p q : Product) :
  p_id p = p_id q ->
  Inventory.total_sold (Inventory.rowOf db p) = Inventory.total_sold (Inventory.rowOf db q).
Proof. intros E. unfold Inventory.rowOf. cbn [Inventory.total_sold]. now rewrite E. Qed.

(** X7. When no two items of a sale name the same product and the page
    holds the products of the store, the sale keeps, for every product of
    the store, the sum of its stock and of its sold count in the
    inventory report. *)
Theorem X7_stock_plus_sold_conserved :
  forall (saleForm : MerchSales.SaleForm) (db : Store) (product : Product),
    NoDup (map MerchSales.si_product_id (MerchSales.items saleForm)) ->
    MerchSales.findProduct (products db) (p_id product) = Some product ->
    let db' := MerchSales.handleCreateSale (products db) saleForm db in
    exists product',
      MerchSales.findProduct (products db') (p_id product) = Some product' /\
      stock_quantity product' + Inventory.total_sold (Inventory.rowOf db' product')
      = stock_quantity product + Inventory.total_sold (Inventory.rowOf db product).
Proof.
  intros saleForm db product Hnd Hfind db'.
  destruct (MerchSales.items saleForm) as [|i0 its0] eqn:Eits.
  { exists product. subst db'. unfold MerchSales.handleCreateSale. rewrite Eits.
    cbn [List.length Nat.eqb]. split; [exact Hfind|reflexivity]. }
  assert (Hne : MerchSales.items saleForm <> []) by (rewrite Eits; discriminate).
  rewrite <- Eits in Hnd. clear Eits i0 its0.
  pose proof (handleCreateSale_stockOf (products db) saleForm db (p_id product)) as Hstock.
  fold db' in Hstock. unfold Spec.stockOf at 2 in Hstock.
  rewrite Hfind in Hstock. cbn [option_map] in Hstock.
  destruct (inventory_after_sale (products db) saleForm db product Hne)
    as [Hsold _]. fold db' in Hsold. cbv zeta in Hsold.
  destruct (in_dec Nat.eq_dec (p_id product)
              (map MerchSales.si_product_id (MerchSales.items saleForm))) as [Hin|Hnotin].
  - apply in_map_iff in Hin. destruct Hin as (item & Hid & Hin).
    rewrite <- Hid in Hfind, Hstock, Hsold.
    rewrite (lastWritten_unique (products db) _ item product None Hnd Hin Hfind) in Hstock.
    rewrite (filter_unique_item _ item Hnd Hin) in Hsold. cbn [Spec2.sumOf] in Hsold.
    rewrite Hid in Hstock.
    destruct (stockOf_product db' (p_id product) _ Hstock) as (product' & Hf & Hpid & Hq).
    exists product'. split; [exact Hf|].
    rewrite (total_sold_by_id db' product' product Hpid), Hq.
    lia.
  - rewrite (lastWritten_absent (products db) _ _ None Hnotin) in Hstock.
    rewrite (filter_absent_item _ _ Hnotin) in Hsold. cbn [Spec2.sumOf] in Hsold.
    destruct (stockOf_product db' (p_id product) _ Hstock) as (product' & Hf & Hpid & Hq).
    exists product'. split; [exact Hf|].
    rewrite (total_sold_by_id db' product' product Hpid), Hq. lia.
Qed.

(** ** Reimbursements page: the pending total *)

Lemma filter_filter_same {A} (p : A -> bool) (l : list A) :
  filter p (filter p l) = filter p l.
Proof.
  induction l as [|x l IH]; cbn [filter]; [reflexivity|].
  destruct (p x) eqn:E; cbn [filter]; [rewrite E, IH|]; easy.
Qed.

Lemma filter_filter_none {A} (p q : A -> bool) (l : list A) :
  (forall x, p x = true -> q x = false) -> filter q (filter p l) = [].
Proof.
  intros H. induction l as [|x l IH]; cbn [filter]; [reflexivity|].
  destruct (p x) eqn:E; cbn [filter]; [rewrite (H x E)|]; exact IH.
Qed.

(** X8. The pending total of the reimbursements page is computed from
    the filtered list: under the filter 'paid' it is 0 whatever is stored,
    and under 'unpaid' it is the same as under 'all', the sum of the
    amounts of the unpaid rows. *)
Theorem X8_pending_total_follows_filter :
  forall rows : list Reimbursements.Row,
    ReimbursementList.totalPending
      (ReimbursementList.filterData ReimbursementList.paid rows) = 0 /\
    ReimbursementList.totalPending
      (ReimbursementList.filterData ReimbursementList.unpaid rows)
    = ReimbursementList.totalPending
        (ReimbursementList.filterData ReimbursementList.all rows) /\
    ReimbursementList.totalPending
      (ReimbursementList.filterData ReimbursementList.all rows)
    = Spec2.sumOf
        (fun r => if (r_payment_status (Reimbursements.reimb r) =? "unpaid")%string
                  then r_amount (Reimbursements.reimb r) else 0) rows.
Proof.
  intros rows. unfold ReimbursementList.totalPending, ReimbursementList.filterData.
  split; [|split].
  - rewrite filter_filter_none; [reflexivity|].
    intros x H. apply String.eqb_eq in H. now rewrite H.
  - now rewrite filter_filter_same.
  - rewrite reduce_sum_sumOf.
    induction rows as [|r rows IH]; cbn [filter Spec2.sumOf]; [reflexivity|].
    destruct (r_payment_status (Reimbursements.reimb r) =? "unpaid")%string;
      cbn [Spec2.sumOf]; lia.
Qed.

(** ** Members page *)

Lemma lowerChar_idem (c : ascii) : lowerChar (lowerChar c) = lowerChar c.
Proof.
  unfold lowerChar. destruct (isUpper c) eqn:E; [|now rewrite E].
  unfold isUpper in *. rewrite nat_ascii_embedding.
  - apply andb_true_iff in E. destruct E as [E1 E2].
    apply Nat.leb_le in E1, E2.
    destruct ((65 <=? nat_of_ascii c + 32)%nat && (nat_of_ascii c + 32 <=? 90)%nat) eqn:F;
      [|reflexivity].
    apply andb_true_iff in F. destruct F as [_ F]. apply Nat.leb_le in F. lia.
  - apply andb_true_iff in E. destruct E as [_ E2]. apply Nat.leb_le in E2. lia.
Qed.

Lemma toLowerCase_idem (s : string) : toLowerCase (toLowerCase s) = toLowerCase s.
Proof.
  induction s as [|c s IH]; cbn [toLowerCase]; [reflexivity|].
  now rewrite lowerChar_idem, IH.
Qed.

Lemma toLowerCase_nonEmpty (s : string) : nonEmpty (toLowerCase s) = nonEmpty s.
Proof. destruct s; reflexivity. Qed.

Lemma filter_partition_length {A} (p : A -> bool) (l : list A) :
  (List.length (filter (fun x => negb (p x)) l) + List.length (filter p l))%nat
  = List.length l.
Proof.
  induction l as [|x l IH]; cbn [filter]; [reflexivity|].
  destruct (p x); cbn [negb List.length]; lia.
Qed.

(** X9. In the member list the search ignores the case of the search
    term, and for one search term the filters 'active' and 'inactive'
    split the result of 'all': a member with a leave date is shown under
    'inactive' only, a member without one under 'active' only. *)
Theorem X9_member_filter_partition :
  (forall (t1 t2 : string) (st : MemberList.FilterStatus) (ms : list Member),
     toLowerCase t1 = toLowerCase t2 ->
     MemberList.filterMembers t1 st ms = MemberList.filterMembers t2 st ms) /\
  (forall (t : string) (ms : list Member) (m : Member),
     In m (MemberList.filterMembers t MemberList.all ms) ->
     (MemberList.hasLeft m = false ->
        In m (MemberList.filterMembers t MemberList.active ms) /\
        ~ In m (MemberList.filterMembers t MemberList.inactive ms)) /\
     (MemberList.hasLeft m = true ->
        In m (MemberList.filterMembers t MemberList.inactive ms) /\
        ~ In m (MemberList.filterMembers t MemberList.active ms))) /\
  (forall (t : string) (ms : list Member),
     (List.length (MemberList.filterMembers t MemberList.active ms)
      + List.length (MemberList.filterMembers t MemberList.inactive ms))%nat
     = List.length (MemberList.filterMembers t MemberList.all ms)).
Proof.
  split; [|split].
  - intros t1 t2 st ms E. unfold MemberList.filterMembers.
    rewrite <- (toLowerCase_nonEmpty t1), <- (toLowerCase_nonEmpty t2), E.
    reflexivity.
  - intros t ms m Hin. unfold MemberList.filterMembers in *.
    set (found := if nonEmpty t then _ else ms) in *. split; intros H; split.
    + apply filter_In. now rewrite H.
    + rewrite filter_In. intros [_ H']. congruence.
    + apply filter_In. now split.
    + rewrite filter_In. intros [_ H']. rewrite H in H'. discriminate.
  - intros t ms. unfold MemberList.filterMembers.
    apply filter_partition_length.
Qed.

(** ** Fee generation: the rows it writes *)

Lemma upsert_fees_new_rows (rows : list Db.NewFee) (db : Store) (f : MembershipFee) :
  In f (membership_fees (Db.upsert_fees_ignore rows db)) ->
  In f (membership_fees db) \/
  exists n, In n rows /\
    f_member_id f = Db.nf_member_id n /\ fee_month f = Db.nf_fee_month n /\
    f_amount f = Db.nf_amount n /\ f_payment_status f = Db.nf_payment_status n /\
    f_payment_method f = None /\ f_payment_date f = None.
Proof.
  unfold Db.upsert_fees_ignore. revert db.
  induction rows as [|r rows IH]; intros db Hin; cbn [fold_left] in Hin; [now left|].
  apply IH in Hin. destruct Hin as [Hin|(n & Hn & H)].
  - unfold Db.upsert_fee_ignore in Hin.
    destruct (existsb (Db.conflicts r) (membership_fees db)); [now left|].
    cbn [membership_fees Db.set_next_id Db.set_membership_fees] in Hin.
    apply in_app_iff in Hin. destruct Hin as [Hin|[<-|[]]]; [now left|].
    right. exists r. repeat split. now left.
  - right. exists n. split; [now right|exact H].
Qed.

Lemma handleGenerateFees_new_rows confirmed selectedMonth feeAmount db f :
  In f (membership_fees
          (MembershipFees.handleGenerateFees confirmed selectedMonth feeAmount db)) ->
  In f (membership_fees db) \/
  exists m, In m (MembershipFees.activeMembers selectedMonth db) /\
    f_member_id f = m_id m /\
    fee_month f = MembershipFees.monthStartOf selectedMonth /\
    f_amount f = feeAmount /\ f_payment_status f = "unpaid" /\
    f_payment_method f = None /\ f_payment_date f = None.
Proof.
  unfold MembershipFees.handleGenerateFees.
  destruct (negb confirmed); [now left|].
  destruct (List.length (MembershipFees.activeMembers selectedMonth db) =? 0)%nat;
    [now left|].
  intros Hin. apply upsert_fees_new_rows in Hin. destruct Hin as [Hin|(n & Hn & H)];
    [now left|].
  right. unfold MembershipFees.feesToInsert in Hn. apply in_map_iff in Hn.
  destruct Hn as (m & <- & Hm). exists m. split; [exact Hm|exact H].
Qed.

Lemma existsb_conflicts (n : Db.NewFee) (fees : list MembershipFee) :
  existsb (Db.conflicts n) fees = true ->
  exists f, In f fees /\
    f_member_id f = Db.nf_member_id n /\ fee_month f = Db.nf_fee_month n.
Proof.
  intros H. apply existsb_exists in H. destruct H as (f & Hin & Hc).
  unfold Db.conflicts in Hc. apply andb_true_iff in Hc. destruct Hc as [H1 H2].
  apply Nat.eqb_eq in H1. apply String.eqb_eq in H2. now exists f.
Qed.

Lemma handleGenerateFees_row_for_active selectedMonth feeAmount db m :
  In m (MembershipFees.activeMembers selectedMonth db) ->
  exists f,
    In f (membership_fees
            (MembershipFees.handleGenerateFees true selectedMonth feeAmount db)) /\
    f_member_id f = m_id m /\
    fee_month f = MembershipFees.monthStartOf selectedMonth.
Proof.
  intros Hm.
  apply (existsb_conflicts
           {| Db.nf_member_id := m_id m;
              Db.nf_fee_month := MembershipFees.monthStartOf selectedMonth;
              Db.nf_amount := feeAmount; Db.nf_payment_status := "unpaid" |}).
  apply handleGenerateFees_covers. unfold MembershipFees.feesToInsert.
  now apply (in_map (fun member =>
                       {| Db.nf_member_id := m_id member;
                          Db.nf_fee_month := MembershipFees.monthStartOf selectedMonth;
                          Db.nf_amount := feeAmount;
                          Db.nf_payment_status := "unpaid" |})).
Qed.

(** X10. Fee generation writes a row only for a member that the query
    selected; every row it writes is unpaid, without payment method and
    date, dated on the first day of the month and of the given amount;
    and after a confirmed run every selected member has a fee row for the
    month. *)
Theorem X10_generated_fee_rows :
  forall (confirmed : bool) (selectedMonth : string) (feeAmount : Z) (db : Store),
    (forall f,
       In f (membership_fees
               (MembershipFees.handleGenerateFees confirmed selectedMonth feeAmount db)) ->
       In f (membership_fees db) \/
       exists m, In m (MembershipFees.activeMembers selectedMonth db) /\
         f_member_id f = m_id m /\
         fee_month f = MembershipFees.monthStartOf selectedMonth /\
         f_amount f = feeAmount /\ f_payment_status f = "unpaid" /\
         f_payment_method f = None /\ f_payment_date f = None) /\
    (forall m,
       In m (MembershipFees.activeMembers selectedMonth db) ->
       exists f,
         In f (membership_fees
                 (MembershipFees.handleGenerateFees true selectedMonth feeAmount db)) /\
         f_member_id f = m_id m /\
         fee_month f = MembershipFees.monthStartOf selectedMonth).
Proof.
  intros confirmed selectedMonth feeAmount db. split.
  - intros f. apply handleGenerateFees_new_rows.
  - intros m. apply handleGenerateFees_row_for_active.
Qed.

(** X11. After a member is marked as left on a day, fee generation
    writes no new fee row for that member for a month whose first day is
    after that day, and still writes one for a month whose first day is
    on or before it (and on or after the join date), the month of leaving
    included. *)
Theorem X11_left_member_fees :
  forall (today : string) (memberId : uuid) (db : Store)
         (selectedMonth : string) (feeAmount : Z),
    let db' := MemberList.handleMarkLeft true today memberId db in
    let db'' := MembershipFees.handleGenerateFees true selectedMonth feeAmount db' in
    ((MembershipFees.monthStartOf selectedMonth <=? today)%string = false ->
     forall f, In f (membership_fees db'') -> f_member_id f = memberId ->
               In f (membership_fees db)) /\
    ((MembershipFees.monthStartOf selectedMonth <=? today)%string = true ->
     forall m, In m (members db) -> m_id m = memberId ->
       (join_date m <=? MembershipFees.monthStartOf selectedMonth)%string = true ->
       exists f, In f (membership_fees db'') /\ f_member_id f = memberId /\
                 fee_month f = MembershipFees.monthStartOf selectedMonth).
Proof.
  intros today memberId db selectedMonth feeAmount db' db''. subst db' db''. split.
  - intros Hafter f Hf Hid.
    apply handleGenerateFees_new_rows in Hf.
    destruct Hf as [Hf|(m & Hm & Hmid & _)]; [exact Hf|]. exfalso.
    unfold MembershipFees.activeMembers in Hm. apply filter_In in Hm.
    destruct Hm as [Hm Hact].
    cbn [negb MemberList.handleMarkLeft members Db.set_members] in Hm.
    apply in_map_iff in Hm. destruct Hm as (m0 & Hm0 & _).
    destruct (m_id m0 =? memberId)%nat eqn:E.
    + subst m. unfold MembershipFees.isActive in Hact. cbn [leave_date join_date] in Hact.
      rewrite Hafter, andb_false_r in Hact. discriminate.
    + subst m. apply Nat.eqb_neq in E. congruence.
  - intros Hbefore m Hm Hid Hjoin.
    set (m' := {| m_id := m_id m; full_name := full_name m; team := team m;
                  join_date := join_date m; leave_date := Some today;
                  m_notes := m_notes m |}).
    assert (Hact : In m' (MembershipFees.activeMembers selectedMonth
                            (MemberList.handleMarkLeft true today memberId db))).
    { unfold MembershipFees.activeMembers. apply filter_In. split.
      - cbn [negb MemberList.handleMarkLeft members Db.set_members].
        apply in_map_iff. exists m. split; [|exact Hm].
        rewrite Hid, Nat.eqb_refl. subst m'. now rewrite Hid.
      - unfold MembershipFees.isActive. cbn [leave_date join_date m'].
        now rewrite Hjoin, Hbefore. }
    destruct (handleGenerateFees_row_for_active selectedMonth feeAmount
                (MemberList.handleMarkLeft true today memberId db) m' Hact)
      as (f & Hf & Hfid & Hfm).
    exists f. repeat split; [exact Hf| |exact Hfm]. rewrite Hfid. exact Hid.
Qed.

(** ** The sale form *)

Lemma withItems_same (saleForm : MerchSales.SaleForm) :
  SaleFormEdit.withItems saleForm (MerchSales.items saleForm) = saleForm.
Proof. now destruct saleForm. Qed.

Lemma removeAt_snoc {A} (l : list A) (x : A) :
  SaleFormEdit.removeAt (List.length l) (l ++ [x]) = l.
Proof.
  induction l as [|y l IH]; cbn [List.length app SaleFormEdit.removeAt]; [reflexivity|].
  now rewrite IH.
Qed.

Lemma removeAt_out {A} (index : nat) (l : list A) :
  (List.length l <= index)%nat -> SaleFormEdit.removeAt index l = l.
Proof.
  revert index. induction l as [|y l IH]; intros index H.
  - now destruct index.
  - cbn [List.length] in H. destruct index as [|i]; [lia|].
    cbn [SaleFormEdit.removeAt]. rewrite IH; [reflexivity|lia].
Qed.

Lemma removeAt_total (index : nat) (its : list MerchSales.SaleItem)
    (item : MerchSales.SaleItem) :
  nth_error its index = Some item ->
  Spec.itemsSum (SaleFormEdit.removeAt index its)
  = Spec.itemsSum its - MerchSales.si_quantity item * MerchSales.si_unit_price item /\
  S (List.length (SaleFormEdit.removeAt index its)) = List.length its.
Proof.
  revert index. induction its as [|x its IH]; intros [|i] H; cbn [nth_error] in H;
    try discriminate; cbn [SaleFormEdit.removeAt Spec.itemsSum List.length].
  - injection H as ->. split; [lia|reflexivity].
  - destruct (IH i H) as [H1 H2]. split; [lia|now rewrite H2].
Qed.

(** X12. Editing the items of the sale form.  Adding an item appends
    one piece of the first product of the page at that product's price,
    so the total of the form goes up by that price (and nothing changes
    when the page has no product); removing the item just added gives the
    form back; removing a listed item takes its line off the total, and
    removing at an index beyond the list changes nothing. *)
Theorem X12_sale_form_items :
  (forall (firstProduct : Product) (others : list Product) (saleForm : MerchSales.SaleForm),
     let added := SaleFormEdit.addItemToSale (firstProduct :: others) saleForm in
     MerchSales.items added
       = (MerchSales.items saleForm
          ++ [{| MerchSales.si_product_id := p_id firstProduct;
                 MerchSales.si_quantity := 1;
                 MerchSales.si_unit_price := p_unit_price firstProduct |}])%list /\
     MerchSales.saleTotal (MerchSales.items added)
       = MerchSales.saleTotal (MerchSales.items saleForm) + p_unit_price firstProduct) /\
  (forall saleForm, SaleFormEdit.addItemToSale [] saleForm = saleForm) /\
  (forall (prods : list Product) (saleForm : MerchSales.SaleForm),
     SaleFormEdit.removeItemFromSale (List.length (MerchSales.items saleForm))
       (SaleFormEdit.addItemToSale prods saleForm) = saleForm) /\
  (forall (index : nat) (saleForm : MerchSales.SaleForm) (item : MerchSales.SaleItem),
     nth_error (MerchSales.items saleForm) index = Some item ->
     let removed := SaleFormEdit.removeItemFromSale index saleForm in
     MerchSales.saleTotal (MerchSales.items removed)
       = MerchSales.saleTotal (MerchSales.items saleForm)
         - MerchSales.si_quantity item * MerchSales.si_unit_price item /\
     S (List.length (MerchSales.items removed)) = List.length (MerchSales.items saleForm)) /\
  (forall (index : nat) (saleForm : MerchSales.SaleForm),
     (List.length (MerchSales.items saleForm) <= index)%nat ->
     SaleFormEdit.removeItemFromSale index saleForm = saleForm).
Proof.
  split; [|split; [|split; [|split]]].
  - intros firstProduct others saleForm added. subst added. split; [reflexivity|].
    cbn [SaleFormEdit.addItemToSale SaleFormEdit.withItems MerchSales.items].
    rewrite !saleTotal_itemsSum.
    induction (MerchSales.items saleForm) as [|x its IH]; cbn [app Spec.itemsSum];
      [cbn [MerchSales.si_quantity MerchSales.si_unit_price]; lia|]. rewrite IH. lia.
  - reflexivity.
  - intros prods saleForm. destruct prods as [|firstProduct others];
      unfold SaleFormEdit.removeItemFromSale;
      cbn [SaleFormEdit.addItemToSale SaleFormEdit.withItems MerchSales.items
           MerchSales.sf_member_id MerchSales.sf_order_date MerchSales.sf_payment_method
           MerchSales.sf_payment_status].
    + rewrite removeAt_out; [apply withItems_same|lia].
    + rewrite removeAt_snoc. now destruct saleForm.
  - intros index saleForm item H removed. subst removed.
    unfold SaleFormEdit.removeItemFromSale.
    cbn [SaleFormEdit.withItems MerchSales.items]. rewrite !saleTotal_itemsSum.
    now apply removeAt_total.
  - intros index saleForm H. unfold SaleFormEdit.removeItemFromSale.
    rewrite removeAt_out; [apply withItems_same|exact H].
Qed.

Lemma replaceAt_spec {A} (index : nat) (f : A -> A) (l l' : list A) :
  SaleFormEdit.replaceAt index f l = Some l' ->
  List.length l' = List.length l /\
  nth_error l' index = option_map f (nth_error l index) /\
  (forall j, j <> index -> nth_error l' j = nth_error l j).
Proof.
  revert index l'. induction l as [|x l IH]; intros [|i] l' H;
    cbn [SaleFormEdit.replaceAt] in H; try discriminate.
  - injection H as <-. repeat split. intros [|j] Hj; [congruence|reflexivity].
  - destruct (SaleFormEdit.replaceAt i f l) as [r|] eqn:E; cbn [option_map] in H;
      [|discriminate].
    injection H as <-. destruct (IH i r E) as (H1 & H2 & H3).
    split; [cbn [List.length]; now rewrite H1|split; [exact H2|]].
    intros [|j] Hj; [reflexivity|]. cbn [nth_error]. apply H3. congruence.
Qed.

Lemma replaceAt_some {A} (index : nat) (f : A -> A) (l : list A) :
  (index < List.length l)%nat -> exists l', SaleFormEdit.replaceAt index f l = Some l'.
Proof.
  revert index. induction l as [|x l IH]; intros [|i] H; cbn [List.length] in H;
    try lia; cbn [SaleFormEdit.replaceAt].
  - eexists. reflexivity.
  - destruct (IH i) as (r & ->); [lia|]. eexists. reflexivity.
Qed.

(** X13. Changing a listed item of the sale form changes that item only.
    Choosing a product that the page knows also sets the unit price of
    the item to the price of that product, whatever price the item had;
    choosing a product that the page does not know, or changing the
    quantity, keeps the unit price. *)
Theorem X13_update_sale_item :
  forall (prods : list Product) (index : nat) (change : SaleFormEdit.Change)
         (saleForm : MerchSales.SaleForm) (item : MerchSales.SaleItem),
    nth_error (MerchSales.items saleForm) index = Some item ->
    exists saleForm' item',
      SaleFormEdit.updateSaleItem prods index change saleForm = Some saleForm' /\
      List.length (MerchSales.items saleForm') = List.length (MerchSales.items saleForm) /\
      nth_error (MerchSales.items saleForm') index = Some item' /\
      (forall j, j <> index ->
         nth_error (MerchSales.items saleForm') j = nth_error (MerchSales.items saleForm) j) /\
      match change with
      | SaleFormEdit.product_id_to value =>
          MerchSales.si_product_id item' = value /\
          MerchSales.si_quantity item' = MerchSales.si_quantity item /\
          MerchSales.si_unit_price item'
            = match MerchSales.findProduct prods value with
              | Some product => p_unit_price product
              | None => MerchSales.si_unit_price item
              end
      | SaleFormEdit.quantity_to value =>
          MerchSales.si_product_id item' = MerchSales.si_product_id item /\
          MerchSales.si_quantity item' = value /\
          MerchSales.si_unit_price item' = MerchSales.si_unit_price item
      | SaleFormEdit.unit_price_to value =>
          MerchSales.si_product_id item' = MerchSales.si_product_id item /\
          MerchSales.si_quantity item' = MerchSales.si_quantity item /\
          MerchSales.si_unit_price item' = value
      end.
Proof.
  intros prods index change saleForm item Hnth.
  assert (Hlt : (index < List.length (MerchSales.items saleForm))%nat).
  { apply nth_error_Some. congruence. }
  destruct (replaceAt_some index (SaleFormEdit.applyChange prods change) _ Hlt)
    as (its' & Hrep).
  destruct (replaceAt_spec _ _ _ _ Hrep) as (Hlen & Hat & Hother).
  rewrite Hnth in Hat. cbn [option_map] in Hat.
  exists (SaleFormEdit.withItems saleForm its'),
         (SaleFormEdit.applyChange prods change item).
  unfold SaleFormEdit.updateSaleItem. rewrite Hrep.
  cbn [option_map SaleFormEdit.withItems MerchSales.items].
  split; [reflexivity|split; [exact Hlen|split; [exact Hat|split; [exact Hother|]]]].
  destruct change; repeat split.
Qed.

(** X14. Two clicks on "add item" on an empty sale form give two items
    of the first product of the page.  Creating that sale, with the page
    holding the products of the store, stores an order of twice the price
    and raises the sold count of the product by 2, but lowers its stock
    by 1 only. *)
Theorem X14_add_item_twice_then_sell :
  forall (p : Product) (rest : list Product) (db : Store) (saleForm : MerchSales.SaleForm),
    products db = p :: rest ->
    MerchSales.items saleForm = [] ->
    let twice := SaleFormEdit.addItemToSale (products db)
                   (SaleFormEdit.addItemToSale (products db) saleForm) in
    let db' := MerchSales.handleCreateSale (products db) twice db in
    MerchSales.items twice
      = [ {| MerchSales.si_product_id := p_id p; MerchSales.si_quantity := 1;
             MerchSales.si_unit_price := p_unit_price p |};
          {| MerchSales.si_product_id := p_id p; MerchSales.si_quantity := 1;
             MerchSales.si_unit_price := p_unit_price p |} ] /\
    (exists o, sales_orders db' = (sales_orders db ++ [o])%list /\
               total_amount o = 2 * p_unit_price p) /\
    Spec.stockOf db (p_id p) = Some (stock_quantity p) /\
    Spec.stockOf db' (p_id p) = Some (stock_quantity p - 1) /\
    Inventory.total_sold (Inventory.rowOf db' p)
      = Inventory.total_sold (Inventory.rowOf db p) + 2.
Proof.
  intros p rest db saleForm Hprods Hitems twice db'.
  assert (Htwice : MerchSales.items twice
                   = [ {| MerchSales.si_product_id := p_id p; MerchSales.si_quantity := 1;
                          MerchSales.si_unit_price := p_unit_price p |};
                       {| MerchSales.si_product_id := p_id p; MerchSales.si_quantity := 1;
                          MerchSales.si_unit_price := p_unit_price p |} ]).
  { subst twice. rewrite Hprods.
    cbn [SaleFormEdit.addItemToSale SaleFormEdit.withItems MerchSales.items].
    now rewrite Hitems. }
  assert (Hne : MerchSales.items twice <> []) by (rewrite Htwice; discriminate).
  assert (Hfind : MerchSales.findProduct (products db) (p_id p) = Some p).
  { rewrite Hprods. unfold MerchSales.findProduct, JS.find. cbn [List.find].
    now rewrite Nat.eqb_refl. }
  assert (Hstock : Spec.stockOf db (p_id p) = Some (stock_quantity p)).
  { unfold Spec.stockOf. now rewrite Hfind. }
  split; [exact Htwice|split; [|split; [exact Hstock|split]]].
  - destruct (handleCreateSale_rows (products db) twice db Hne) as ((o & Ho & _ & Ht) & _).
    exists o. split; [exact Ho|]. rewrite Ht, Htwice.
    cbn [Spec.itemsSum MerchSales.si_quantity MerchSales.si_unit_price]. lia.
  - subst db'. rewrite handleCreateSale_stockOf, Hstock, Htwice.
    unfold Spec.lastWritten.
    cbn [fold_left MerchSales.si_product_id MerchSales.si_quantity].
    now rewrite Nat.eqb_refl, Hfind.
  - destruct (inventory_after_sale (products db) twice db p Hne) as [Hsold _].
    fold db' in Hsold. cbv zeta in Hsold. rewrite Hsold, Htwice.
    cbn [filter MerchSales.si_product_id]. rewrite Nat.eqb_refl.
    cbn [Spec2.sumOf MerchSales.si_quantity]. lia.
Qed.

(** ** Balances after a reimbursement is added or a payment is marked *)

Lemma unpaidSum_app {A} (owner : A -> uuid) (status : A -> string) (amt : A -> Z)
    (m : uuid) (l1 l2 : list A) :
  Spec.unpaidSum owner status amt m (l1 ++ l2)
  = Spec.unpaidSum owner status amt m l1 + Spec.unpaidSum owner status amt m l2.
Proof.
  induction l1 as [|x l1 IH]; cbn [app Spec.unpaidSum]; [reflexivity|]. rewrite IH. lia.
Qed.

(** X15. Adding a reimbursement writes no ledger entry; in the member
    balances it raises the reimbursement owed to the member it names by
    its amount, lowers that member's net balance by the same amount, and
    leaves every other figure and every other member unchanged. *)
Theorem X15_new_reimbursement_balance :
  forall (formData : ReimbursementList.FormData) (db : Store) (member : Member),
    let db' := ReimbursementList.handleAddReimbursement formData db in
    let delta := if (ReimbursementList.fd_member_id formData =? m_id member)%nat
                 then ReimbursementList.fd_amount formData else 0 in
    transactions_ledger db' = transactions_ledger db /\
    Reports.fees_owed (Reports.balanceOf db' member)
      = Reports.fees_owed (Reports.balanceOf db member) /\
    Reports.sales_owed (Reports.balanceOf db' member)
      = Reports.sales_owed (Reports.balanceOf db member) /\
    Reports.reimb_owed (Reports.balanceOf db' member)
      = Reports.reimb_owed (Reports.balanceOf db member) + delta /\
    Reports.net_balance (Reports.balanceOf db' member)
      = Reports.net_balance (Reports.balanceOf db member) - delta.
Proof.
  intros formData db member db' delta. subst db' delta.
  unfold Reports.balanceOf, ReimbursementList.handleAddReimbursement.
  cbn [Reports.fees_owed Reports.sales_owed Reports.reimb_owed Reports.net_balance
       transactions_ledger membership_fees sales_orders reimbursements
       Db.set_next_id Db.set_reimbursements].
  rewrite !reduce_filter_unpaidSum, unpaidSum_app.
  cbn [Spec.unpaidSum r_member_id r_payment_status r_amount].
  rewrite String.eqb_refl, andb_true_r. repeat split; try lia.
Qed.

Lemma unpaidSum_marked {A} (owner : A -> uuid) (status : A -> string) (amt : A -> Z)
    (idOf : A -> uuid) (mark : A -> A) (m id : uuid) (l : list A) :
  (forall x, owner (mark x) = owner x) ->
  (forall x, status (mark x) = "paid") ->
  Spec.unpaidSum owner status amt m
    (map (fun x => if (idOf x =? id)%nat then mark x else x) l)
  = Spec.unpaidSum owner status amt m (filter (fun x => negb (idOf x =? id)%nat) l).
Proof.
  intros Ho Hs. induction l as [|x l IH]; cbn [map filter Spec.unpaidSum]; [reflexivity|].
  destruct (idOf x =? id)%nat; cbn [negb Spec.unpaidSum].
  - rewrite Ho, Hs, IH. cbn. rewrite andb_false_r. lia.
  - now rewrite IH.
Qed.

(** X16. Marking a payment changes the member balances through the
    stored rows: once a reimbursement (a fee) is marked paid, the stored
    rows with that identifier no longer count in the reimbursement owed
    (the fees owed) of any member, whatever the page held, and the other
    two figures of the balance are unchanged. *)
Theorem X16_mark_paid_balance :
  forall (pm today : string) (id : uuid) (db : Store) (member : Member),
    nonEmpty pm = true ->
    (forall rows,
       let db' := Reimbursements.handleMarkPaid (Some pm) today rows id db in
       Reports.reimb_owed (Reports.balanceOf db' member)
         = Spec.unpaidSum r_member_id r_payment_status r_amount (m_id member)
             (filter (fun r => negb (r_id r =? id)%nat) (reimbursements db)) /\
       Reports.fees_owed (Reports.balanceOf db' member)
         = Reports.fees_owed (Reports.balanceOf db member) /\
       Reports.sales_owed (Reports.balanceOf db' member)
         = Reports.sales_owed (Reports.balanceOf db member)) /\
    (forall selectedMonth rows,
       let db' := MembershipFees.handleMarkPaid (Some pm) today selectedMonth rows id db in
       Reports.fees_owed (Reports.balanceOf db' member)
         = Spec.unpaidSum f_member_id f_payment_status f_amount (m_id member)
             (filter (fun f => negb (f_id f =? id)%nat) (membership_fees db)) /\
       Reports.reimb_owed (Reports.balanceOf db' member)
         = Reports.reimb_owed (Reports.balanceOf db member) /\
       Reports.sales_owed (Reports.balanceOf db' member)
         = Reports.sales_owed (Reports.balanceOf db member)).
Proof.
  intros pm today id db member Hpm. split.
  - intros rows db'. subst db'. unfold Reimbursements.handleMarkPaid.
    rewrite Hpm. cbn [negb].
    assert (G : forall d,
              reimbursements d = reimbursements (Reimbursements.update_paid pm today id db) ->
              membership_fees d = membership_fees db ->
              sales_orders d = sales_orders db ->
              Reports.reimb_owed (Reports.balanceOf d member)
                = Spec.unpaidSum r_member_id r_payment_status r_amount (m_id member)
                    (filter (fun r => negb (r_id r =? id)%nat) (reimbursements db)) /\
              Reports.fees_owed (Reports.balanceOf d member)
                = Reports.fees_owed (Reports.balanceOf db member) /\
              Reports.sales_owed (Reports.balanceOf d member)
                = Reports.sales_owed (Reports.balanceOf db member)).
    { intros d Hr Hf Hs. unfold Reports.balanceOf.
      cbn [Reports.fees_owed Reports.sales_owed Reports.reimb_owed].
      rewrite Hr, Hf, Hs, !reduce_filter_unpaidSum.
      unfold Reimbursements.update_paid. cbn [reimbursements Db.set_reimbursements].
      rewrite (unpaidSum_marked r_member_id r_payment_status r_amount r_id
                 (Reimbursements.markPaid pm today)); repeat split. }
    destruct (JS.find _ rows); apply G; reflexivity.
  - intros selectedMonth rows db'. subst db'. unfold MembershipFees.handleMarkPaid.
    rewrite Hpm. cbn [negb].
    assert (G : forall d,
              membership_fees d
                = membership_fees (MembershipFees.update_paid pm today id db) ->
              reimbursements d = reimbursements db ->
              sales_orders d = sales_orders db ->
              Reports.fees_owed (Reports.balanceOf d member)
                = Spec.unpaidSum f_member_id f_payment_status f_amount (m_id member)
                    (filter (fun f => negb (f_id f =? id)%nat) (membership_fees db)) /\
              Reports.reimb_owed (Reports.balanceOf d member)
                = Reports.reimb_owed (Reports.balanceOf db member) /\
              Reports.sales_owed (Reports.balanceOf d member)
                = Reports.sales_owed (Reports.balanceOf db member)).
    { intros d Hf Hr Hs. unfold Reports.balanceOf.
      cbn [Reports.fees_owed Reports.sales_owed Reports.reimb_owed].
      rewrite Hr, Hf, Hs, !reduce_filter_unpaidSum.
      unfold MembershipFees.update_paid. cbn [membership_fees Db.set_membership_fees].
      rewrite (unpaidSum_marked f_member_id f_payment_status f_amount f_id
                 (MembershipFees.markPaid pm today)); repeat split. }
    destruct (JS.find _ rows); apply G; reflexivity.
Qed.

(** X17. Marking paid is not idempotent on the ledger: the handler does
    not look at the stored status, so a second call for the same row of
    the page appends a second ledger entry of the same amount, while the
    stored rows are the same as after the first call. *)
Theorem X17_mark_paid_twice_posts_twice :
  (forall pm today rows id db row,
     nonEmpty pm = true ->
     JS.find (fun r => (r_id (Reimbursements.reimb r) =? id)%nat) rows = Some row ->
     let once := Reimbursements.handleMarkPaid (Some pm) today rows id db in
     let twice := Reimbursements.handleMarkPaid (Some pm) today rows id once in
     reimbursements twice = reimbursements once /\
     exists e,
       amount e = - r_amount (Reimbursements.reimb row) /\
       transactions_ledger once = (transactions_ledger db ++ [e])%list /\
       transactions_ledger twice = (transactions_ledger db ++ [e; e])%list) /\
  (forall pm today month rows id db row,
     nonEmpty pm = true ->
     JS.find (fun f => (f_id (MembershipFees.fee f) =? id)%nat) rows = Some row ->
     let once := MembershipFees.handleMarkPaid (Some pm) today month rows id db in
     let twice := MembershipFees.handleMarkPaid (Some pm) today month rows id once in
     membership_fees twice = membership_fees once /\
     exists e,
       amount e = f_amount (MembershipFees.fee row) /\
       transactions_ledger once = (transactions_ledger db ++ [e])%list /\
       transactions_ledger twice = (transactions_ledger db ++ [e; e])%list).
Proof.
  assert (Hmap : forall {A} (p : A -> bool) (g : A -> A) (l : list A),
            (forall x, p (g x) = p x) -> (forall x, g (g x) = g x) ->
            map (fun x => if p x then g x else x) (map (fun x => if p x then g x else x) l)
            = map (fun x => if p x then g x else x) l).
  { intros A p g l Hp Hg. rewrite map_map. apply map_ext. intros x.
    destruct (p x) eqn:E; [now rewrite Hp, E, Hg|now rewrite E]. }
  split.
  - intros pm today rows id db row Hpm Hfind once twice. subst once twice.
    unfold Reimbursements.handleMarkPaid. rewrite Hpm, Hfind. cbn [negb]. split.
    + unfold Db.insert_ledger, Reimbursements.update_paid.
      cbn [reimbursements Db.set_transactions_ledger Db.set_reimbursements].
      apply (Hmap _ (fun r => (r_id r =? id)%nat) (Reimbursements.markPaid pm today));
        reflexivity.
    + eexists. split; [|split].
      2: { unfold Db.insert_ledger at 1.
           cbn [transactions_ledger Db.set_transactions_ledger Reimbursements.update_paid
                Db.set_reimbursements]. reflexivity. }
      * reflexivity.
      * unfold Db.insert_ledger, Reimbursements.update_paid.
        cbn [transactions_ledger Db.set_transactions_ledger Db.set_reimbursements].
        now rewrite <- app_assoc.
  - intros pm today month rows id db row Hpm Hfind once twice. subst once twice.
    unfold MembershipFees.handleMarkPaid. rewrite Hpm, Hfind. cbn [negb]. split.
    + unfold Db.insert_ledger, MembershipFees.update_paid.
      cbn [membership_fees Db.set_transactions_ledger Db.set_membership_fees].
      apply (Hmap _ (fun f => (f_id f =? id)%nat) (MembershipFees.markPaid pm today));
        reflexivity.
    + eexists. split; [|split].
      2: { unfold Db.insert_ledger at 1.
           cbn [transactions_ledger Db.set_transactions_ledger MembershipFees.update_paid
                Db.set_membership_fees]. reflexivity. }
      * reflexivity.
      * unfold Db.insert_ledger, MembershipFees.update_paid.
        cbn [transactions_ledger Db.set_transactions_ledger Db.set_membership_fees].
        now rewrite <- app_assoc.
Qed.

(** ** The pages as one machine: what each handler leaves alone *)

Lemma Untouched_refl (db : Store) : Spec2.Untouched db db.
Proof. constructor; reflexivity || apply Nat.le_refl. Qed.

Lemma Untouched_trans (a b c : Store) :
  Spec2.Untouched a b -> Spec2.Untouched b c -> Spec2.Untouched a c.
Proof.
  intros [A1 A2 A3 A4 A5 A6 A7] [B1 B2 B3 B4 B5 B6 B7].
  constructor; try congruence. lia.
Qed.

Lemma importMembers_untouched toLowerCase today membersState importData db :
  Spec2.Untouched db (Members.handleImport toLowerCase today membersState importData db).
Proof.
  unfold Members.handleImport.
  destruct (List.length (Members.newMembers toLowerCase membersState importData) =? 0)%nat;
    [apply Untouched_refl|].
  destruct (forallb Members.hasName (Members.newMembers toLowerCase membersState importData));
    [|apply Untouched_refl].
  generalize (Members.newMembers toLowerCase membersState importData) as new. intros new.
  revert db. induction new as [|r new IH]; intros db; cbn [fold_left];
    [apply Untouched_refl|].
  apply (Untouched_trans _ (Members.insertMember today db r)); [|apply IH].
  constructor; try reflexivity. cbn. lia.
Qed.

(** What fee generation leaves alone. *)
Lemma upsert_fees_frame (rows : list Db.NewFee) (db : Store) :
  let db' := Db.upsert_fees_ignore rows db in
  transactions_ledger db' = transactions_ledger db /\
  cash_expenses db' = cash_expenses db /\
  sales_orders db' = sales_orders db /\
  sales_order_items db' = sales_order_items db /\
  bank_transactions db' = bank_transactions db /\
  (next_id db <= next_id db')%nat.
Proof.
  unfold Db.upsert_fees_ignore. revert db.
  induction rows as [|r rows IH]; intros db; cbn [fold_left].
  - repeat split. apply Nat.le_refl.
  - destruct (IH (Db.upsert_fee_ignore db r)) as (H1 & H2 & H3 & H4 & H5 & H6).
    cbv zeta. rewrite H1, H2, H3, H4, H5. unfold Db.upsert_fee_ignore in *.
    destruct (existsb (Db.conflicts r) (membership_fees db)); repeat split; try exact H6.
    cbn in H6. lia.
Qed.

Lemma generateFees_frame confirmed selectedMonth feeAmount db :
  let db' := MembershipFees.handleGenerateFees confirmed selectedMonth feeAmount db in
  transactions_ledger db' = transactions_ledger db /\
  cash_expenses db' = cash_expenses db /\
  sales_orders db' = sales_orders db /\
  sales_order_items db' = sales_order_items db /\
  bank_transactions db' = bank_transactions db /\
  (next_id db <= next_id db')%nat.
Proof.
  unfold MembershipFees.handleGenerateFees.
  destruct (negb confirmed); [repeat split; apply Nat.le_refl|].
  destruct (List.length (MembershipFees.activeMembers selectedMonth db) =? 0)%nat;
    [repeat split; apply Nat.le_refl|].
  apply upsert_fees_frame.
Qed.

Lemma deductStock_frame prods its db :
  let db' := fold_left (MerchSales.deductStock prods) its db in
  cash_expenses db' = cash_expenses db /\
  membership_fees db' = membership_fees db /\
  bank_transactions db' = bank_transactions db.
Proof.
  revert db. induction its as [|item its IH]; intros db; cbn [fold_left].
  - repeat split.
  - destruct (IH (MerchSales.deductStock prods db item)) as (H1 & H2 & H3).
    cbv zeta. rewrite H1, H2, H3. unfold MerchSales.deductStock.
    destruct (MerchSales.findProduct prods (MerchSales.si_product_id item));
      repeat split.
Qed.

Lemma createSale_frame prods saleForm db :
  let db' := MerchSales.handleCreateSale prods saleForm db in
  cash_expenses db' = cash_expenses db /\
  membership_fees db' = membership_fees db /\
  bank_transactions db' = bank_transactions db /\
  (next_id db <= next_id db')%nat /\
  exists added,
    transactions_ledger db' = (transactions_ledger db ++ added)%list /\
    Forall (fun e => txn_type e = "merch_sale") added.
Proof.
  unfold MerchSales.handleCreateSale.
  destruct (List.length (MerchSales.items saleForm) =? 0)%nat.
  { repeat split; [apply Nat.le_refl|]. exists []. split; [now rewrite app_nil_r|constructor]. }
  match goal with
  | |- context [fold_left (MerchSales.deductStock prods) ?its ?d] =>
      destruct (deductStock_frame prods its d) as (H1 & H2 & H3);
      destruct (deductStock_other prods its d) as (H4 & _ & _ & H5)
  end.
  destruct (MerchSales.sf_payment_status saleForm =? "paid")%string.
  - unfold Db.insert_ledger.
    cbn [cash_expenses membership_fees bank_transactions next_id transactions_ledger
         Db.set_transactions_ledger].
    rewrite H1, H2, H3, H4, H5. cbn. repeat split; [lia|].
    eexists. split; [reflexivity|]. repeat constructor.
  - cbv zeta. rewrite H1, H2, H3, H4, H5. cbn. repeat split; [lia|].
    exists []. split; [now rewrite app_nil_r|constructor].
Qed.

Lemma post_all_frame {A} (f : A -> LedgerEntry) (l : list A) (db : Store) :
  let db' := fold_left (fun d x => Db.insert_ledger (f x) d) l db in
  cash_expenses db' = cash_expenses db /\
  membership_fees db' = membership_fees db /\
  sales_orders db' = sales_orders db /\
  sales_order_items db' = sales_order_items db /\
  next_id db' = next_id db.
Proof.
  revert db. induction l as [|x l IH]; intros db; cbn [fold_left]; [repeat split|].
  destruct (IH (Db.insert_ledger (f x) db)) as (H1 & H2 & H3 & H4 & H5).
  cbv zeta. rewrite H1, H2, H3, H4, H5. repeat split.
Qed.

Section MachineFacts.

Variable toLowerCase : string -> string.
Variable parseFloat : string -> number.
Variable numberToString : Z -> string.

Local Abbreviation step := (App.step toLowerCase parseFloat numberToString).
Local Abbreviation run := (App.run toLowerCase parseFloat numberToString).

Lemma importBank_frame m f rows db :
  let db' := BankImport.handleImport parseFloat numberToString m f rows db in
  cash_expenses db' = cash_expenses db /\
  membership_fees db' = membership_fees db /\
  sales_orders db' = sales_orders db /\
  sales_order_items db' = sales_order_items db /\
  next_id db' = next_id db.
Proof.
  unfold BankImport.handleImport.
  destruct (List.length (BankImport.newTransactions parseFloat numberToString m f rows db)
            =? 0)%nat; [repeat split|].
  destruct (BankImport.storedAll
              (BankImport.newTransactions parseFloat numberToString m f rows db));
    [|repeat split].
  match goal with
  | |- context [fold_left ?g ?l ?d] =>
      destruct (post_all_frame BankImport.ledgerEntryOf l d) as (H1 & H2 & H3 & H4 & H5)
  end.
  cbv zeta. rewrite H1, H2, H3, H4, H5. repeat split.
Qed.

(** What a step appends to the ledger, and how that matches the cash
    expenses and the bank transactions it stores. *)
Lemma step_ledger (db : Store) (a : App.Action) :
  exists added,
    transactions_ledger (step db a) = (transactions_ledger db ++ added)%list /\
    Spec2.sumOf amount (filter (fun e => (txn_type e =? "cash_expense")%string) added)
      + Spec2.cashExpensesSum (step db a) = Spec2.cashExpensesSum db /\
    (List.length (filter (fun e => (txn_type e =? "bank_transaction")%string) added)
     + List.length (bank_transactions db))%nat
      = List.length (bank_transactions (step db a)).
Proof.
  assert (Hsame : forall db', Spec2.Untouched db db' ->
            exists added,
              transactions_ledger db' = (transactions_ledger db ++ added)%list /\
              Spec2.sumOf amount
                (filter (fun e => (txn_type e =? "cash_expense")%string) added)
                + Spec2.cashExpensesSum db' = Spec2.cashExpensesSum db /\
              (List.length
                 (filter (fun e => (txn_type e =? "bank_transaction")%string) added)
               + List.length (bank_transactions db))%nat
                = List.length (bank_transactions db')).
  { intros db' [H1 H2 _ _ _ H6 _]. exists []. unfold Spec2.cashExpensesSum.
    rewrite H1, H2, H6, app_nil_r. repeat split. }
  destruct a; cbn [App.step].
  - apply Hsame. constructor; try reflexivity; cbn; lia.
  - apply Hsame. unfold MemberList.handleMarkLeft.
    destruct (negb confirmed); [apply Untouched_refl|].
    constructor; reflexivity.
  - apply Hsame. apply importMembers_untouched.
  - destruct (generateFees_frame confirmed selectedMonth feeAmount db)
      as (H1 & H2 & _ & _ & H5 & _).
    exists []. unfold Spec2.cashExpensesSum. rewrite H1, H2, H5, app_nil_r. repeat split.
  - unfold MembershipFees.handleMarkPaid.
    destruct prompt as [pm|]; [|apply Hsame, Untouched_refl].
    destruct (negb (nonEmpty pm)); [apply Hsame, Untouched_refl|].
    destruct (JS.find _ rows).
    + eexists. split; [reflexivity|]. split; reflexivity.
    + exists []. split; [now rewrite app_nil_r|split; reflexivity].
  - apply Hsame. constructor; try reflexivity; cbn; lia.
  - unfold Reimbursements.handleMarkPaid.
    destruct prompt as [pm|]; [|apply Hsame, Untouched_refl].
    destruct (negb (nonEmpty pm)); [apply Hsame, Untouched_refl|].
    destruct (JS.find _ rows).
    + eexists. split; [reflexivity|]. split; reflexivity.
    + exists []. split; [now rewrite app_nil_r|split; reflexivity].
  - eexists. split; [reflexivity|]. split; [|reflexivity].
    unfold Spec2.cashExpensesSum.
    cbn [CashExpenses.handleAddExpense Db.insert_ledger cash_expenses
         Db.set_transactions_ledger Db.set_next_id Db.set_cash_expenses
         filter txn_type String.eqb].
    rewrite sumOf_app. cbn. lia.
  - apply Hsame. constructor; try reflexivity; cbn; lia.
  - destruct (createSale_frame prods saleForm db) as (H1 & _ & H3 & _ & added & Hl & Ht).
    exists added. unfold Spec2.cashExpensesSum. rewrite H1, H3. split; [exact Hl|].
    assert (Hc : filter (fun e => (txn_type e =? "cash_expense")%string) added = []
                 /\ filter (fun e => (txn_type e =? "bank_transaction")%string) added = []).
    { clear Hl. induction Ht as [|e added He _ IH]; [split; reflexivity|].
      cbn [filter]. rewrite He. exact IH. }
    destruct Hc as [-> ->]. split; reflexivity.
  - exists (map BankImport.ledgerEntryOf
              (BankImport.inserted parseFloat numberToString columnMapping fileName
                 parsedData db)).
    destruct (importBank_frame columnMapping fileName parsedData db) as (H1 & _).
    unfold Spec2.cashExpensesSum. rewrite H1, handleImport_ledger, handleImport_bank.
    split; [reflexivity|].
    generalize (BankImport.inserted parseFloat numberToString columnMapping fileName
                  parsedData db) as new. intros new. split.
    + induction new as [|t new IH]; [reflexivity|]. exact IH.
    + rewrite length_app.
      assert (E : filter (fun e => (txn_type e =? "bank_transaction")%string)
                    (map BankImport.ledgerEntryOf new)
                  = map BankImport.ledgerEntryOf new).
      { induction new as [|t new IH]; [reflexivity|]. cbn [map filter].
        cbn [txn_type BankImport.ledgerEntryOf]. rewrite String.eqb_refl. now rewrite IH. }
      rewrite E, length_map. lia.
Qed.

End MachineFacts.

Section MachineInvariants.

Variable toLowerCase : string -> string.
Variable parseFloat : string -> number.
Variable numberToString : Z -> string.

Local Abbreviation step := (App.step toLowerCase parseFloat numberToString).
Local Abbreviation run := (App.run toLowerCase parseFloat numberToString).

Lemma run_ledger (actions : list App.Action) (db : Store) :
  exists added,
    transactions_ledger (run actions db) = (transactions_ledger db ++ added)%list /\
    Spec2.sumOf amount (filter (fun e => (txn_type e =? "cash_expense")%string) added)
      + Spec2.cashExpensesSum (run actions db) = Spec2.cashExpensesSum db /\
    (List.length (filter (fun e => (txn_type e =? "bank_transaction")%string) added)
     + List.length (bank_transactions db))%nat
      = List.length (bank_transactions (run actions db)).
Proof.
  unfold App.run. revert db.
  induction actions as [|a actions IH]; intros db; cbn [fold_left].
  - exists []. rewrite app_nil_r. repeat split.
  - destruct (step_ledger toLowerCase parseFloat numberToString db a)
      as (a1 & L1 & C1 & B1).
    destruct (IH (step db a)) as (a2 & L2 & C2 & B2).
    exists (a1 ++ a2)%list. rewrite L2, L1, <- app_assoc, !filter_app, sumOf_app, length_app.
    split; [reflexivity|split; lia].
Qed.

Lemma step_bank (db : Store) (a : App.Action) :
  bank_transactions (step db a)
  = (bank_transactions db
     ++ match a with
        | App.ImportBank m f rows =>
            BankImport.inserted parseFloat numberToString m f rows db
        | _ => []
        end)%list.
Proof.
  destruct a; cbn [App.step]; try (rewrite app_nil_r).
  - reflexivity.
  - unfold MemberList.handleMarkLeft. now destruct (negb confirmed).
  - apply (Spec2.same_bank _ _ (importMembers_untouched _ _ _ _ _)).
  - apply (generateFees_frame confirmed selectedMonth feeAmount db).
  - unfold MembershipFees.handleMarkPaid. destruct prompt as [pm|]; [|reflexivity].
    destruct (negb (nonEmpty pm)); [reflexivity|]. now destruct (JS.find _ rows).
  - reflexivity.
  - unfold Reimbursements.handleMarkPaid. destruct prompt as [pm|]; [|reflexivity].
    destruct (negb (nonEmpty pm)); [reflexivity|]. now destruct (JS.find _ rows).
  - reflexivity.
  - reflexivity.
  - apply (createSale_frame prods saleForm db).
  - apply handleImport_bank.
Qed.

Lemma step_bankWellFormed (db : Store) (a : App.Action) :
  Spec2.bankWellFormed db -> Spec2.bankWellFormed (step db a).
Proof.
  unfold Spec2.bankWellFormed. intros H b Hb. rewrite step_bank in Hb.
  apply in_app_iff in Hb. destruct Hb as [Hb|Hb]; [now apply H|].
  destruct a; try contradiction.
  destruct (inserted_from_new _ _ _ _ _ _ _ Hb) as (t & Ht & Hs).
  destruct (newTransactions_row _ _ _ _ _ _ _ Ht) as (row & _ & ->).
  destruct (stored_row _ _ _ _ _ _ Hs) as (_ & Hpos & _ & Hd).
  split; assumption.
Qed.

Lemma step_fees (db : Store) (a : App.Action) :
  Spec2.feeKeysDistinct db -> Spec2.feeKeysDistinct (step db a).
Proof.
  unfold Spec2.feeKeysDistinct. intros H.
  assert (Hsame : forall db', membership_fees db' = membership_fees db ->
                              NoDup (map Spec2.feeKey (membership_fees db')))
    by (intros db' ->; exact H).
  destruct a; cbn [App.step].
  - now apply Hsame.
  - apply Hsame. unfold MemberList.handleMarkLeft. now destruct (negb confirmed).
  - apply Hsame. apply (Spec2.same_fees _ _ (importMembers_untouched _ _ _ _ _)).
  - unfold MembershipFees.handleGenerateFees.
    destruct (negb confirmed); [exact H|].
    destruct (List.length (MembershipFees.activeMembers selectedMonth db) =? 0)%nat;
      [exact H|].
    unfold Db.upsert_fees_ignore.
    generalize (MembershipFees.feesToInsert selectedMonth feeAmount
                  (MembershipFees.activeMembers selectedMonth db)) as rows.
    intros rows. clear Hsame. revert db H.
    induction rows as [|r rows IH]; intros db H; cbn [fold_left]; [exact H|].
    apply IH. unfold Db.upsert_fee_ignore.
    destruct (existsb (Db.conflicts r) (membership_fees db)) eqn:E; [exact H|].
    cbn [membership_fees Db.set_next_id Db.set_membership_fees].
    rewrite map_app. apply NoDup_app; [exact H|repeat constructor; intros []|].
    intros k Hk [<-|[]]. apply in_map_iff in Hk. destruct Hk as (f & Hf & Hin).
    assert (Ht : existsb (Db.conflicts r) (membership_fees db) = true).
    { apply existsb_exists. exists f. split; [exact Hin|].
      unfold Spec2.feeKey in Hf. cbn [f_member_id fee_month] in Hf.
      injection Hf as H1 H2. unfold Db.conflicts.
      now rewrite H1, H2, Nat.eqb_refl, String.eqb_refl. }
    congruence.
  - unfold MembershipFees.handleMarkPaid. destruct prompt as [pm|]; [|exact H].
    destruct (negb (nonEmpty pm)); [exact H|].
    assert (G : NoDup (map Spec2.feeKey
                         (membership_fees (MembershipFees.update_paid pm today feeId db)))).
    { unfold MembershipFees.update_paid. cbn [membership_fees Db.set_membership_fees].
      rewrite map_map.
      erewrite map_ext; [exact H|]. intros f. now destruct (f_id f =? feeId)%nat. }
    now destruct (JS.find _ rows).
  - now apply Hsame.
  - apply Hsame. unfold Reimbursements.handleMarkPaid.
    destruct prompt as [pm|]; [|reflexivity].
    destruct (negb (nonEmpty pm)); [reflexivity|]. now destruct (JS.find _ rows).
  - now apply Hsame.
  - now apply Hsame.
  - apply Hsame. apply (createSale_frame prods saleForm db).
  - apply Hsame. apply (importBank_frame parseFloat numberToString).
Qed.

Lemma ordersBalanced_frame (db db' : Store) :
  sales_orders db' = sales_orders db ->
  sales_order_items db' = sales_order_items db ->
  (next_id db <= next_id db')%nat ->
  Spec2.ordersBalanced db -> Spec2.ordersBalanced db'.
Proof.
  unfold Spec2.ordersBalanced, Spec2.itemsTotal. intros Ho Hi Hn [H1 H2].
  rewrite Ho, Hi. split.
  - intros o Hin. destruct (H1 o Hin). split; [assumption|lia].
  - intros i Hin. specialize (H2 i Hin). lia.
Qed.

Lemma createSale_counter prods saleForm db :
  MerchSales.items saleForm <> [] ->
  next_id (MerchSales.handleCreateSale prods saleForm db) = S (next_id db).
Proof.
  intros Hne. unfold MerchSales.handleCreateSale.
  destruct (List.length (MerchSales.items saleForm) =? 0)%nat eqn:E.
  { apply length_zero_nil in E. contradiction. }
  match goal with
  | |- context [fold_left (MerchSales.deductStock prods) ?its ?d] =>
      destruct (deductStock_other prods its d) as (_ & _ & _ & H)
  end.
  destruct (MerchSales.sf_payment_status saleForm =? "paid")%string;
    [unfold Db.insert_ledger; cbn [next_id Db.set_transactions_ledger]|];
    rewrite H; reflexivity.
Qed.

Lemma itemRows_total prods orderId (its : list MerchSales.SaleItem) :
  Spec2.sumOf line_total
    (filter (fun i => (order_id i =? orderId)%nat) (map (MerchSales.itemRow prods orderId) its))
  = Spec.itemsSum its.
Proof.
  induction its as [|x its IH]; [reflexivity|].
  cbn [map filter order_id MerchSales.itemRow]. rewrite Nat.eqb_refl.
  cbn [Spec2.sumOf Spec.itemsSum line_total]. now rewrite IH.
Qed.

Lemma itemRows_other prods orderId other (its : list MerchSales.SaleItem) :
  other <> orderId ->
  filter (fun i => (order_id i =? other)%nat) (map (MerchSales.itemRow prods orderId) its)
  = [].
Proof.
  intros Hne. induction its as [|x its IH]; [reflexivity|].
  cbn [map filter order_id MerchSales.itemRow].
  destruct (Nat.eqb_spec orderId other) as [E|_]; [congruence|exact IH].
Qed.

Lemma old_items_other (db : Store) (orderId : uuid) :
  (forall i, In i (sales_order_items db) -> (order_id i < orderId)%nat) ->
  filter (fun i => (order_id i =? orderId)%nat) (sales_order_items db) = [].
Proof.
  induction (sales_order_items db) as [|x l IH]; intros H; [reflexivity|].
  cbn [filter]. destruct (Nat.eqb_spec (order_id x) orderId) as [E|_].
  - specialize (H x (or_introl eq_refl)). lia.
  - apply IH. intros i Hi. apply H. now right.
Qed.

Lemma createSale_orders prods saleForm db :
  Spec2.ordersBalanced db ->
  Spec2.ordersBalanced (MerchSales.handleCreateSale prods saleForm db).
Proof.
  intros Hinv.
  destruct (MerchSales.items saleForm) as [|i0 its0] eqn:Eits.
  { unfold MerchSales.handleCreateSale. now rewrite Eits. }
  assert (Hne : MerchSales.items saleForm <> []) by (rewrite Eits; discriminate).
  clear Eits i0 its0.
  destruct (handleCreateSale_rows prods saleForm db Hne)
    as ((o & Ho & Hid & Ht) & Hi & _).
  pose proof (createSale_counter prods saleForm db Hne) as Hc.
  destruct Hinv as [H1 H2].
  unfold Spec2.ordersBalanced, Spec2.itemsTotal. rewrite Ho, Hi, Hc. split.
  - intros x Hx. apply in_app_iff in Hx. destruct Hx as [Hx|[<-|[]]].
    + destruct (H1 x Hx) as [Hx1 Hx2]. split; [|lia].
      rewrite filter_app, sumOf_app, itemRows_other; [|lia].
      cbn [Spec2.sumOf]. unfold Spec2.itemsTotal in Hx1. lia.
    + split; [|lia].
      rewrite filter_app, sumOf_app, Hid, (old_items_other db (next_id db) H2),
        itemRows_total. cbn [Spec2.sumOf]. lia.
  - intros i Hin. apply in_app_iff in Hin. destruct Hin as [Hin|Hin].
    + specialize (H2 i Hin). lia.
    + apply in_map_iff in Hin. destruct Hin as (x & <- & _).
      cbn [order_id MerchSales.itemRow]. lia.
Qed.

Lemma run_invariant (P : Store -> Prop) (actions : list App.Action) (db : Store) :
  (forall d a, P d -> P (step d a)) -> P db -> P (run actions db).
Proof.
  intros Hstep. unfold App.run. revert db.
  induction actions as [|a actions IH]; intros db H; cbn [fold_left]; [exact H|].
  apply IH. now apply Hstep.
Qed.

(** X18. The ledger is append-only: whatever the pages do, in any
    order and with any page state, the ledger afterwards is the ledger
    before followed by new entries; no entry is changed or removed. *)
Theorem X18_ledger_append_only :
  forall (actions : list App.Action) (db : Store),
    exists added,
      transactions_ledger (run actions db) = (transactions_ledger db ++ added)%list.
Proof.
  intros actions db. destruct (run_ledger actions db) as (added & H & _).
  now exists added.
Qed.

(** X19. The cash side of the ledger stays balanced with the cash
    expenses: every run of the pages keeps the sum of the ledger entries
    of type cash_expense plus the sum of the stored cash expenses, so that
    from the empty store the former is always minus the latter. *)
Theorem X19_cash_ledger_balanced :
  forall (actions : list App.Action) (db : Store),
    Spec2.cashLedgerSum (run actions db) + Spec2.cashExpensesSum (run actions db)
      = Spec2.cashLedgerSum db + Spec2.cashExpensesSum db /\
    Spec2.cashLedgerSum (run actions Db.empty)
      = - Spec2.cashExpensesSum (run actions Db.empty).
Proof.
  assert (G : forall actions db,
            Spec2.cashLedgerSum (run actions db) + Spec2.cashExpensesSum (run actions db)
            = Spec2.cashLedgerSum db + Spec2.cashExpensesSum db).
  { intros actions db. destruct (run_ledger actions db) as (added & L & C & _).
    unfold Spec2.cashLedgerSum. rewrite L, filter_app, sumOf_app. lia. }
  intros actions db. split; [apply G|].
  specialize (G actions Db.empty). cbn in G. lia.
Qed.

(** X20. Bank transactions and their ledger entries stay one to one in
    number, and stored bank transactions are well formed: every run of the
    pages adds as many ledger entries of type bank_transaction as it
    stores bank transactions, and keeps every stored amount non-negative
    and every stored direction 'in' or 'out'. *)
Theorem X20_bank_rows_and_entries :
  forall (actions : list App.Action) (db : Store),
    (Spec2.bankLedgerCount (run actions db) + List.length (bank_transactions db))%nat
      = (Spec2.bankLedgerCount db + List.length (bank_transactions (run actions db)))%nat /\
    (Spec2.bankWellFormed db -> Spec2.bankWellFormed (run actions db)).
Proof.
  intros actions db. split.
  - destruct (run_ledger actions db) as (added & L & _ & B).
    unfold Spec2.bankLedgerCount. rewrite L, filter_app, length_app. lia.
  - apply run_invariant. intros d a. apply step_bankWellFormed.
Qed.

(** X21. No run of the pages stores two fee rows for one member and
    month: if the fee rows have distinct (member, month) keys before, they
    have distinct keys after. *)
Theorem X21_fee_keys_stay_distinct :
  forall (actions : list App.Action) (db : Store),
    Spec2.feeKeysDistinct db -> Spec2.feeKeysDistinct (run actions db).
Proof.
  intros actions db. apply run_invariant. intros d a. apply step_fees.
Qed.

(** The order row of a sale whose item rows the store refuses. *)
Lemma refused_rows saleForm db :
  MerchSales.items saleForm <> [] ->
  let db' := SaleRefused.handleCreateSale saleForm db in
  (exists o,
     sales_orders db' = (sales_orders db ++ [o])%list /\
     so_id o = next_id db /\
     total_amount o = MerchSales.saleTotal (MerchSales.items saleForm)) /\
  sales_order_items db' = sales_order_items db /\
  products db' = products db /\
  transactions_ledger db' = transactions_ledger db /\
  next_id db' = S (next_id db).
Proof.
  intros Hne db'. subst db'. unfold SaleRefused.handleCreateSale.
  destruct (List.length (MerchSales.items saleForm) =? 0)%nat eqn:E.
  { apply length_zero_nil in E. contradiction. }
  split; [eexists; repeat split|repeat split].
Qed.

(** X22. The total of an order and the line totals of its items.  A
    sale whose rows the store accepts keeps the orders balanced with their
    items: if every stored order carries the sum of the line totals of its
    items (and identifiers come from the counter), the same holds after
    the sale.  When the store refuses the item rows, the order row of the
    sale is stored all the same, without items, stock change or ledger
    entry, and the orders are balanced afterwards only if the total of
    the sale is zero. *)
Theorem X22_order_totals_and_refused_items :
  forall (prods : list Product) (saleForm : MerchSales.SaleForm) (db : Store),
    Spec2.ordersBalanced db ->
    Spec2.ordersBalanced (MerchSales.handleCreateSale prods saleForm db) /\
    (MerchSales.items saleForm <> [] ->
     let db' := SaleRefused.handleCreateSale saleForm db in
     sales_orders db' = sales_orders (MerchSales.handleCreateSale prods saleForm db) /\
     sales_order_items db' = sales_order_items db /\
     products db' = products db /\
     transactions_ledger db' = transactions_ledger db /\
     (Spec2.ordersBalanced db'
      <-> MerchSales.saleTotal (MerchSales.items saleForm) = 0)).
Proof.
  intros prods saleForm db Hinv. split; [now apply createSale_orders|].
  intros Hne db'. subst db'.
  destruct (refused_rows saleForm db Hne) as ((o & Ho & Hid & Ht) & Hi & Hp & Hl & Hc).
  destruct (handleCreateSale_rows prods saleForm db Hne) as ((o' & Ho' & Hid' & Ht') & _).
  assert (Eo : o = o').
  { unfold SaleRefused.handleCreateSale, MerchSales.handleCreateSale in Ho, Ho'.
    destruct (List.length (MerchSales.items saleForm) =? 0)%nat eqn:E.
    { apply length_zero_nil in E. contradiction. }
    cbn [sales_orders Db.set_next_id Db.set_sales_orders] in Ho.
    apply app_inv_head in Ho. injection Ho as <-.
    match type of Ho' with
    | context [fold_left (MerchSales.deductStock prods) ?its ?d] =>
        destruct (deductStock_other prods its d) as (_ & H2 & _)
    end.
    destruct (MerchSales.sf_payment_status saleForm =? "paid")%string;
      [unfold Db.insert_ledger in Ho'; cbn [sales_orders Db.set_transactions_ledger] in Ho'|];
      rewrite H2 in Ho'; cbn [sales_orders Db.set_next_id Db.set_sales_orders
                                Db.set_sales_order_items] in Ho';
      apply app_inv_head in Ho'; now injection Ho' as <-. }
  split; [rewrite Ho, Ho'; now subst o'|].
  split; [exact Hi|split; [exact Hp|split; [exact Hl|]]].
  destruct Hinv as [H1 H2].
  unfold Spec2.ordersBalanced, Spec2.itemsTotal. rewrite Ho, Hi, Hc. split.
  - intros [G _]. destruct (G o) as [Gt _]; [apply in_app_iff; right; now left|].
    rewrite Hid, (old_items_other db (next_id db) H2) in Gt. cbn [Spec2.sumOf] in Gt.
    now rewrite <- Ht.
  - intros Hz. split.
    + intros x Hx. apply in_app_iff in Hx. destruct Hx as [Hx|[<-|[]]].
      * destruct (H1 x Hx) as [Hx1 Hx2]. split; [exact Hx1|lia].
      * split; [|lia].
        rewrite Hid, (old_items_other db (next_id db) H2), Ht. cbn [Spec2.sumOf].
        exact Hz.
    + intros i Hin. specialize (H2 i Hin). lia.
Qed.

End MachineInvariants.

(** ** Bank import: reading the uploaded sheet *)

Lemma scan_found (rows : BankUpload.Grid) (i0 k : nat) (row : list cell) :
  nth_error rows k = Some row ->
  BankUpload.hasMarker row = true ->
  (forall j r, (j < k)%nat -> nth_error rows j = Some r -> BankUpload.hasMarker r = false) ->
  BankUpload.scan i0 rows = Some ((i0 + k)%nat, row).
Proof.
  revert i0 k. induction rows as [|x rows IH]; intros i0 [|k] Hnth Hm Hbefore;
    cbn [nth_error] in Hnth; try discriminate; cbn [BankUpload.scan].
  - injection Hnth as ->. now rewrite Hm, Nat.add_0_r.
  - rewrite (Hbefore O x (Nat.lt_0_succ k) eq_refl).
    rewrite (IH (S i0) k Hnth Hm); [f_equal; f_equal; lia|].
    intros j r Hj Hr. apply (Hbefore (S j) r); [lia|exact Hr].
Qed.

Lemma scan_none (rows : BankUpload.Grid) (i0 : nat) :
  (forall r, In r rows -> BankUpload.hasMarker r = false) ->
  BankUpload.scan i0 rows = None.
Proof.
  revert i0. induction rows as [|x rows IH]; intros i0 H; cbn [BankUpload.scan];
    [reflexivity|].
  rewrite (H x (or_introl eq_refl)). apply IH. intros r Hr. apply H. now right.
Qed.

Lemma keys_set_nonempty {V} (key : string) (v : V) (o : Obj.t V) :
  Obj.keys (Obj.set key v o) <> [].
Proof.
  unfold Obj.set, Obj.hasKey. destruct (Obj.lookup o key) eqn:E.
  - rewrite keys_update. destruct o; [discriminate E|discriminate].
  - unfold Obj.keys. rewrite map_app. now destruct (map fst o).
Qed.

Lemma lookup_set {V} (key : string) (v : V) (o : Obj.t V) (k : string) :
  Obj.lookup (Obj.set key v o) k
  = if (k =? key)%string then Some v else Obj.lookup o k.
Proof.
  unfold Obj.set, Obj.hasKey. destruct (Obj.lookup o key) eqn:E.
  - rewrite lookup_update. destruct (String.eqb_spec k key) as [->|_]; [|reflexivity].
    now rewrite E.
  - rewrite lookup_snoc, (String.eqb_sym key k).
    destruct (String.eqb_spec k key) as [->|_]; [now rewrite E|].
    now destruct (Obj.lookup o k).
Qed.

Lemma get_lookup (o : Obj.t cell) (k : string) :
  BankImport.get o k = match Obj.lookup o k with Some v => v | None => Undefined end.
Proof.
  induction o as [|[k0 v0] o IH]; cbn [BankImport.get Obj.lookup]; [reflexivity|].
  destruct (k0 =? k)%string; [reflexivity|exact IH].
Qed.

Lemma keys_set {V} (key : string) (v : V) (o : Obj.t V) (k : string) :
  In k (Obj.keys (Obj.set key v o)) -> k = key \/ In k (Obj.keys o).
Proof.
  unfold Obj.set. destruct (Obj.hasKey o key).
  - rewrite keys_update. now right.
  - unfold Obj.keys. rewrite map_app, in_app_iff. cbn. intros [H|[H|[]]]; auto.
Qed.

Lemma rowObject_keys_nonempty (index : nat) (headers : list (option string))
    (row : list cell) (obj : Obj.t cell) :
  Obj.keys obj <> [] \/ (exists h, In (Some h) headers /\ nonEmpty h = true) ->
  Obj.keys (BankUpload.rowObject index headers row obj) <> [].
Proof.
  revert index obj. induction headers as [|[h|] headers IH]; intros index obj H;
    cbn [BankUpload.rowObject].
  - destruct H as [H|(h & [] & _)]. exact H.
  - apply IH. destruct (nonEmpty h) eqn:E.
    + left. apply keys_set_nonempty.
    + destruct H as [H|(h' & [[= <-]|Hin] & Hh)]; [now left|congruence|].
      right. now exists h'.
  - apply IH. destruct H as [H|(h' & [Hin|Hin] & Hh)]; [now left|discriminate|].
    right. now exists h'.
Qed.

Lemma rowObject_keys_empty (index : nat) (headers : list (option string))
    (row : list cell) :
  (forall h, In (Some h) headers -> nonEmpty h = false) ->
  BankUpload.rowObject index headers row [] = [].
Proof.
  revert index. induction headers as [|[h|] headers IH]; intros index H;
    cbn [BankUpload.rowObject]; [reflexivity| |].
  - rewrite (H h (or_introl eq_refl)). apply IH. intros h' Hh. apply H. now right.
  - apply IH. intros h' Hh. apply H. now right.
Qed.

(** A key of a row object is a header name that is present and not
    empty, or was a key before. *)
Lemma rowObject_keys (index : nat) (headers : list (option string)) (row : list cell)
    (obj : Obj.t cell) (k : string) :
  In k (Obj.keys (BankUpload.rowObject index headers row obj)) ->
  In k (Obj.keys obj) \/ (In (Some k) headers /\ nonEmpty k = true).
Proof.
  revert index obj. induction headers as [|[h|] headers IH]; intros index obj H;
    cbn [BankUpload.rowObject] in H.
  - now left.
  - apply IH in H. destruct H as [H|[H Hk]]; [|right; split; [now right|exact Hk]].
    destruct (nonEmpty h) eqn:E; [|now left].
    apply keys_set in H. destruct H as [->|H]; [|now left].
    right. split; [now left|exact E].
  - apply IH in H. destruct H as [H|[H Hk]]; [now left|].
    right. split; [now right|exact Hk].
Qed.

Lemma rowObject_other (index : nat) (headers : list (option string)) (row : list cell)
    (obj : Obj.t cell) (k : string) :
  ~ In (Some k) headers ->
  Obj.lookup (BankUpload.rowObject index headers row obj) k = Obj.lookup obj k.
Proof.
  revert index obj. induction headers as [|[h|] headers IH]; intros index obj H;
    cbn [BankUpload.rowObject]; [reflexivity| |].
  - rewrite IH; [|intros Hin; apply H; now right].
    destruct (nonEmpty h); [|reflexivity]. rewrite lookup_set.
    destruct (String.eqb_spec k h) as [->|_]; [|reflexivity]. exfalso. apply H. now left.
  - apply IH. intros Hin. apply H. now right.
Qed.

Lemma rowObject_column (index : nat) (before after : list (option string)) (h : string)
    (row : list cell) (obj : Obj.t cell) :
  nonEmpty h = true -> ~ In (Some h) after ->
  Obj.lookup (BankUpload.rowObject index (before ++ Some h :: after) row obj) h
  = Some (nth (index + List.length before) row Undefined).
Proof.
  intros Hh Hafter. revert index obj.
  induction before as [|x before IH]; intros index obj; cbn [app BankUpload.rowObject].
  - rewrite Hh, (rowObject_other _ _ _ _ _ Hafter), lookup_set, String.eqb_refl.
    cbn [List.length]. now rewrite Nat.add_0_r.
  - rewrite IH. cbn [List.length]. f_equal. f_equal. lia.
Qed.

Lemma present_In (headers : list (option string)) (h : string) :
  In h (BankUpload.present headers) <-> In (Some h) headers.
Proof.
  induction headers as [|[x|] headers IH]; cbn [BankUpload.present In].
  - tauto.
  - rewrite IH. split; intros [H|H]; auto; [left; now f_equal|left; now injection H].
  - rewrite IH. split; [auto|]. intros [H|H]; [discriminate|exact H].
Qed.

Lemma mapRow_nth (f : cell -> string) (row : list cell) (i : nat) :
  nth_error (BankUpload.mapRow f row) i
  = match nth_error row i with
    | Some Undefined => Some None
    | Some c => Some (Some (f c))
    | None => None
    end.
Proof.
  unfold BankUpload.mapRow. rewrite nth_error_map.
  destruct (nth_error row i) as [[| |]|]; reflexivity.
Qed.

Section UploadFacts.

Variable numberToString : Z -> string.

Local Abbreviation headersOf := (BankUpload.headersOf numberToString).
Local Abbreviation handleFileUpload := (BankUpload.handleFileUpload numberToString).

(** X23. Header detection of the bank sheet.  The header row is the
    first of the first 25 rows that contains the cell "Tarih/Saat" or
    "Date"; when none of the first 25 rows does, the first row is taken
    as the header, even if a later row contains such a cell.  The header
    names are the texts of the cells of that row, column by column; a
    column for which the row has no cell has no name (a hole of the array,
    not the text "undefined"), and only the names that are present count
    as column names. *)
Theorem X23_header_row_detection :
  (forall (jsonData : BankUpload.Grid) (i : nat) (row : list cell),
     (i < 25)%nat ->
     nth_error jsonData i = Some row ->
     BankUpload.hasMarker row = true ->
     (forall j r, (j < i)%nat -> nth_error jsonData j = Some r ->
                  BankUpload.hasMarker r = false) ->
     headersOf jsonData
     = (i, BankUpload.mapRow
             (fun h => BankImport.String_ numberToString (or_else h (Str ""))) row)) /\
  (forall (jsonData : BankUpload.Grid),
     (forall j r, (j < 25)%nat -> nth_error jsonData j = Some r ->
                  BankUpload.hasMarker r = false) ->
     headersOf jsonData
     = (O, BankUpload.mapRow (BankImport.String_ numberToString) (hd [] jsonData))) /\
  (forall (f : cell -> string) (row : list cell) (k : nat),
     nth_error (BankUpload.mapRow f row) k
     = match nth_error row k with
       | Some Undefined => Some None
       | Some c => Some (Some (f c))
       | None => None
       end) /\
  (forall (jsonData : BankUpload.Grid) (current : BankImport.ColumnMapping)
          (u : BankUpload.Upload) (name : string),
     handleFileUpload jsonData current = Some u ->
     In name (BankUpload.columnNames u) ->
     In (Some name) (snd (headersOf jsonData)) /\ nonEmpty name = true).
Proof.
  split; [|split; [|split]].
  - intros jsonData i row Hi Hnth Hm Hbefore. unfold BankUpload.headersOf.
    rewrite (scan_found (firstn 25 jsonData) 0 i row); [reflexivity| |exact Hm|].
    + rewrite nth_error_firstn. apply Nat.ltb_lt in Hi. now rewrite Hi.
    + intros j r Hj Hr. rewrite nth_error_firstn in Hr.
      destruct (j <? 25)%nat; [|discriminate]. now apply (Hbefore j r).
  - intros jsonData H. unfold BankUpload.headersOf.
    rewrite scan_none; [reflexivity|].
    intros r Hr. apply In_nth_error in Hr. destruct Hr as (j & Hj).
    rewrite nth_error_firstn in Hj. destruct (j <? 25)%nat eqn:E; [|discriminate].
    apply Nat.ltb_lt in E. now apply (H j r).
  - apply mapRow_nth.
  - intros jsonData current u name Hu Hin.
    unfold BankUpload.handleFileUpload in Hu. destruct jsonData as [|r0 rest] eqn:Ej;
      [discriminate|]. rewrite <- Ej in *. clear Ej r0 rest.
    destruct (headersOf jsonData) as [index hs] eqn:Eh. cbn [snd].
    injection Hu as <-. cbn [BankUpload.columnNames] in Hin.
    apply filter_In in Hin. destruct Hin as [Hin Hname].
    apply andb_true_iff in Hname. split; [now apply present_In|apply Hname].
Qed.

(** X24. The rows of the sheet below the header row.  When at least
    one header name is present and not empty, every row below the header
    row becomes a parsed row, blank rows included; when no header name is,
    no row is parsed.  The keys of a parsed row are header names that are
    present and not empty, so a column without a header cell gives no key.
    In a parsed row, a non-empty header name that does not occur again in
    a later column reads the cell of its column, and [undefined] when the
    row has no cell there. *)
Theorem X24_parsed_rows :
  forall (jsonData : BankUpload.Grid) (current : BankImport.ColumnMapping)
         (u : BankUpload.Upload),
    handleFileUpload jsonData current = Some u ->
    let headers := snd (headersOf jsonData) in
    BankUpload.headerRowIndex u = fst (headersOf jsonData) /\
    ((exists h, In (Some h) headers /\ nonEmpty h = true) ->
     BankUpload.parsedData u
       = map (fun row => BankUpload.rowObject 0 headers row [])
           (skipn (S (BankUpload.headerRowIndex u)) jsonData) /\
     List.length (BankUpload.parsedData u)
       = (List.length jsonData - S (BankUpload.headerRowIndex u))%nat) /\
    ((forall h, In (Some h) headers -> nonEmpty h = false) ->
     BankUpload.parsedData u = []) /\
    (forall (row : list cell) (k : string),
       In k (Obj.keys (BankUpload.rowObject 0 headers row [])) ->
       In (Some k) headers /\ nonEmpty k = true) /\
    (forall (before after : list (option string)) (h : string) (row : list cell),
       headers = (before ++ Some h :: after)%list ->
       nonEmpty h = true -> ~ In (Some h) after ->
       BankImport.get (BankUpload.rowObject 0 headers row []) h
       = nth (List.length before) row Undefined).
Proof.
  intros jsonData current u Hu. cbv zeta.
  unfold BankUpload.handleFileUpload in Hu. destruct jsonData as [|r0 rest] eqn:Ej;
    [discriminate|]. rewrite <- Ej in *. clear Ej r0 rest.
  destruct (headersOf jsonData) as [index hs] eqn:Eh. cbn [fst snd].
  injection Hu as <-. cbn [BankUpload.headerRowIndex BankUpload.parsedData].
  change (match jsonData with [] => [] | _ :: l => skipn index l end)
    with (skipn (S index) jsonData).
  split; [reflexivity|split; [|split; [|split]]].
  - intros Hex.
    assert (E : filter (fun r => negb (List.length (Obj.keys r) =? 0)%nat)
                  (map (fun row => BankUpload.rowObject 0 hs row []) (skipn (S index) jsonData))
                = map (fun row => BankUpload.rowObject 0 hs row [])
                    (skipn (S index) jsonData)).
    { induction (skipn (S index) jsonData) as [|row rows IH]; [reflexivity|].
      cbn [map filter].
      pose proof (rowObject_keys_nonempty 0 hs row [] (or_intror Hex)) as Hk.
      destruct (Obj.keys (BankUpload.rowObject 0 hs row [])) eqn:Ek; [contradiction|].
      cbn [List.length Nat.eqb negb]. now rewrite IH. }
    rewrite E. split; [reflexivity|]. now rewrite length_map, length_skipn.
  - intros Hall.
    induction (skipn (S index) jsonData) as [|row rows IH]; [reflexivity|].
    cbn [map filter]. rewrite (rowObject_keys_empty 0 hs row Hall). exact IH.
  - intros row k Hk. apply rowObject_keys in Hk. destruct Hk as [[]|Hk]. exact Hk.
  - intros before after h row -> Hh Hafter.
    rewrite get_lookup, (rowObject_column 0 before after h row [] Hh Hafter).
    reflexivity.
Qed.

End UploadFacts.

(** X25. Auto-mapping of the bank sheet.  When the header names contain
    "Tarih/Saat", "Açıklama" and "İşlem Tutarı*", the three required
    columns are mapped and the wizard can go on to the preview; when they
    do not contain "Tarih/Saat" and no date column was mapped before, the
    mapping is left as it was, whatever other known names are present. *)
Theorem X25_auto_mapping :
  (forall (headers : list string) (current : BankImport.ColumnMapping),
     BankUpload.includesText headers "Tarih/Saat" = true ->
     BankUpload.includesText headers "Açıklama" = true ->
     BankUpload.includesText headers "İşlem Tutarı*" = true ->
     let m := BankUpload.autoMapping headers current in
     BankImport.cm_txn_date m = "Tarih/Saat" /\
     BankImport.cm_description m = "Açıklama" /\
     BankImport.cm_amount m = "İşlem Tutarı*" /\
     BankUpload.handleMappingNext m = 3%nat) /\
  (forall (headers : list string) (current : BankImport.ColumnMapping),
     BankUpload.includesText headers "Tarih/Saat" = false ->
     BankImport.cm_txn_date current = "" ->
     BankUpload.autoMapping headers current = current /\
     BankUpload.handleMappingNext (BankUpload.autoMapping headers current) = 2%nat).
Proof.
  split.
  - intros headers current H1 H2 H3 m. subst m. unfold BankUpload.autoMapping.
    rewrite H1, H2, H3.
    destruct (BankUpload.includesText headers "Referans"); repeat split.
  - intros headers current H1 Hd. unfold BankUpload.autoMapping. rewrite H1.
    assert (E : forall m, BankImport.cm_txn_date m = "" ->
                (if nonEmpty (BankImport.cm_txn_date m) then m else current) = current)
      by (intros m ->; reflexivity).
    assert (G : BankUpload.autoMapping headers current = current).
    { unfold BankUpload.autoMapping. rewrite H1.
      destruct (BankUpload.includesText headers "Açıklama"),
               (BankUpload.includesText headers "İşlem Tutarı*"),
               (BankUpload.includesText headers "Referans");
        apply E; exact Hd. }
    unfold BankUpload.autoMapping in G. rewrite H1 in G. rewrite G.
    split; [reflexivity|]. unfold BankUpload.handleMappingNext. now rewrite Hd.
Qed.

(** ** CSV export *)

Lemma concat_cons2 (sep x y : string) (l : list string) :
  String.concat sep (x :: y :: l) = x ++ sep ++ String.concat sep (y :: l).
Proof. reflexivity. Qed.

Lemma split_length (c : ascii) (s : string) :
  List.length (split (isChar c) s) = S (Spec2.countChar c s).
Proof.
  induction s as [|x s IH]; [reflexivity|].
  rewrite split_cons. cbn [Spec2.countChar]. unfold isChar at 1.
  destruct (Ascii.eqb c x); cbn [List.length Nat.add].
  - now rewrite IH.
  - destruct (split (isChar c) s); [discriminate IH|exact IH].
Qed.

Lemma split_lacks (c : ascii) (a : string) :
  Spec2.lacks c a -> split (isChar c) a = [a].
Proof.
  unfold Spec2.lacks. induction a as [|x a IH]; [reflexivity|].
  rewrite split_cons. cbn [Spec2.countChar]. unfold isChar at 1.
  destruct (Ascii.eqb c x); cbn [Nat.add]; [discriminate|].
  intros H. now rewrite (IH H).
Qed.

Lemma split_first_segment (c : ascii) (a rest : string) :
  Spec2.lacks c a ->
  split (isChar c) (a ++ String c rest) = a :: split (isChar c) rest.
Proof.
  unfold Spec2.lacks. induction a as [|x a IH].
  - intros _. cbn [String.append]. rewrite split_cons. unfold isChar at 1.
    now rewrite Ascii.eqb_refl.
  - cbn [String.append Spec2.countChar]. rewrite split_cons. unfold isChar at 1.
    destruct (Ascii.eqb c x); cbn [Nat.add]; [discriminate|].
    intros H. now rewrite (IH H).
Qed.

Lemma split_concat (c : ascii) (l : list string) :
  l <> [] -> Forall (Spec2.lacks c) l ->
  split (isChar c) (String.concat (String c EmptyString) l) = l.
Proof.
  induction l as [|x l IH]; intros Hne Hl; [contradiction|].
  pose proof (Forall_inv Hl) as Hx. pose proof (Forall_inv_tail Hl) as Hrest.
  destruct l as [|y l].
  - now apply split_lacks.
  - rewrite concat_cons2. cbn [String.append].
    rewrite (split_first_segment c x _ Hx). f_equal.
    apply IH; [discriminate|exact Hrest].
Qed.

Lemma countChar_app (c : ascii) (a b : string) :
  Spec2.countChar c (a ++ b) = (Spec2.countChar c a + Spec2.countChar c b)%nat.
Proof.
  induction a as [|x a IH]; cbn [String.append Spec2.countChar]; [reflexivity|].
  rewrite IH. lia.
Qed.

Lemma countChar_concat_same (c : ascii) (l : list string) :
  l <> [] ->
  S (Spec2.countChar c (String.concat (String c EmptyString) l))
  = (List.length l + Spec2.countAll c l)%nat.
Proof.
  induction l as [|x l IH]; intros Hne; [contradiction|].
  destruct l as [|y l].
  - cbn [String.concat List.length Spec2.countAll]. lia.
  - rewrite concat_cons2, !countChar_app. cbn [Spec2.countChar].
    rewrite Ascii.eqb_refl.
    specialize (IH ltac:(discriminate)).
    change (Spec2.countAll c (x :: y :: l))
      with (Spec2.countChar c x + Spec2.countAll c (y :: l))%nat.
    change (List.length (x :: y :: l)) with (S (List.length (y :: l))).
    cbn [Nat.add]. lia.
Qed.

Lemma countChar_concat_other (c sep : ascii) (l : list string) :
  Ascii.eqb c sep = false ->
  Spec2.countChar c (String.concat (String sep EmptyString) l) = Spec2.countAll c l.
Proof.
  intros Hne. induction l as [|x l IH]; [reflexivity|].
  destruct l as [|y l].
  - cbn [String.concat Spec2.countAll]. lia.
  - rewrite concat_cons2, !countChar_app. cbn [Spec2.countChar]. rewrite Hne, IH.
    change (Spec2.countAll c (x :: y :: l))
      with (Spec2.countChar c x + Spec2.countAll c (y :: l))%nat.
    lia.
Qed.

Lemma countAll_zero (c : ascii) (l : list string) :
  Forall (Spec2.lacks c) l -> Spec2.countAll c l = O.
Proof.
  induction 1 as [|x l Hx _ IH]; [reflexivity|]. cbn [Spec2.countAll].
  unfold Spec2.lacks in Hx. now rewrite Hx, IH.
Qed.

Section CsvFacts.

Variable numberToString : Z -> string.

Local Abbreviation joinText := (Csv.joinText numberToString).
Local Abbreviation rowLine := (Csv.rowLine numberToString).
Local Abbreviation exportToCSV := (Csv.exportToCSV numberToString).

Local Abbreviation cellTexts := (Csv.cellTexts numberToString).

(** X26. CSV export reads back when no text holds a delimiter.  For a
    report with at least one row and one column, in which no column name
    and no cell text contains a comma or a line feed, the file offered
    for download is named after the report with the extension csv, and
    splitting its text on the line feeds and each line on the commas gives
    the column names followed by the cell texts of every row, in order.
    For a report without rows no file is offered. *)
Theorem X26_csv_round_trip :
  (forall filename, exportToCSV [] filename = None) /\
  (forall (first : Obj.t cell) (rest : list (Obj.t cell)) (filename : string),
     let data := first :: rest in
     let headers := Obj.keys first in
     headers <> [] ->
     Forall (fun t => Spec2.lacks "," t /\ Spec2.lacks (ascii_of_nat 10) t) headers ->
     Forall (fun row =>
               Forall (fun t => Spec2.lacks "," t /\ Spec2.lacks (ascii_of_nat 10) t)
                      (cellTexts headers row)) data ->
     exists content,
       exportToCSV data filename = Some (filename ++ ".csv", content) /\
       map (split (isChar ",")) (split (isChar (ascii_of_nat 10)) content)
       = headers :: map (cellTexts headers) data).
Proof.
  split; [reflexivity|].
  intros first rest filename data headers Hne Hh Hd. eexists. split; [reflexivity|].
  fold headers. fold data.
  assert (Hline : forall l : list string,
            Forall (fun t => Spec2.lacks "," t /\ Spec2.lacks (ascii_of_nat 10) t) l ->
            Spec2.lacks (ascii_of_nat 10) (String.concat Csv.comma l)).
  { intros l Hl. unfold Spec2.lacks, Csv.comma.
    rewrite countChar_concat_other; [|reflexivity].
    apply countAll_zero. eapply Forall_impl; [|exact Hl]. now intros t [_ H]. }
  unfold Csv.newline. rewrite split_concat; [|discriminate|].
  - cbn [map]. f_equal.
    + unfold Csv.headerLine, Csv.comma. apply split_concat; [exact Hne|].
      eapply Forall_impl; [|exact Hh]. now intros t [H _].
    + rewrite map_map. apply map_ext_in. intros row Hrow.
      unfold Csv.rowLine, Csv.comma. fold (cellTexts headers row).
      apply split_concat.
      * unfold Csv.cellTexts. destruct headers; [contradiction|discriminate].
      * rewrite Forall_forall in Hd. specialize (Hd row Hrow).
        eapply Forall_impl; [|exact Hd]. now intros t [H _].
  - constructor; [now apply Hline|].
    apply Forall_forall. intros line Hin. apply in_map_iff in Hin.
    destruct Hin as (row & <- & Hrow). apply Hline.
    rewrite Forall_forall in Hd. now apply Hd.
Qed.

(** X27. CSV export does not escape commas: a line of the file splits
    on the commas into as many fields as there are columns plus one field
    for every comma inside a cell text of the row. *)
Theorem X27_csv_commas_not_escaped :
  forall (headers : list string) (row : Obj.t cell),
    headers <> [] ->
    List.length (split (isChar ",") (rowLine headers row))
    = (List.length headers + Spec2.countAll "," (cellTexts headers row))%nat.
Proof.
  intros headers row Hne. rewrite split_length. unfold Csv.rowLine, Csv.comma.
  fold (cellTexts headers row). rewrite countChar_concat_same.
  - unfold Csv.cellTexts. now rewrite length_map.
  - unfold Csv.cellTexts. destruct headers; [contradiction|discriminate].
Qed.

End CsvFacts.

(** ** Sign-in state *)

Lemma auth_step_invariant (env : Auth.Env) (st : Auth.State) (e : Auth.Event) :
  (Auth.isAuthenticated st = true <-> Auth.stored st = Some "true") ->
  (Auth.isAuthenticated (Auth.step env st e) = true
   <-> Auth.stored (Auth.step env st e) = Some "true").
Proof.
  intros H. destruct e as [username password| |]; cbn [Auth.step].
  - unfold Auth.login.
    destruct ((username =? _)%string && (password =? _)%string); cbn [snd]; [|exact H].
    cbn. tauto.
  - cbn. split; discriminate.
  - unfold Auth.mount. cbn [Auth.isAuthenticated Auth.stored].
    destruct (Auth.stored st) as [v|]; [|split; discriminate].
    rewrite String.eqb_eq. split; [now intros ->|now intros [= ->]].
Qed.

(** X28. Sign-in.  A login succeeds exactly when the user name and the
    password equal the configured ones (admin and iztech2024 when none is
    configured), and a failed login leaves the state as it is.  After the
    page is loaded, through any sequence of logins, logouts and reloads,
    the user is signed in exactly when the local storage holds "true": a
    reload keeps a signed-in user signed in, and after a logout a reload
    does not sign in again. *)
Theorem X28_sign_in_state :
  (forall env username password st,
     fst (Auth.login env username password st) = true <->
     username = Auth.orDefault (Auth.VITE_ADMIN_USERNAME env) "admin" /\
     password = Auth.orDefault (Auth.VITE_ADMIN_PASSWORD env) "iztech2024") /\
  (forall env username password st,
     fst (Auth.login env username password st) = false ->
     snd (Auth.login env username password st) = st) /\
  (forall env item events,
     let st := Auth.run env events (Auth.mount item) in
     (Auth.isAuthenticated st = true <-> Auth.stored st = Some "true") /\
     Auth.isAuthenticated (Auth.step env st Auth.Reload) = Auth.isAuthenticated st /\
     Auth.isAuthenticated (Auth.step env (Auth.step env st Auth.Logout) Auth.Reload)
       = false).
Proof.
  split; [|split].
  - intros env username password st. unfold Auth.login.
    destruct (String.eqb_spec username (Auth.orDefault (Auth.VITE_ADMIN_USERNAME env) "admin"));
      destruct (String.eqb_spec password
                  (Auth.orDefault (Auth.VITE_ADMIN_PASSWORD env) "iztech2024"));
      cbn; intuition congruence.
  - intros env username password st. unfold Auth.login.
    destruct ((username =? _)%string && (password =? _)%string); cbn; congruence.
  - intros env item events st.
    assert (Hinv : Auth.isAuthenticated st = true <-> Auth.stored st = Some "true").
    { subst st. unfold Auth.run.
      assert (H0 : Auth.isAuthenticated (Auth.mount item) = true
                   <-> Auth.stored (Auth.mount item) = Some "true").
      { unfold Auth.mount. cbn. destruct item as [v|]; [|split; discriminate].
        rewrite String.eqb_eq. split; [now intros ->|now intros [= ->]]. }
      revert H0. generalize (Auth.mount item) as s0.
      induction events as [|e events IH]; intros s0 H0; cbn [fold_left]; [exact H0|].
      apply IH. now apply auth_step_invariant. }
    split; [exact Hinv|split; [|reflexivity]].
    cbn [Auth.step]. unfold Auth.mount. cbn [Auth.isAuthenticated].
    destruct (Auth.isAuthenticated st) eqn:E.
    + destruct Hinv as [H _]. now rewrite (H eq_refl).
    + destruct (Auth.stored st) as [v|] eqn:Es; [|reflexivity].
      destruct (String.eqb_spec v "true") as [->|_]; [|reflexivity].
      destruct Hinv as [_ H]. specialize (H eq_refl). congruence.
Qed.

(** ** The totals of the membership fees page *)

Lemma reduce_sum_filter_split {A} (w : A -> Z) (p : A -> bool) (l : list A) :
  reduce_sum w l = reduce_sum w (filter p l) + reduce_sum w (filter (fun x => negb (p x)) l).
Proof.
  rewrite !reduce_sum_sumOf.
  induction l as [|x l IH]; [reflexivity|]. cbn [filter Spec2.sumOf].
  destruct (p x); cbn [negb Spec2.sumOf]; lia.
Qed.

Lemma sumOf_nonneg {A} (w : A -> Z) (l : list A) :
  Forall (fun x => 0 <= w x) l -> 0 <= Spec2.sumOf w l.
Proof.
  induction 1 as [|x l Hx _ IH]; cbn [Spec2.sumOf]; lia.
Qed.

(** X29. The three totals of the membership fees page.  The unpaid
    figure is the total minus the paid figure, so it is the sum of the
    amounts of the listed fees whose status is anything other than paid;
    when no listed fee has a negative amount, the paid and the unpaid
    figures both lie between zero and the total. *)
Theorem X29_fee_totals :
  forall fees : list MembershipFees.Row,
    FeeTotals.totalUnpaid fees
    = Spec2.sumOf (fun f => f_amount (MembershipFees.fee f))
        (filter (fun f => negb (f_payment_status (MembershipFees.fee f) =? "paid")%string)
                fees) /\
    (Forall (fun f => 0 <= f_amount (MembershipFees.fee f)) fees ->
     0 <= FeeTotals.totalPaid fees <= FeeTotals.totalFees fees /\
     0 <= FeeTotals.totalUnpaid fees <= FeeTotals.totalFees fees).
Proof.
  intros fees.
  pose proof (reduce_sum_filter_split (fun f => f_amount (MembershipFees.fee f))
                (fun f => (f_payment_status (MembershipFees.fee f) =? "paid")%string) fees)
    as Hsplit.
  cbv beta in Hsplit.
  unfold FeeTotals.totalUnpaid, FeeTotals.totalPaid, FeeTotals.totalFees.
  rewrite <- reduce_sum_sumOf. split; [lia|].
  intros Hpos.
  assert (Hsub : forall p, 0 <= reduce_sum (fun f => f_amount (MembershipFees.fee f))
                                  (filter p fees)).
  { intros p. rewrite reduce_sum_sumOf. apply sumOf_nonneg.
    apply Forall_forall. intros f Hf. apply filter_In in Hf.
    rewrite Forall_forall in Hpos. now apply Hpos. }
  pose proof (Hsub (fun f => (f_payment_status (MembershipFees.fee f) =? "paid")%string)).
  pose proof (Hsub (fun f => negb (f_payment_status (MembershipFees.fee f) =? "paid")%string)).
  lia.
Qed.

(** ** The statements on sample data *)

Lemma X1_pl_rows_witness :
  In Sample2.fuel (ledgerInRange "2024-01-01" "2024-12-31" Sample2.ledgerStore) /\
  In "travel-General"
     (map Spec2.plRowKey (PLReport.loadPLReport "2024-01-01" "2024-12-31" Sample2.ledgerStore)).
Proof.
  assert (Hin : In Sample2.fuel
                   (ledgerInRange "2024-01-01" "2024-12-31" Sample2.ledgerStore)).
  { vm_compute. left. reflexivity. }
  split; [exact Hin|].
  destruct (X1_pl_rows_by_joined_key "2024-01-01" "2024-12-31" Sample2.ledgerStore)
    as (_ & _ & Hkey & _).
  exact (Hkey Sample2.fuel Hin).
Defined.

Lemma X2_cashflow_months_witness :
  Spec2.isoDated Sample2.ledgerStore /\
  StronglySorted Spec2.before
    (map Cashflow.month (Cashflow.loadCashflow "2024-01-01" "2024-12-31" Sample2.ledgerStore)) /\
  map Cashflow.month (Cashflow.loadCashflow "2024-01-01" "2024-12-31" Sample2.ledgerStore)
  = ["2024-01"; "2024-02"].
Proof.
  assert (Hiso : Spec2.isoDated Sample2.ledgerStore).
  { intros t Ht. vm_compute in Ht. destruct Ht as [<-|[<-|[<-|[]]]]; reflexivity. }
  split; [exact Hiso|]. split; [|reflexivity].
  exact (proj1 (X2_cashflow_months_increasing "2024-01-01" "2024-12-31"
                  Sample2.ledgerStore Hiso)).
Defined.

Lemma X3_cashflow_rows_witness :
  In Sample2.fuel (ledgerInRange "2024-01-01" "2024-12-31" Sample2.ledgerStore) /\
  In "2024-02"
     (map Cashflow.month (Cashflow.loadCashflow "2024-01-01" "2024-12-31" Sample2.ledgerStore)).
Proof.
  assert (Hin : In Sample2.fuel
                   (ledgerInRange "2024-01-01" "2024-12-31" Sample2.ledgerStore)).
  { vm_compute. left. reflexivity. }
  split; [exact Hin|].
  destruct (X3_cashflow_rows_by_month "2024-01-01" "2024-12-31" Sample2.ledgerStore)
    as (Hmonth & _).
  exact (Hmonth Sample2.fuel Hin).
Defined.

Lemma X5_inventory_witness :
  MerchSales.items Sample2.sale <> [] /\
  Inventory.total_sold (Inventory.rowOf Sample2.soldStore Sample.shirt) = 2 /\
  Inventory.total_revenue (Inventory.rowOf Sample2.soldStore Sample.shirt) = 100.
Proof.
  assert (Hne : MerchSales.items Sample2.sale <> []) by discriminate.
  split; [exact Hne|].
  destruct (X5_inventory_counts_every_sale [Sample.shirt; Sample.sticker] Sample2.sale
              Sample.shop Sample.shirt Hne) as [Hsold Hrev].
  unfold Sample2.soldStore. split; [rewrite Hsold|rewrite Hrev]; reflexivity.
Defined.

Lemma X7_stock_plus_sold_witness :
  NoDup (map MerchSales.si_product_id (MerchSales.items Sample2.twoItems)) /\
  MerchSales.findProduct (products Sample.shop) (p_id Sample.shirt) = Some Sample.shirt /\
  exists product',
    MerchSales.findProduct
      (products (MerchSales.handleCreateSale (products Sample.shop) Sample2.twoItems
                   Sample.shop))
      (p_id Sample.shirt) = Some product' /\
    stock_quantity product'
    + Inventory.total_sold
        (Inventory.rowOf
           (MerchSales.handleCreateSale (products Sample.shop) Sample2.twoItems Sample.shop)
           product')
    = 10.
Proof.
  assert (Hnd : NoDup (map MerchSales.si_product_id (MerchSales.items Sample2.twoItems))).
  { cbn. constructor; [cbn; intros [H|[]]; discriminate H|].
    constructor; [intros []|constructor]. }
  assert (Hf : MerchSales.findProduct (products Sample.shop) (p_id Sample.shirt)
               = Some Sample.shirt) by reflexivity.
  split; [exact Hnd|split; [exact Hf|]].
  destruct (X7_stock_plus_sold_conserved Sample2.twoItems Sample.shop Sample.shirt Hnd Hf)
    as (product' & Hfound & Hsum).
  exists product'. split; [exact Hfound|]. rewrite Hsum. reflexivity.
Defined.

Lemma X9_member_filter_witness :
  toLowerCase "AHMET" = toLowerCase "ahmet" /\
  MemberList.filterMembers "AHMET" MemberList.active Sample2.roster
  = MemberList.filterMembers "ahmet" MemberList.active Sample2.roster /\
  MemberList.hasLeft Sample2.leaver = true /\
  In Sample2.leaver (MemberList.filterMembers "a" MemberList.inactive Sample2.roster).
Proof.
  destruct X9_member_filter_partition as (Hcase & Hpart & _).
  split; [reflexivity|]. split; [apply Hcase; reflexivity|]. split; [reflexivity|].
  assert (Hin : In Sample2.leaver
                   (MemberList.filterMembers "a" MemberList.all Sample2.roster)).
  { vm_compute. right. left. reflexivity. }
  exact (proj1 (proj2 (Hpart "a" Sample2.roster Sample2.leaver Hin) eq_refl)).
Defined.

Lemma X10_generated_fee_witness :
  In Sample.ahmet (MembershipFees.activeMembers "2024-03" Sample.balanceStore) /\
  exists f,
    In f (membership_fees
            (MembershipFees.handleGenerateFees true "2024-03" 200 Sample.balanceStore)) /\
    f_member_id f = 1%nat /\ fee_month f = "2024-03-01".
Proof.
  assert (Hin : In Sample.ahmet (MembershipFees.activeMembers "2024-03" Sample.balanceStore)).
  { vm_compute. left. reflexivity. }
  split; [exact Hin|].
  exact (proj2 (X10_generated_fee_rows true "2024-03" 200 Sample.balanceStore)
           Sample.ahmet Hin).
Defined.

Lemma X11_left_member_witness :
  (MembershipFees.monthStartOf "2024-03" <=? "2024-03-10")%string = true /\
  exists f,
    In f (membership_fees
            (MembershipFees.handleGenerateFees true "2024-03" 200
               (MemberList.handleMarkLeft true "2024-03-10" 1%nat Sample.balanceStore))) /\
    f_member_id f = 1%nat /\ fee_month f = "2024-03-01".
Proof.
  split; [reflexivity|].
  refine (proj2 (X11_left_member_fees "2024-03-10" 1%nat Sample.balanceStore "2024-03" 200)
            eq_refl Sample.ahmet _ eq_refl eq_refl).
  vm_compute. left. reflexivity.
Defined.

Lemma X12_sale_form_witness :
  nth_error (MerchSales.items Sample2.twoItems) 1 = Some (Sample.item 2%nat 1 30) /\
  MerchSales.saleTotal
    (MerchSales.items (SaleFormEdit.removeItemFromSale 1 Sample2.twoItems)) = 100 /\
  (List.length (MerchSales.items Sample2.twoItems) <= 5)%nat /\
  SaleFormEdit.removeItemFromSale 5 Sample2.twoItems = Sample2.twoItems.
Proof.
  destruct X12_sale_form_items as (_ & _ & _ & Hremove & Hout).
  split; [reflexivity|].
  split.
  - rewrite (proj1 (Hremove 1%nat Sample2.twoItems (Sample.item 2%nat 1 30) eq_refl)).
    reflexivity.
  - assert (Hle : (List.length (MerchSales.items Sample2.twoItems) <= 5)%nat) by (cbn; lia).
    split; [exact Hle|exact (Hout 5%nat Sample2.twoItems Hle)].
Defined.

Lemma X13_update_sale_item_witness :
  nth_error (MerchSales.items Sample2.twoItems) 0 = Some (Sample.item 1%nat 2 50) /\
  exists saleForm' item',
    SaleFormEdit.updateSaleItem [Sample.shirt; Sample.sticker] 0
      (SaleFormEdit.product_id_to 2%nat) Sample2.twoItems = Some saleForm' /\
    nth_error (MerchSales.items saleForm') 0 = Some item' /\
    MerchSales.si_product_id item' = 2%nat /\
    MerchSales.si_quantity item' = 2 /\
    MerchSales.si_unit_price item' = 30.
Proof.
  split; [reflexivity|].
  destruct (X13_update_sale_item [Sample.shirt; Sample.sticker] 0
              (SaleFormEdit.product_id_to 2%nat) Sample2.twoItems (Sample.item 1%nat 2 50)
              eq_refl) as (saleForm' & item' & Hu & _ & Hnth & _ & Hid & Hq & Hp).
  exists saleForm', item'. repeat split; assumption.
Defined.

Lemma X14_add_item_twice_witness :
  products Sample.shop = Sample.shirt :: [Sample.sticker] /\
  MerchSales.items Sample2.noItems = [] /\
  Spec.stockOf
    (MerchSales.handleCreateSale (products Sample.shop)
       (SaleFormEdit.addItemToSale (products Sample.shop)
          (SaleFormEdit.addItemToSale (products Sample.shop) Sample2.noItems))
       Sample.shop)
    (p_id Sample.shirt)
  = Some 9.
Proof.
  split; [reflexivity|split; [reflexivity|]].
  destruct (X14_add_item_twice_then_sell Sample.shirt [Sample.sticker] Sample.shop
              Sample2.noItems eq_refl eq_refl) as (_ & _ & _ & Hstock & _).
  exact Hstock.
Defined.

Lemma X16_mark_paid_balance_witness :
  nonEmpty "cash" = true /\
  Reports.reimb_owed
    (Reports.balanceOf
       (Reimbursements.handleMarkPaid (Some "cash") "2024-03-01" Sample2.reimbRows 7%nat
          Sample.balanceStore)
       Sample.ahmet)
  = 0.
Proof.
  split; [reflexivity|].
  destruct (X16_mark_paid_balance "cash" "2024-03-01" 7%nat Sample.balanceStore Sample.ahmet
              eq_refl) as [Hreimb _].
  rewrite (proj1 (Hreimb Sample2.reimbRows)). reflexivity.
Defined.

Lemma X17_mark_paid_twice_witness :
  nonEmpty "cash" = true /\
  exists e,
    amount e = -50 /\
    transactions_ledger
      (Reimbursements.handleMarkPaid (Some "cash") "2024-03-01" Sample2.reimbRows 7%nat
         (Reimbursements.handleMarkPaid (Some "cash") "2024-03-01" Sample2.reimbRows 7%nat
            Sample.balanceStore))
    = [e; e].
Proof.
  split; [reflexivity|].
  destruct (proj1 X17_mark_paid_twice_posts_twice "cash" "2024-03-01" Sample2.reimbRows
              7%nat Sample.balanceStore _ eq_refl eq_refl) as (_ & e & Hamount & _ & Htwice).
  exists e. split; [exact Hamount|exact Htwice].
Defined.

Lemma X20_bank_rows_witness :
  Spec2.bankWellFormed Sample2.bankStore /\
  Spec2.bankWellFormed
    (App.run toLowerCase Whole.parseFloat Whole.numberToString Sample2.day Sample2.bankStore) /\
  List.length
    (bank_transactions
       (App.run toLowerCase Whole.parseFloat Whole.numberToString Sample2.day Sample2.bankStore))
  = 3%nat.
Proof.
  assert (Hwf : Spec2.bankWellFormed Sample2.bankStore).
  { intros b Hb. vm_compute in Hb. destruct Hb as [<-|[]].
    split; [cbn; lia|left; reflexivity]. }
  split; [exact Hwf|]. split; [|reflexivity].
  exact (proj2 (X20_bank_rows_and_entries toLowerCase Whole.parseFloat Whole.numberToString
                  Sample2.day Sample2.bankStore) Hwf).
Defined.

Lemma X21_fee_keys_witness :
  Spec2.feeKeysDistinct Sample.balanceStore /\
  Spec2.feeKeysDistinct
    (App.run toLowerCase Whole.parseFloat Whole.numberToString Sample2.day Sample.balanceStore) /\
  List.length
    (membership_fees
       (App.run toLowerCase Whole.parseFloat Whole.numberToString Sample2.day Sample.balanceStore))
  = 2%nat.
Proof.
  assert (Hnd : Spec2.feeKeysDistinct Sample.balanceStore).
  { unfold Spec2.feeKeysDistinct. cbn. constructor; [intros []|constructor]. }
  split; [exact Hnd|]. split; [|reflexivity].
  exact (X21_fee_keys_stay_distinct toLowerCase Whole.parseFloat Whole.numberToString
           Sample2.day Sample.balanceStore Hnd).
Defined.

Lemma X22_order_totals_witness :
  Spec2.ordersBalanced Sample2.soldStore /\
  Spec2.ordersBalanced
    (MerchSales.handleCreateSale [Sample.shirt; Sample.sticker] Sample2.twoItems
       Sample2.soldStore) /\
  MerchSales.saleTotal (MerchSales.items Sample2.twoItems) = 130 /\
  List.length (sales_orders (SaleRefused.handleCreateSale Sample2.twoItems Sample2.soldStore))
  = 2%nat /\
  (Spec2.ordersBalanced (SaleRefused.handleCreateSale Sample2.twoItems Sample2.soldStore)
   <-> MerchSales.saleTotal (MerchSales.items Sample2.twoItems) = 0).
Proof.
  assert (Hbal : Spec2.ordersBalanced Sample2.soldStore).
  { split.
    - intros o Ho. vm_compute in Ho. destruct Ho as [<-|[]].
      split; [reflexivity|cbn; lia].
    - intros i Hi. vm_compute in Hi. destruct Hi as [<-|[]]. cbn. lia. }
  assert (Hne : MerchSales.items Sample2.twoItems <> []) by discriminate.
  destruct (X22_order_totals_and_refused_items [Sample.shirt; Sample.sticker]
              Sample2.twoItems Sample2.soldStore Hbal) as [Hkept Hrefused].
  destruct (Hrefused Hne) as (_ & _ & _ & _ & Hiff).
  split; [exact Hbal|]. split; [exact Hkept|]. split; [reflexivity|].
  split; [reflexivity|exact Hiff].
Defined.

Lemma X23_header_row_witness :
  nth_error Sample2.sheet 1 = Some Sample2.headerRow /\
  BankUpload.hasMarker Sample2.headerRow = true /\
  BankUpload.headersOf Whole.numberToString Sample2.sheet
  = (1%nat, [Some "Date"; Some "Description"; Some "Amount"]) /\
  BankUpload.headersOf Whole.numberToString Sample2.plainSheet
  = (0%nat, [Some "Booked"; None; Some "Sum"]) /\
  (exists u,
     BankUpload.handleFileUpload Whole.numberToString Sample2.plainSheet Sample2.noMapping
     = Some u /\
     BankUpload.columnNames u = ["Booked"; "Sum"]).
Proof.
  destruct (X23_header_row_detection Whole.numberToString) as (Hfound & Hnone & _).
  split; [reflexivity|split; [reflexivity|split; [|split]]].
  - refine (Hfound Sample2.sheet 1%nat Sample2.headerRow _ eq_refl eq_refl _).
    + lia.
    + intros j r Hj Hr. destruct j as [|j]; [|lia].
      cbn in Hr. injection Hr as <-. reflexivity.
  - refine (Hnone Sample2.plainSheet _).
    intros j r _ Hr. destruct j as [|[|j]]; cbn in Hr.
    + injection Hr as <-. reflexivity.
    + injection Hr as <-. reflexivity.
    + destruct j; discriminate Hr.
  - eexists. split; reflexivity.
Defined.

Lemma X24_parsed_rows_witness :
  exists u,
    BankUpload.handleFileUpload Whole.numberToString Sample2.plainSheet Sample2.noMapping
    = Some u /\
    BankUpload.headerRowIndex u = 0%nat /\
    BankUpload.parsedData u = [[("Booked", Str "01/02/2026"); ("Sum", Num 5)]].
Proof.
  eexists. split; [reflexivity|].
  destruct (X24_parsed_rows Whole.numberToString Sample2.plainSheet Sample2.noMapping _
              eq_refl) as (Hindex & Hrows & _).
  split; [reflexivity|].
  assert (Hsome : exists h,
             In (Some h) (snd (BankUpload.headersOf Whole.numberToString Sample2.plainSheet))
             /\ nonEmpty h = true).
  { exists "Booked". split; [vm_compute; left; reflexivity|reflexivity]. }
  rewrite (proj1 (Hrows Hsome)). reflexivity.
Defined.

Lemma X25_auto_mapping_witness :
  BankUpload.includesText Sample2.bankHeaders "Tarih/Saat" = true /\
  BankUpload.handleMappingNext (BankUpload.autoMapping Sample2.bankHeaders Sample2.noMapping)
  = 3%nat /\
  BankUpload.includesText ["Date"; "Description"; "Amount"] "Tarih/Saat" = false /\
  BankUpload.handleMappingNext
    (BankUpload.autoMapping ["Date"; "Description"; "Amount"] Sample2.noMapping)
  = 2%nat.
Proof.
  destruct X25_auto_mapping as [Hknown Hunknown].
  split; [reflexivity|]. split.
  - exact (proj2 (proj2 (proj2 (Hknown Sample2.bankHeaders Sample2.noMapping
                                  eq_refl eq_refl eq_refl)))).
  - split; [reflexivity|].
    exact (proj2 (Hunknown ["Date"; "Description"; "Amount"] Sample2.noMapping
                    eq_refl eq_refl)).
Defined.

Lemma X26_csv_round_trip_witness :
  exists content,
    Csv.exportToCSV Whole.numberToString Sample2.cashflowReport "cashflow"
    = Some ("cashflow.csv", content) /\
    map (split (isChar ",")) (split (isChar (ascii_of_nat 10)) content)
    = [["month"; "inflow"; "outflow"]; ["2024-01"; "200"; "0"]; ["2024-02"; "0"; "100"]].
Proof.
  refine (proj2 (X26_csv_round_trip Whole.numberToString) _ _ "cashflow" _ _ _).
  - discriminate.
  - repeat (constructor; try (split; reflexivity)).
  - repeat (constructor; try (split; reflexivity)).
Defined.

Lemma X27_csv_commas_witness :
  ["vendor"; "amount"] <> [] /\
  List.length
    (split (isChar ",")
       (Csv.rowLine Whole.numberToString ["vendor"; "amount"] Sample2.purchase))
  = 3%nat.
Proof.
  assert (Hne : ["vendor"; "amount"] <> []) by discriminate.
  split; [exact Hne|].
  rewrite (X27_csv_commas_not_escaped Whole.numberToString ["vendor"; "amount"]
             Sample2.purchase Hne).
  reflexivity.
Defined.

Lemma X28_sign_in_witness :
  fst (Auth.login Sample2.noEnv "admin" "guess" Sample2.signedOut) = false /\
  snd (Auth.login Sample2.noEnv "admin" "guess" Sample2.signedOut) = Sample2.signedOut /\
  fst (Auth.login Sample2.noEnv "admin" "iztech2024" Sample2.signedOut) = true.
Proof.
  destruct X28_sign_in_state as (Hlogin & Hfailed & _).
  split; [reflexivity|]. split.
  - exact (Hfailed Sample2.noEnv "admin" "guess" Sample2.signedOut eq_refl).
  - apply (proj2 (Hlogin Sample2.noEnv "admin" "iztech2024" Sample2.signedOut)).
    split; reflexivity.
Defined.

Lemma X29_fee_totals_witness :
  Forall (fun f => 0 <= f_amount (MembershipFees.fee f)) Sample2.feeRows /\
  0 <= FeeTotals.totalUnpaid Sample2.feeRows <= FeeTotals.totalFees Sample2.feeRows /\
  FeeTotals.totalUnpaid Sample2.feeRows = 200.
Proof.
  assert (Hpos : Forall (fun f => 0 <= f_amount (MembershipFees.fee f)) Sample2.feeRows).
  { repeat constructor; cbn; lia. }
  split; [exact Hpos|]. split; [|reflexivity].
  exact (proj2 (proj2 (X29_fee_totals Sample2.feeRows) Hpos)).
Defined.
